(** * ATS CV optimizer: scoring and optimization pipeline

    A shallow embedding of [ats_app/scanner.py], [ats_app/enhanced_scanner.py],
    [ats_app/cv_optimizer.py] and the grading part of [ats_app/report.py].

    Conventions of the embedding.
    - A Python [str] is a [string] holding its UTF-8 bytes.  The character
      classes ([str.isspace], [\d], [\w], [str.lower]) are the ASCII ones, and
      the bullet glyph U+2022 is the three-byte literal; the embedding is
      exact on text made of ASCII characters and that glyph.
    - A Python [int] is a [Z] (or a [nat] for a [len]).
    - A Python [float] is the rational number it stands for, and every
      operation on floats rounds its exact result to binary64 (nearest, ties
      to even: [Num.fl]); [int(x)] is truncation toward zero.  The exponent
      range is not bounded: no score of this program leaves it.  [sum] adds
      from left to right, as CPython does up to 3.11 (later versions
      compensate the additions of floats).
    - A [dict] with fixed keys is a record; a [dict] that is iterated is an
      association list in insertion order.
    - [try]/[except], logging and the HTTP call live in the monad [M]. *)

From Stdlib Require Import String Ascii List Bool Arith ZArith QArith Qround Qabs Qpower.
From Stdlib Require Import Lia Lqa Permutation.
From Stdlib Require DecimalString Floats.
Import ListNotations.

Close Scope Q_scope.
Local Open Scope string_scope.
Local Open Scope list_scope.
Local Open Scope nat_scope.

(** ** Python strings *)

Module Py.

(** [str.isspace] on ASCII: TAB, LF, VT, FF, CR, FS, GS, RS, US, space. *)
Definition isspace (c : ascii) : bool :=
  let n := nat_of_ascii c in
  ((9 <=? n) && (n <=? 13)) || ((28 <=? n) && (n <=? 32)).

Definition isdigit (c : ascii) : bool :=
  let n := nat_of_ascii c in (48 <=? n) && (n <=? 57).

Definition isupper (c : ascii) : bool :=
  let n := nat_of_ascii c in (65 <=? n) && (n <=? 90).

Definition islower (c : ascii) : bool :=
  let n := nat_of_ascii c in (97 <=? n) && (n <=? 122).

(** [\w]: letters, digits and the underscore. *)
Definition isword (c : ascii) : bool :=
  isupper c || islower c || isdigit c || (nat_of_ascii c =? 95).

Definition lower_char (c : ascii) : ascii :=
  if isupper c then ascii_of_nat (nat_of_ascii c + 32) else c.

(** [s.lower()] *)
Fixpoint lower (s : string) : string :=
  match s with
  | EmptyString => EmptyString
  | String c s' => String (lower_char c) (lower s')
  end.

Definition startswith (s p : string) : bool := prefix p s.

(** [needle in hay] *)
Fixpoint contains (needle hay : string) : bool :=
  prefix needle hay ||
  match hay with
  | EmptyString => false
  | String _ hay' => contains needle hay'
  end.

Fixpoint lstrip (s : string) : string :=
  match s with
  | EmptyString => EmptyString
  | String c s' => if isspace c then lstrip s' else s
  end.

Fixpoint rstrip (s : string) : string :=
  match s with
  | EmptyString => EmptyString
  | String c s' =>
      let r := rstrip s' in
      if isspace c && String.eqb r "" then "" else String c r
  end.

(** [s.strip()] *)
Definition strip (s : string) : string := rstrip (lstrip s).

(** [s.split(sep)] for a one-character separator: never the empty list. *)
Fixpoint split_on (sep : ascii) (s : string) : list string :=
  match s with
  | EmptyString => [""]
  | String c s' =>
      let r := split_on sep s' in
      if Ascii.eqb c sep then "" :: r
      else match r with
           | h :: t => String c h :: t
           | [] => [String c ""]
           end
  end.

Definition newline : ascii := ascii_of_nat 10.
Definition tab : ascii := ascii_of_nat 9.

(** [s.split('\n')] *)
Definition lines (s : string) : list string := split_on newline s.

(** [s.split()]: the maximal runs of non-space characters. *)
Fixpoint words (s : string) : list string :=
  match s with
  | EmptyString => []
  | String c s' =>
      let r := words s' in
      if isspace c then r
      else match s' with
           | EmptyString => [String c ""]
           | String d _ =>
               if isspace d then String c "" :: r
               else match r with
                    | h :: t => String c h :: t
                    | [] => [String c ""]
                    end
           end
  end.

(** [sep.join(l)] *)
Fixpoint join (sep : string) (l : list string) : string :=
  match l with
  | [] => ""
  | [x] => x
  | x :: l' => (x ++ sep ++ join sep l')%string
  end.

(** [s.replace(old, new)] for a non-empty [old]: the occurrences are taken
    left to right and do not overlap.  [skip] counts the characters of the
    occurrence just replaced that are still to be dropped. *)
Fixpoint replace_from (old new : string) (skip : nat) (s : string) : string :=
  match s with
  | EmptyString => EmptyString
  | String c s' =>
      match skip with
      | S k => replace_from old new k s'
      | O =>
          if prefix old s
          then (new ++ replace_from old new (String.length old - 1) s')%string
          else String c (replace_from old new 0 s')
      end
  end.

Definition replace (old new s : string) : string := replace_from old new 0 s.

(** [s.find(c)] and [s.rfind(c)] for one character: [-1] when absent. *)
Fixpoint find_from (c : ascii) (i : Z) (s : string) : Z :=
  match s with
  | EmptyString => (-1)%Z
  | String d s' => if Ascii.eqb d c then i else find_from c (i + 1)%Z s'
  end.

Definition find (c : ascii) (s : string) : Z := find_from c 0%Z s.

Fixpoint rfind_from (c : ascii) (i : Z) (s : string) : Z :=
  match s with
  | EmptyString => (-1)%Z
  | String d s' =>
      let r := rfind_from c (i + 1)%Z s' in
      if (0 <=? r)%Z then r else if Ascii.eqb d c then i else (-1)%Z
  end.

Definition rfind (c : ascii) (s : string) : Z := rfind_from c 0%Z s.

(** [s[i:j]] for [0 <= i] and [0 <= j]. *)
Definition slice (i j : Z) (s : string) : string :=
  substring (Z.to_nat i) (Z.to_nat j - Z.to_nat i) s.

(** [len(s)]: the number of characters, that is of bytes that do not
    continue a UTF-8 sequence. *)
Definition is_continuation (c : ascii) : bool :=
  let n := nat_of_ascii c in (128 <=? n) && (n <=? 191).

Fixpoint len (s : string) : nat :=
  match s with
  | EmptyString => 0
  | String c s' => if is_continuation c then len s' else S (len s')
  end.

(** [str(n)] for a non-negative [int]. *)
Definition str_of_nat (n : nat) : string :=
  DecimalString.NilZero.string_of_uint (Nat.to_uint n).

(** [any(f(x) for x in l)] and [sum(1 for x in l if f(x))] *)
Definition any {A} (f : A -> bool) (l : list A) : bool := existsb f l.
Definition count {A} (f : A -> bool) (l : list A) : nat :=
  List.length (filter f l).

(** The one-character string. *)
Definition chr (c : ascii) : string := String c EmptyString.

Definition dquote : string := chr (ascii_of_nat 34).

(** The bullet glyph U+2022 in UTF-8. *)
Definition bullet_glyph : string :=
  String (ascii_of_nat 226) (String (ascii_of_nat 128) (chr (ascii_of_nat 162))).

End Py.

(** ** Numbers *)

Module Num.

(** [int(x)] for a float [x]: truncation toward zero. *)
Definition py_int (x : Q) : Z := Z.quot (Qnum x) (Zpos (Qden x)).

Definition Qlt_bool (x y : Q) : bool := negb (Qle_bool y x).

(** [round(x)]: the nearest integer, the even one of two equally near. *)
Definition py_round (x : Q) : Z :=
  let f := Qfloor x in
  let d := (x - inject_Z f)%Q in
  match (d ?= (1 # 2))%Q with
  | Lt => f
  | Gt => (f + 1)%Z
  | Eq => if Z.even f then f else (f + 1)%Z
  end.

Definition pow2 (k : Z) : Q := Qpower 2 k.

(** The integer [k] with [2^k <= x < 2^(k+1)], for a positive [x]. *)
Definition ilog2 (x : Q) : Z :=
  let k := (Z.log2 (Qnum x) - Z.log2 (Zpos (Qden x)))%Z in
  if Qle_bool (pow2 k) x then k else (k - 1)%Z.

(** The binary64 number nearest to a positive [x]: 53 significant bits,
    ties to the even significand. *)
Definition fl_pos (x : Q) : Q :=
  let e := (ilog2 x - 52)%Z in
  (inject_Z (py_round (x / pow2 e)) * pow2 e)%Q.

(** Rounding to binary64, in lowest terms, so that two floats are equal
    exactly when they are the same term. *)
Definition fl (x : Q) : Q :=
  let x := Qred x in
  match Qnum x with
  | Z0 => 0%Q
  | Zpos _ => Qred (fl_pos x)
  | Zneg _ => Qred (- fl_pos (- x))
  end.

(** A decimal literal of the source, [0.3] say. *)
Definition lit (q : Q) : Q := fl q.

(** [float(n)], the conversion Python applies to an [int] operand that
    meets a float. *)
Definition of_Z (n : Z) : Q := fl (inject_Z n).
Definition of_nat (n : nat) : Q := of_Z (Z.of_nat n).

(** The value of an [int] where it is compared with a float: comparisons
    are exact. *)
Definition int (n : nat) : Q := inject_Z (Z.of_nat n).

Definition fadd (x y : Q) : Q := fl (x + y).
Definition fsub (x y : Q) : Q := fl (x - y).
Definition fmul (x y : Q) : Q := fl (x * y).
Definition fdiv (x y : Q) : Q := fl (x / y).

(** [a / b] on two [int]s: the quotient, rounded once. *)
Definition div_Z (a b : Z) : Q := fl (inject_Z a / inject_Z b).
Definition div_nat (a b : nat) : Q := div_Z (Z.of_nat a) (Z.of_nat b).

(** [min(x, y)] and [max(x, y)]: the first argument unless the second is
    strictly better. *)
Definition min (x y : Q) : Q := if Qlt_bool y x then y else x.
Definition max (x y : Q) : Q := if Qlt_bool x y then y else x.

(** [a / b * 100] on two lengths, [b] guarded by the caller. *)
Definition percent (a b : nat) : Q := fmul (div_nat a b) 100.

(** [sum(l)]: the additions from left to right, each rounded.  The start
    value is the [int] 0, to which the first float is added exactly. *)
Definition sum (l : list Q) : Q :=
  match l with
  | [] => 0%Q
  | x :: l => fold_left fadd l x
  end.

End Num.

Notation "x [+] y" := (Num.fadd x y) (at level 50, left associativity).
Notation "x [-] y" := (Num.fsub x y) (at level 50, left associativity).
Notation "x [*] y" := (Num.fmul x y) (at level 40, left associativity).
Notation "x [/] y" := (Num.fdiv x y) (at level 40, left associativity).

(** The floats of the kernel, against which [Num.fl] is checked on the
    rates and the weighted scores of this program. *)
Module Binary64.

(** The rational number a float stands for. *)
Definition value (f : PrimFloat.float) : Q :=
  match FloatOps.Prim2SF f with
  | SpecFloat.S754_finite sign m e =>
      Qred ((if sign then -1 else 1) * inject_Z (Zpos m) * Num.pow2 e)
  | _ => 0%Q
  end.

(** [float(n)] *)
Definition of_Z (n : Z) : PrimFloat.float := PrimFloat.of_uint63 (Uint63.of_Z n).

(** The literal that reads [n / d], [d] a power of ten. *)
Definition lit (n d : Z) : PrimFloat.float := PrimFloat.div (of_Z n) (of_Z d).

Definition upto (n : nat) : list Z := map Z.of_nat (seq 0 (S n)).

(** [a / b] and [a / b * 100] on the lengths up to [n]. *)
Definition rates_agree (n : nat) : bool :=
  forallb (fun b =>
    forallb (fun a =>
      Qeq_bool (value (PrimFloat.div (of_Z a) (of_Z b))) (Num.div_Z a b)
      && Qeq_bool (value (PrimFloat.mul (PrimFloat.div (of_Z a) (of_Z b))
                                        (of_Z 100)))
                  (Num.div_Z a b [*] 100))
      (upto n)) (tl (upto n)).

(** [score * weight] on the scores up to 100, and the sum and the
    difference of two such products. *)
Definition weights_agree (w : Z) : bool :=
  forallb (fun s =>
    let x := PrimFloat.mul (of_Z s) (lit w 100) in
    let y := PrimFloat.mul (of_Z (100 - s)) (lit 7 100) in
    let x' := Num.of_Z s [*] Num.lit (w # 100) in
    let y' := Num.of_Z (100 - s) [*] Num.lit (7 # 100) in
    Qeq_bool (value x) x'
    && Qeq_bool (value (PrimFloat.add x y)) (x' [+] y')
    && Qeq_bool (value (PrimFloat.sub x y)) (x' [-] y'))
    (upto 100).

End Binary64.

(** ** Regular expressions, as the module [re] matches them

    A backtracking matcher in continuation-passing style: alternatives are
    tried in order, [Star] is greedy and [Lazy] is not, and the first
    complete match wins, which is the result Python reports.  Patterns are
    syntax trees; each pattern of the source is written out next to its
    use. *)

Module Re.

Inductive re : Type :=
| Eps
| Chr (p : ascii -> bool)     (* one character of a class *)
| Lit (s : string)            (* literal text *)
| LitI (s : string)           (* literal lower-case text under [re.I] *)
| Bol                         (* [^] under [re.MULTILINE] *)
| Eol                         (* [$] under [re.MULTILINE] *)
| Wordb                       (* [\b] *)
| Cat (r1 r2 : re)
| Alt (r1 r2 : re)
| Star (r : re)               (* [r*] *)
| Lazy (r : re)               (* [r*?] *)
| Group (i : nat) (r : re).   (* the [i]-th capturing group *)

Definition Plus (r : re) : re := Cat r (Star r).
Definition Opt (r : re) : re := Alt r Eps.

(** [r{n}] *)
Fixpoint Rep (n : nat) (r : re) : re :=
  match n with
  | O => Eps
  | S n' => Cat r (Rep n' r)
  end.

Fixpoint Cats (l : list re) : re :=
  match l with
  | [] => Eps
  | [r] => r
  | r :: l' => Cat r (Cats l')
  end.

Fixpoint Alts (l : list re) : re :=
  match l with
  | [] => Chr (fun _ => false)
  | [r] => r
  | r :: l' => Alt r (Alts l')
  end.

(** The classes of the patterns. *)
Definition digit : re := Chr Py.isdigit.
Definition space : re := Chr Py.isspace.
Definition word : re := Chr Py.isword.
Definition dot : re := Chr (fun c => negb (Ascii.eqb c Py.newline)).
Definition one_of (s : string) : re :=
  Chr (fun c => Py.contains (Py.chr c) s).

(** A position in the subject: the character before it, its offset, the
    text from it on, and the groups captured so far. *)
Record Cursor : Type := mkCursor {
  before : option ascii;
  pos : nat;
  rest : string;
  caps : list (nat * string)
}.

Definition step (c : Cursor) : Cursor :=
  match rest c with
  | EmptyString => c
  | String a s' => mkCursor (Some a) (S (pos c)) s' (caps c)
  end.

Fixpoint steps (n : nat) (c : Cursor) : Cursor :=
  match n with
  | O => c
  | S n' => steps n' (step c)
  end.

Definition is_word_opt (o : option ascii) : bool :=
  match o with Some a => Py.isword a | None => false end.

Definition next (c : Cursor) : option ascii :=
  match rest c with
  | EmptyString => None
  | String a _ => Some a
  end.

Definition is_newline_opt (o : option ascii) : bool :=
  match o with Some a => Ascii.eqb a Py.newline | None => true end.

(** [run r c k]: match [r] at [c] and hand the position reached to [k];
    [None] makes the matcher backtrack.  A turn of a star that consumes
    nothing is refused, so that the iteration ends. *)
Fixpoint run (r : re) (c : Cursor) (k : Cursor -> option Cursor)
    {struct r} : option Cursor :=
  match r with
  | Eps => k c
  | Chr p =>
      match rest c with
      | String a _ => if p a then k (step c) else None
      | EmptyString => None
      end
  | Lit s =>
      if prefix s (rest c) then k (steps (String.length s) c) else None
  | LitI s =>
      if prefix s (Py.lower (rest c)) then k (steps (String.length s) c)
      else None
  | Bol => if is_newline_opt (before c) then k c else None
  | Eol => if is_newline_opt (next c) then k c else None
  | Wordb =>
      if xorb (is_word_opt (before c)) (is_word_opt (next c)) then k c
      else None
  | Cat r1 r2 => run r1 c (fun c' => run r2 c' k)
  | Alt r1 r2 =>
      match run r1 c k with
      | Some x => Some x
      | None => run r2 c k
      end
  | Star r' =>
      (fix loop (fuel : nat) (c : Cursor) {struct fuel} : option Cursor :=
         match fuel with
         | O => k c
         | S fuel' =>
             match run r' c (fun c' => if pos c <? pos c' then loop fuel' c'
                                       else None) with
             | Some x => Some x
             | None => k c
             end
         end) (String.length (rest c)) c
  | Lazy r' =>
      (fix loop (fuel : nat) (c : Cursor) {struct fuel} : option Cursor :=
         match k c with
         | Some x => Some x
         | None =>
             match fuel with
             | O => None
             | S fuel' =>
                 run r' c (fun c' => if pos c <? pos c' then loop fuel' c'
                                     else None)
             end
         end) (String.length (rest c)) c
  | Group i r' =>
      run r' c
          (fun c' =>
             k (mkCursor (before c') (pos c') (rest c')
                         ((i, substring 0 (pos c' - pos c) (rest c)) :: caps c')))
  end.

(** A match: where it starts and ends, its text and its groups. *)
Record Match : Type := mkMatch {
  m_start : nat;
  m_end : nat;
  text : string;
  groups : list (nat * string)
}.

(** [m.group(i)], the empty text for a group that took no part (as
    [findall] reports it). *)
Fixpoint group (i : nat) (g : list (nat * string)) : string :=
  match g with
  | [] => ""
  | (j, s) :: g' => if i =? j then s else group i g'
  end.

Definition match_at (r : re) (c : Cursor) : option (Match * Cursor) :=
  match run r (mkCursor (before c) (pos c) (rest c) []) (fun c' => Some c') with
  | Some c' =>
      Some (mkMatch (pos c) (pos c')
                    (substring 0 (pos c' - pos c) (rest c)) (caps c'), c')
  | None => None
  end.

(** The leftmost match at or after [c]: [fuel] is at least the length of
    the text left. *)
Fixpoint scan (fuel : nat) (r : re) (c : Cursor) : option (Cursor * Match * Cursor) :=
  match match_at r c with
  | Some (m, c') => Some (c, m, c')
  | None =>
      match fuel, rest c with
      | S fuel', String _ _ => scan fuel' r (step c)
      | _, _ => None
      end
  end.

Definition start (s : string) : Cursor := mkCursor None 0 s [].

(** [re.search(r, s)] *)
Definition search (r : re) (s : string) : option Match :=
  match scan (String.length s) r (start s) with
  | Some (_, m, _) => Some m
  | None => None
  end.

(** [bool(re.search(r, s))] *)
Definition matches (r : re) (s : string) : bool :=
  match search r s with Some _ => true | None => false end.

(** The successive matches of [re.findall] and [re.finditer]: the search
    resumes where the last match ended, one character further after an
    empty match (no pattern below matches the empty text). *)
Fixpoint finditer_from (fuel : nat) (r : re) (c : Cursor) : list Match :=
  match fuel with
  | O => []
  | S fuel' =>
      match scan (String.length (rest c)) r c with
      | None => []
      | Some (c0, m, c1) =>
          m :: (if pos c0 <? pos c1 then finditer_from fuel' r c1
                else match rest c1 with
                     | EmptyString => []
                     | String _ _ => finditer_from fuel' r (step c1)
                     end)
      end
  end.

Definition finditer (r : re) (s : string) : list Match :=
  finditer_from (S (String.length s)) r (start s).

(** [re.findall(r, s)] for a pattern without groups. *)
Definition findall (r : re) (s : string) : list string :=
  map text (finditer r s).

(** [re.split(r, s)] for a pattern without groups: the pieces between the
    matches. *)
Fixpoint pieces (from : nat) (ms : list Match) (s : string) : list string :=
  match ms with
  | [] => [substring from (String.length s - from) s]
  | m :: ms' => substring from (m_start m - from) s :: pieces (m_end m) ms' s
  end.

Definition split (r : re) (s : string) : list string :=
  pieces 0 (finditer r s) s.

End Re.

(** ** Effects: exceptions, the error log and the network

    A computation takes the world and returns an exception or a value
    together with the new world: what happened before a [raise] (a request
    sent, a message logged) stays in the world, as in Python. *)

Inductive Exn : Type :=
| TypeError | AttributeError | ValueError | KeyError
| ZeroDivisionError | RecursionError
| JSONDecodeError | ConnectionError | ReadTimeout | HTTPError.

Record World : Type := mkWorld {
  net_calls : nat;        (* requests sent with [requests.post] *)
  errors_logged : nat;    (* calls of [logger.error] *)
  clock : string          (* what [datetime.now().isoformat()] reads *)
}.

Definition M (A : Type) : Type := World -> (Exn + A) * World.

Definition ret {A} (a : A) : M A := fun w => (inr a, w).

Definition bind {A B} (m : M A) (f : A -> M B) : M B :=
  fun w => match m w with
           | (inl e, w') => (inl e, w')
           | (inr a, w') => f a w'
           end.

Definition raise {A} (e : Exn) : M A := fun w => (inl e, w).

(** [try: body  except Exception as e: handler(e)] *)
Definition try_except {A} (body : M A) (handler : Exn -> M A) : M A :=
  fun w => match body w with
           | (inl e, w') => handler e w'
           | (inr a, w') => (inr a, w')
           end.

(** [try: body  except C as e: handler(e)] for the exceptions selected by [is_c] *)
Definition try_except_only {A} (is_c : Exn -> bool) (body : M A)
    (handler : Exn -> M A) : M A :=
  try_except body (fun e => if is_c e then handler e else raise e).

Definition log_error : M unit :=
  fun w => (inr tt, mkWorld (net_calls w) (S (errors_logged w)) (clock w)).

Definition now_isoformat : M string := fun w => (inr (clock w), w).

Declare Scope monad_scope.
Delimit Scope monad_scope with monad.
Notation "x <- m ;; k" := (bind m (fun x => k))
  (at level 61, m at next level, right associativity) : monad_scope.
Notation "m ;; k" := (bind m (fun _ => k))
  (at level 61, right associativity) : monad_scope.

Definition is_JSONDecodeError (e : Exn) : bool :=
  match e with JSONDecodeError => true | _ => false end.

(** ** JSON values, as [json.loads] and [response.json()] return them *)

#[local] Unset Elimination Schemes.
Inductive JValue : Type :=
| JNull
| JBool (b : bool)
| JNum (q : Q)
| JStr (s : string)
| JArr (l : list JValue)
| JObj (kv : list (string * JValue)).
#[local] Set Elimination Schemes.

(** [d.get(k)] on a [dict] kept as an association list with distinct keys. *)
Fixpoint lookup {V} (k : string) (d : list (string * V)) : option V :=
  match d with
  | [] => None
  | (k', v) :: d' => if String.eqb k k' then Some v else lookup k d'
  end.

(** [k in d] *)
Definition has_key {V} (k : string) (d : list (string * V)) : bool :=
  match lookup k d with Some _ => true | None => false end.

(** [x in l] for a list of strings. *)
Definition mem (x : string) (l : list string) : bool := existsb (String.eqb x) l.

(** ** [cv_optimizer.py]: the optimization engine *)

Module CVOptimizer.

Local Open Scope monad_scope.

Definition bullet_prefixes : list string := [Py.bullet_glyph; "-"; "*"].

(** [line.strip().startswith(('•', '-', '*'))] *)
Definition is_bullet (line : string) : bool :=
  Py.any (Py.startswith (Py.strip line)) bullet_prefixes.

Definition quantifier_chars : list string :=
  ["%"; "$"; "0"; "1"; "2"; "3"; "4"; "5"; "6"; "7"; "8"; "9"].

Definition power_verbs : list string :=
  ["architected"; "orchestrated"; "spearheaded"; "optimized"; "transformed"].

(** The keys of [section_patterns] with the pattern text of each: the code
    tests [pattern in line], the pattern taken as plain text. *)
Definition section_patterns : list (string * string) :=
  [("summary", "(summary|profile|objective)");
   ("experience", "(experience|work|employment|career)");
   ("education", "education");
   ("skills", "skills");
   ("certifications", "(certifications|certificates)");
   ("projects", "projects")].

Definition _detect_sections (cv_text : string) : list string :=
  let cv_lower := Py.lower cv_text in
  map fst
    (filter (fun sp => Py.any (Py.contains (snd sp)) (Py.lines cv_lower))
            section_patterns).

Record Analysis : Type := mkAnalysis {
  total_bullets : nat;
  quantified_bullets : nat;
  quantification_rate : Q;
  power_verb_count : nat;
  word_count : nat;
  sections_detected : list string
}.

Definition _analyze_current_cv (cv_text : string) : Analysis :=
  let lines := Py.lines cv_text in
  let bullets := filter is_bullet lines in
  let quantified_bullets :=
    Py.count (fun bullet => Py.any (fun char => Py.contains char bullet)
                                   quantifier_chars) bullets in
  let power_verb_count :=
    Py.count (fun verb => Py.contains (Py.lower verb) (Py.lower cv_text))
             power_verbs in
  {| total_bullets := List.length bullets;
     quantified_bullets := quantified_bullets;
     quantification_rate :=
       Num.percent quantified_bullets (Nat.max (List.length bullets) 1);
     power_verb_count := power_verb_count;
     word_count := List.length (Py.words cv_text);
     sections_detected := _detect_sections cv_text |}.

(** *** The context of an optimization *)

Record JobRequirements : Type := mkJobRequirements {
  required_skills : list string;
  experience_years : Z;
  key_responsibilities : list string;
  company_culture : list string
}.

Definition _extract_responsibilities (job_description : string) : list string :=
  let lines := Py.lines job_description in
  let responsibilities :=
    map Py.strip
        (filter (fun line =>
                   Py.any (fun indicator => Py.contains indicator (Py.lower line))
                          ["responsible for"; "will"; "you will"])
                lines) in
  firstn 5 responsibilities.

Definition _extract_culture_keywords (job_description : string) : list string :=
  let culture_keywords :=
    ["collaborative"; "innovative"; "agile"; "fast-paced"; "team-oriented";
     "entrepreneurial"] in
  let jd_lower := Py.lower job_description in
  filter (fun keyword => Py.contains keyword jd_lower) culture_keywords.

Definition _extract_job_requirements (job_description : string)
    : JobRequirements :=
  let jd_lower := Py.lower job_description in
  let tech_skills :=
    ["python"; "java"; "javascript"; "docker"; "kubernetes"; "aws"; "azure";
     "devops"] in
  let required_skills := filter (fun skill => Py.contains skill jd_lower) tech_skills in
  let experience_years :=
    if Py.contains "senior" jd_lower || Py.contains "lead" jd_lower then 5%Z
    else if Py.contains "mid" jd_lower || Py.contains "intermediate" jd_lower then 3%Z
    else if Py.contains "junior" jd_lower || Py.contains "entry" jd_lower then 1%Z
    else 0%Z in
  {| required_skills := required_skills;
     experience_years := experience_years;
     key_responsibilities := _extract_responsibilities job_description;
     company_culture := _extract_culture_keywords job_description |}.

Record Guidelines : Type := mkGuidelines {
  max_changes_per_section : Z;
  preserve_structure : bool;
  focus_areas : list string;
  risk_level : string
}.

Definition guidelines : list (string * Guidelines) :=
  [("conservative",
    {| max_changes_per_section := 2; preserve_structure := true;
       focus_areas := ["quantification"; "action_verbs"];
       risk_level := "low" |});
   ("balanced",
    {| max_changes_per_section := 4; preserve_structure := true;
       focus_areas := ["quantification"; "action_verbs"; "keywords"; "impact"];
       risk_level := "medium" |});
   ("aggressive",
    {| max_changes_per_section := 6; preserve_structure := false;
       focus_areas := ["complete_rewrite"; "quantification"; "action_verbs";
                       "keywords"; "impact"; "structure"];
       risk_level := "high" |})].

Definition balanced : Guidelines :=
  {| max_changes_per_section := 4; preserve_structure := true;
     focus_areas := ["quantification"; "action_verbs"; "keywords"; "impact"];
     risk_level := "medium" |}.

(** [guidelines.get(optimization_level, guidelines['balanced'])] *)
Definition _get_optimization_guidelines (optimization_level : string)
    : Guidelines :=
  match lookup optimization_level guidelines with
  | Some g => g
  | None => balanced
  end.

(** The context [dict].  Its entry [industry_standards] holds the catalog of
    [industry_standards.py]; nothing in the engine reads it and it is left
    out.  [job_requirements] is [None] for the empty [dict]. *)
Record Context : Type := mkContext {
  cv_text : string;
  job_description : string;
  job_requirements : option JobRequirements;
  optimization_level : string;
  current_analysis : Analysis;
  optimization_guidelines : Guidelines
}.

Definition _prepare_optimization_context
    (cv_text job_description optimization_level : string) : Context :=
  let current_analysis := _analyze_current_cv cv_text in
  let job_requirements :=
    if String.eqb job_description "" then None
    else Some (_extract_job_requirements job_description) in
  {| cv_text := cv_text;
     job_description := job_description;
     job_requirements := job_requirements;
     optimization_level := optimization_level;
     current_analysis := current_analysis;
     optimization_guidelines := _get_optimization_guidelines optimization_level |}.

(** *** The rule-based fallback *)

Record Improvement : Type := mkImprovement {
  section : string;
  original : string;
  improved : string;
  reason : string;
  impact_score : Z
}.

Definition verb_replacements : list (string * string) :=
  [("worked on", "developed");
   ("helped with", "contributed to");
   ("was responsible for", "managed");
   ("assisted", "supported")].

(** One turn of the inner loop [for weak, strong in verb_replacements.items()]
    on the state [(optimized_line, improvements)]: the replacement is
    always made on [line.lower()], not on [optimized_line]. *)
Definition replace_weak (line : string)
    (st : string * list Improvement) (ws : string * string)
    : string * list Improvement :=
  let '(weak, strong) := ws in
  let original_line := line in
  if Py.contains weak (Py.lower line) then
    let optimized_line := Py.replace weak strong (Py.lower line) in
    if negb (String.eqb optimized_line original_line) then
      (optimized_line,
       snd st ++
       [ {| section := "experience";
            original := original_line;
            improved := optimized_line;
            reason := ("Replaced weak verb " ++ Py.dquote ++ weak ++ Py.dquote
                       ++ " with stronger " ++ Py.dquote ++ strong
                       ++ Py.dquote)%string;
            impact_score := 6 |} ])
    else (optimized_line, snd st)
  else st.

(** One turn of the outer loop [for line in lines] on the state
    [(optimized_lines, improvements)]. *)
Definition optimize_line (st : list string * list Improvement) (line : string)
    : list string * list Improvement :=
  let '(optimized_line, improvements) :=
    fold_left (replace_weak line) verb_replacements (line, snd st) in
  (fst st ++ [optimized_line], improvements).

(** What [_generate_optimizations] returns: the object decoded from the
    reply of the LLM, handed on as it is, or a [dict] built by the engine.
    [fallback_used] is [false] where the key is absent. *)
Inductive OptResult : Type :=
| LLMResult (obj : list (string * JValue))
| LocalResult (optimized_content : string) (improvements : list Improvement)
              (summary : string) (fallback_used : bool).

Definition _fallback_optimization_on (cv_text : string) : OptResult :=
  let lines := Py.lines cv_text in
  let '(optimized_lines, improvements) :=
    fold_left optimize_line lines ([], []) in
  LocalResult (Py.join (Py.chr Py.newline) optimized_lines)
              improvements
              ("Applied " ++ Py.str_of_nat (List.length improvements)
               ++ " rule-based improvements")%string
              true.

Definition _create_fallback_response (original_cv : string) : OptResult :=
  LocalResult original_cv []
              "Optimization failed - original content preserved" true.

(** [result['optimized_content']], [result['improvements']] (its length
    where it is a list) and [result.get('fallback_used')]. *)
Definition optimized_content (r : OptResult) : option JValue :=
  match r with
  | LLMResult obj => lookup "optimized_content" obj
  | LocalResult c _ _ _ => Some (JStr c)
  end.

Definition fallback_used (r : OptResult) : bool :=
  match r with
  | LLMResult obj =>
      match lookup "fallback_used" obj with
      | Some (JBool true) => true
      | _ => false
      end
  | LocalResult _ _ _ b => b
  end.

Definition improvements_of (r : OptResult) : list Improvement :=
  match r with
  | LLMResult _ => []
  | LocalResult _ imps _ _ => imps
  end.

(** *** The prompt and the call of the LLM *)

(** The prompt is a fixed text with these values written into it; the
    embedding keeps the values.  [prompt_job] is the part added for a
    job description: the description and the required skills, joined. *)
Record Prompt : Type := mkPrompt {
  prompt_cv_text : string;
  prompt_level : string;
  prompt_total_bullets : nat;
  prompt_quantified_bullets : nat;
  prompt_quantification_rate : Q;
  prompt_power_verbs : nat;
  prompt_focus : string;
  prompt_max_changes : Z;
  prompt_risk : string;
  prompt_job : option (string * string)
}.

Definition _create_optimization_prompt (context : Context) : Prompt :=
  {| prompt_cv_text := cv_text context;
     prompt_level := optimization_level context;
     prompt_total_bullets := total_bullets (current_analysis context);
     prompt_quantified_bullets := quantified_bullets (current_analysis context);
     prompt_quantification_rate := quantification_rate (current_analysis context);
     prompt_power_verbs := power_verb_count (current_analysis context);
     prompt_focus := Py.join ", " (focus_areas (optimization_guidelines context));
     prompt_max_changes := max_changes_per_section (optimization_guidelines context);
     prompt_risk := risk_level (optimization_guidelines context);
     prompt_job :=
       if String.eqb (job_description context) "" then None
       else Some (job_description context,
                  Py.join ", "
                    (match job_requirements context with
                     | Some jr => required_skills jr
                     | None => []
                     end)) |}.

Record LLMConfig : Type := mkLLMConfig {
  provider : string;
  model : string;
  base_url : string
}.

Definition default_llm_config : LLMConfig :=
  {| provider := "ollama"; model := "deepseek-r1:8b";
     base_url := "http://localhost:11434" |}.

Record Payload : Type := mkPayload {
  payload_model : string;
  payload_prompt : Prompt;
  payload_stream : bool;
  payload_temperature : Q;
  payload_top_p : Q;
  payload_max_tokens : Z
}.

(** What [requests.post] gives back: its status code and what
    [response.json()] makes of its body (an exception when the body is not
    JSON). *)
Record Response : Type := mkResponse {
  status_code : Z;
  json_body : Exn + JValue
}.

(** The two libraries the engine calls out to.  [post url payload] is the
    outcome of [requests.post(url, json=payload, timeout=120)], an exception
    when no response arrives.  [decode_object s] is [json.loads(s)] for a
    text [s] that starts with an opening brace: the decoded object, or the
    exception raised, [json.JSONDecodeError] for a text that is not JSON
    and another one where the decoder gives up on a text, [RecursionError]
    for one nested too deep. *)
Record Services : Type := mkServices {
  post : string -> Payload -> Exn + Response;
  decode_object : string -> Exn + list (string * JValue)
}.

Section Engine.

Variable llm_config : LLMConfig.
Variable services : Services.

Definition requests_post (url : string) (payload : Payload) : M Response :=
  fun w =>
    let w' := mkWorld (S (net_calls w)) (errors_logged w) (clock w) in
    match post services url payload with
    | inl e => (inl e, w')
    | inr r => (inr r, w')
    end.

Definition raise_for_status (r : Response) : M unit :=
  if ((400 <=? status_code r) && (status_code r <? 600))%Z
  then raise HTTPError else ret tt.

Definition response_json (r : Response) : M JValue :=
  match json_body r with
  | inl e => raise e
  | inr v => ret v
  end.

(** [v.get('response', '')]: only a [dict] has [get]. *)
Definition get_response (v : JValue) : M JValue :=
  match v with
  | JObj kv => match lookup "response" kv with
               | Some x => ret x
               | None => ret (JStr "")
               end
  | _ => raise AttributeError
  end.

Definition _call_llm_api (prompt : Prompt) : M JValue :=
  try_except
    (if String.eqb (provider llm_config) "ollama" then
       let url := (base_url llm_config ++ "/api/generate")%string in
       let payload :=
         {| payload_model := model llm_config;
            payload_prompt := prompt;
            payload_stream := false;
            payload_temperature := 3 # 10;
            payload_top_p := 9 # 10;
            payload_max_tokens := 4000 |} in
       response <- requests_post url payload ;;
       raise_for_status response ;;
       v <- response_json response ;;
       get_response v
     else raise ValueError)
    (fun e => log_error ;; raise e).

(** [json.loads(json_str)]: the slice is empty or starts at the first
    opening brace of the response. *)
Definition json_loads (json_str : string) : M (list (string * JValue)) :=
  match json_str with
  | EmptyString => raise JSONDecodeError
  | _ => match decode_object services json_str with
         | inr obj => ret obj
         | inl e => raise e
         end
  end.

Definition lbrace : ascii := ascii_of_nat 123.
Definition rbrace : ascii := ascii_of_nat 125.

Definition llm_improvement : Improvement :=
  {| section := "general";
     original := "Various sections";
     improved := "Enhanced content";
     reason := "LLM optimization applied";
     impact_score := 7 |}.

(** [response] is whatever [_call_llm_api] returned: [find] exists on a
    [str] only. *)
Definition _parse_optimization_response (response : JValue)
    (original_cv : string) : M OptResult :=
  try_except_only is_JSONDecodeError
    (match response with
     | JStr response =>
         let start_idx := Py.find lbrace response in
         let end_idx := (Py.rfind rbrace response + 1)%Z in
         returned <-
           (if negb (start_idx =? -1)%Z && negb (end_idx =? 0)%Z then
              let json_str := Py.slice start_idx end_idx response in
              result <- json_loads json_str ;;
              if has_key "optimized_content" result
                 && has_key "improvements" result
              then ret (Some (LLMResult result))
              else ret None
            else ret None) ;;
         match returned with
         | Some result => ret result
         | None =>
             ret (LocalResult
                    (if Num.Qlt_bool (Num.of_nat (Py.len original_cv) [*] Num.lit 0.8)
                                     (Num.int (Py.len response))
                     then response else original_cv)
                    [llm_improvement]
                    "CV optimized using AI analysis"
                    false)
         end
     | _ => raise AttributeError
     end)
    (fun e => log_error ;; ret (_create_fallback_response original_cv)).

Definition _fallback_optimization (context : Context) : OptResult :=
  _fallback_optimization_on (cv_text context).

(** The body of the [try] of [_generate_optimizations]. *)
Definition llm_optimization (context : Context) : M OptResult :=
  let prompt := _create_optimization_prompt context in
  response <- _call_llm_api prompt ;;
  _parse_optimization_response response (cv_text context).

Definition _generate_optimizations (context : Context) : M OptResult :=
  try_except
    (llm_optimization context)
    (fun e => log_error ;; ret (_fallback_optimization context)).

End Engine.

(** *** Validation of a rewrite *)

Record Deltas : Type := mkDeltas {
  quantification_improvement : Q;
  power_verb_improvement : Z;
  length_change : Z;
  bullet_count_change : Z
}.

Record Validation : Type := mkValidation {
  improvements : Deltas;
  improvement_score : Z;
  validation_passed : bool;
  original_analysis : Analysis;
  optimized_analysis : Analysis
}.

Definition _validate_improvements (original optimized : string) : Validation :=
  let original_analysis := _analyze_current_cv original in
  let optimized_analysis := _analyze_current_cv optimized in
  let improvements :=
    {| quantification_improvement :=
         quantification_rate optimized_analysis
         [-] quantification_rate original_analysis;
       power_verb_improvement :=
         (Z.of_nat (power_verb_count optimized_analysis)
          - Z.of_nat (power_verb_count original_analysis))%Z;
       length_change :=
         (Z.of_nat (List.length (Py.words optimized))
          - Z.of_nat (List.length (Py.words original)))%Z;
       bullet_count_change :=
         (Z.of_nat (total_bullets optimized_analysis)
          - Z.of_nat (total_bullets original_analysis))%Z |} in
  let improvement_score := 0%Z in
  let improvement_score :=
    if Num.Qlt_bool 0 (quantification_improvement improvements)
    then (improvement_score + 30)%Z else improvement_score in
  let improvement_score :=
    if (0 <? power_verb_improvement improvements)%Z
    then (improvement_score + 25)%Z else improvement_score in
  let improvement_score :=
    if ((-50 <=? length_change improvements)
        && (length_change improvements <=? 200))%Z
    then (improvement_score + 20)%Z else improvement_score in
  let improvement_score :=
    if (0 <=? bullet_count_change improvements)%Z
    then (improvement_score + 25)%Z else improvement_score in
  {| improvements := improvements;
     improvement_score := improvement_score;
     validation_passed := (50 <=? improvement_score)%Z;
     original_analysis := original_analysis;
     optimized_analysis := optimized_analysis |}.

(** *** Suggestions *)

Record Suggestion : Type := mkSuggestion {
  category : string;
  priority : string;
  suggestion : string;
  impact : string;
  examples : list string
}.

(** The two collections the section check works on. *)
Inductive PyColl : Type :=
| PyList (l : list string)
| PySet (l : list string).

(** [set(l)], its elements kept once. *)
Definition py_set (l : list string) : PyColl :=
  PySet (fold_right (fun x acc => if mem x acc then acc else x :: acc) [] l).

(** [a - b]: the difference of two sets.  A list has no [__sub__], and
    [set.__rsub__] returns [NotImplemented] for an operand that is not a
    set, so a list minus a set raises [TypeError]. *)
Definition py_sub (a b : PyColl) : M PyColl :=
  match a, b with
  | PySet x, PySet y => ret (PySet (filter (fun e => negb (mem e y)) x))
  | _, _ => raise TypeError
  end.

Definition elements (c : PyColl) : list string :=
  match c with PyList l => l | PySet l => l end.

Definition get_optimization_suggestions (cv_text job_description : string)
    : M (list Suggestion) :=
  try_except
    (let analysis := _analyze_current_cv cv_text in
     let suggestions := [] in
     let suggestions :=
       if Num.Qlt_bool (quantification_rate analysis) 80 then
         suggestions ++
         [ {| category := "quantification";
              priority := "high";
              suggestion :=
                ("Add numbers to "
                 ++ Py.str_of_nat (total_bullets analysis
                                   - quantified_bullets analysis)
                 ++ " more bullet points")%string;
              impact := "Quantified achievements are 40% more likely to pass ATS screening";
              examples := ["Increased efficiency by 25%";
                           "Managed team of 8 developers";
                           "Reduced costs by $50K annually"] |} ]
       else suggestions in
     let suggestions :=
       if power_verb_count analysis <? 5 then
         suggestions ++
         [ {| category := "action_verbs";
              priority := "high";
              suggestion := "Replace weak verbs with powerful action verbs";
              impact := "Strong action verbs improve readability and impact";
              examples := ["Architected scalable solutions";
                           "Orchestrated cross-team initiatives";
                           "Spearheaded digital transformation"] |} ]
       else suggestions in
     missing_sections <-
       py_sub (PyList ["summary"; "skills"])
              (py_set (sections_detected analysis)) ;;
     let suggestions :=
       match elements missing_sections with
       | [] => suggestions
       | _ :: _ =>
           suggestions ++
           [ {| category := "structure";
                priority := "medium";
                suggestion :=
                  ("Add missing sections: "
                   ++ Py.join ", " (elements missing_sections))%string;
                impact := "Complete sections improve ATS parsing and readability";
                examples := ["Professional Summary with 3-4 key achievements";
                             "Technical Skills section with relevant technologies"] |} ]
       end in
     ret suggestions)
    (fun e => log_error ;; ret []).

(** *** The entry point *)

(** [optimization_result['improvements']]: the records of the engine, or
    whatever the reply of the LLM held under the key. *)
Inductive Improvements : Type :=
| Records (l : list Improvement)
| Reply (v : JValue).

Definition improvements_value (r : OptResult) : option Improvements :=
  match r with
  | LLMResult obj => option_map Reply (lookup "improvements" obj)
  | LocalResult _ improvements _ _ => Some (Records improvements)
  end.

(** The dictionary [optimize_cv] returns.  Of the result of the engine it
    keeps the content and the improvements only; the content is a text,
    the validation having split it. *)
Inductive OptimizeResult : Type :=
| Optimized (timestamp original_content optimized_content : string)
            (improvements : Improvements) (validation : Validation)
            (optimization_level job_description : string)
| Failed (error : Exn) (timestamp : string).

Definition success (r : OptimizeResult) : bool :=
  match r with Optimized _ _ _ _ _ _ _ => true | Failed _ _ => false end.

Section EntryPoint.

Variable llm_config : LLMConfig.
Variable services : Services.

(** [_validate_improvements] calls [split] on the optimized content: a
    content that is not a [str] has no such method. *)
Definition optimize_cv (cv_text job_description optimization_level : string)
    : M OptimizeResult :=
  try_except
    (let context :=
       _prepare_optimization_context cv_text job_description
                                     optimization_level in
     optimization_result <- _generate_optimizations llm_config services context ;;
     optimized <-
       match optimized_content optimization_result with
       | Some (JStr s) => ret s
       | Some _ => raise AttributeError
       | None => raise KeyError
       end ;;
     let validation_result := _validate_improvements cv_text optimized in
     timestamp <- now_isoformat ;;
     improvements <-
       match improvements_value optimization_result with
       | Some improvements => ret improvements
       | None => raise KeyError
       end ;;
     ret (Optimized timestamp cv_text optimized improvements validation_result
                    optimization_level job_description))
    (fun e => log_error ;;
              timestamp <- now_isoformat ;;
              ret (Failed e timestamp)).

End EntryPoint.

End CVOptimizer.

(** ** [scanner.py]: the base scan *)

Module Scanner.

Local Open Scope monad_scope.
Import Re.

(** [self.ats_keywords] *)
Definition power_verbs : list string :=
  ["achieved"; "analyzed"; "architected"; "automated"; "built"; "collaborated";
   "created"; "delivered"; "designed"; "developed"; "enhanced"; "executed";
   "implemented"; "improved"; "increased"; "led"; "managed"; "optimized";
   "orchestrated"; "produced"; "reduced"; "resolved"; "spearheaded";
   "streamlined"].

Definition technical_skills : list string :=
  ["python"; "java"; "javascript"; "docker"; "kubernetes"; "aws"; "azure";
   "devops"; "ci/cd"; "jenkins"; "git"; "linux"; "sql"; "nosql"; "mongodb";
   "postgresql"; "redis"; "elasticsearch"; "kafka"; "microservices"; "api";
   "rest"; "graphql"; "terraform"; "ansible"; "prometheus"; "grafana"].

Definition soft_skills : list string :=
  ["leadership"; "communication"; "teamwork"; "problem-solving"; "analytical";
   "critical thinking"; "adaptability"; "mentoring"; "collaboration";
   "project management"; "stakeholder management"; "cross-functional"].

(** The patterns of the base scan. *)

(** [[•\-\*]] *)
Definition glyph : re := Alt (Lit Py.bullet_glyph) (one_of "-*").

(** [^\s*[•\-\*].*$] under [re.MULTILINE] *)
Definition bullet_line_re : re := Cats [Bol; Star space; glyph; Star dot; Eol].

(** [^\s*[•\-\*]] under [re.MULTILINE] *)
Definition bullet_start_re : re := Cats [Bol; Star space; glyph].

(** [\d+[%$]?|\$\d+] *)
Definition figure_re : re :=
  Alts [Cat (Plus digit) (Opt (one_of "%$")); Cat (Lit "$") (Plus digit)].

(** [\d+[%$]?|\$\d+|\d+\+|\d+x|\d+ years?] under [re.I] *)
Definition quantified_re : re :=
  Alts [Cat (Plus digit) (Opt (one_of "%$"));
        Cat (Lit "$") (Plus digit);
        Cat (Plus digit) (Lit "+");
        Cat (Plus digit) (LitI "x");
        Cats [Plus digit; LitI " year"; Opt (LitI "s")]].

(** [[^\w\s\-.,!?()%$]]: among the characters of the embedding, the bullet
    glyph and the ASCII characters outside the listed ones. *)
Definition special_re : re :=
  Alt (Lit Py.bullet_glyph)
      (Chr (fun c => (nat_of_ascii c <? 128)
                     && negb (Py.isword c || Py.isspace c
                              || Py.contains (Py.chr c) "-.,!?()%$"))).

(** [[\w.-]+@[\w.-]+\.\w+] *)
Definition email_re : re :=
  Cats [Plus (Alt word (one_of ".-")); Lit "@"; Plus (Alt word (one_of ".-"));
        Lit "."; Plus word].

(** [\(?\d{3}\)?[-.]?\d{3}[-.]?\d{4}] *)
Definition phone_re : re :=
  Cats [Opt (Lit "("); Rep 3 digit; Opt (Lit ")"); Opt (one_of "-.");
        Rep 3 digit; Opt (one_of "-."); Rep 4 digit].

(** [\b[a-z]{3,}\b] *)
Definition term_re : re :=
  Cats [Wordb; Rep 3 (Chr Py.islower); Star (Chr Py.islower); Wordb].

(** [[.!?]+] *)
Definition sentence_end_re : re := Plus (one_of ".!?").

(** An alternation of words under [re.I], as [(email|phone|linkedin)]. *)
Definition any_word_re (ws : list string) : re := Group 1 (Alts (map LitI ws)).

(** [list(set(l))] yields the distinct elements of [l] in an order that
    changes from run to run (string hashing is seeded per process).  A run
    brings its enumeration. *)
Definition valid_enumeration (enumerate : list string -> list string) : Prop :=
  forall l, NoDup (enumerate l) /\ forall x, In x (enumerate l) <-> In x l.

(** The enumeration that keeps the first occurrence of each element. *)
Definition first_seen (l : list string) : list string :=
  rev (nodup string_dec (rev l)).

Record PowerVerbs : Type := mkPowerVerbs {
  pv_count : nat;
  pv_score : Z
}.

Record Skills : Type := mkSkills {
  found : list string;
  count : nat;
  score : Z
}.

Record JobMatch : Type := mkJobMatch {
  jm_score : Q;
  matched_count : nat
}.

Record Keywords : Type := mkKeywords {
  kw_power_verbs : PowerVerbs;
  kw_technical_skills : Skills;
  kw_soft_skills : Skills;
  job_match : JobMatch
}.

Section Run.

Variable enumerate : list string -> list string.

Definition _extract_jd_keywords (job_description : string) : list string :=
  let jd_lower := Py.lower job_description in
  let all_keywords := technical_skills ++ soft_skills in
  let job_terms := findall term_re jd_lower in
  let technical_terms :=
    filter (fun term => mem term ["python"; "java"; "docker"; "aws"; "kubernetes"])
           job_terms in
  enumerate (all_keywords ++ technical_terms).

Definition _analyze_keywords (cv_text job_description : string) : Keywords :=
  let cv_lower := Py.lower cv_text in
  let power_verb_count :=
    Py.count (fun verb => Py.contains verb cv_lower) power_verbs in
  let tech_skills_found :=
    filter (fun skill => Py.contains skill cv_lower) technical_skills in
  let soft_skills_found :=
    filter (fun skill => Py.contains skill cv_lower) soft_skills in
  let jm :=
    if String.eqb job_description "" then
      {| jm_score := 0; matched_count := 0 |}
    else
      let jd_keywords := _extract_jd_keywords job_description in
      let matched_keywords :=
        filter (fun kw => Py.contains kw cv_lower) jd_keywords in
      {| jm_score :=
           Num.percent (List.length matched_keywords)
                       (Nat.max (List.length jd_keywords) 1);
         matched_count := List.length matched_keywords |} in
  {| kw_power_verbs :=
       {| pv_count := power_verb_count;
          pv_score := Z.min (Z.of_nat power_verb_count * 10) 100 |};
     kw_technical_skills :=
       {| found := tech_skills_found;
          count := List.length tech_skills_found;
          score := Z.min (Z.of_nat (List.length tech_skills_found) * 5) 100 |};
     kw_soft_skills :=
       {| found := soft_skills_found;
          count := List.length soft_skills_found;
          score := Z.min (Z.of_nat (List.length soft_skills_found) * 10) 100 |};
     job_match := jm |}.

End Run.

Record SectionsFound : Type := mkSectionsFound {
  contact : bool;
  summary : bool;
  experience : bool;
  education : bool;
  skills : bool
}.

Record Formatting : Type := mkFormatting {
  fmt_sections : SectionsFound;
  section_score : Q;
  bullet_points : nat;
  bullet_score : Z;
  overall_formatting_score : Q
}.

(** [line.strip().startswith(('•', '-', '*'))] *)
Definition is_bullet (line : string) : bool :=
  Py.any (Py.startswith (Py.strip line)) [Py.bullet_glyph; "-"; "*"].

Definition _analyze_formatting (cv_text : string) : Formatting :=
  let lines := Py.lines cv_text in
  let sections_found :=
    {| contact := matches (any_word_re ["email"; "phone"; "linkedin"]) cv_text;
       summary := matches (any_word_re ["summary"; "profile"; "objective"]) cv_text;
       experience := matches (any_word_re ["experience"; "work"; "employment"]) cv_text;
       education := matches (LitI "education") cv_text;
       skills := matches (LitI "skills") cv_text |} in
  let values :=
    [contact sections_found; summary sections_found; experience sections_found;
     education sections_found; skills sections_found] in
  let section_score :=
    Num.percent (Py.count (fun b => b) values) (List.length values) in
  let bullet_count := Py.count is_bullet lines in
  let bullet_score := Z.min (Z.of_nat bullet_count * 5) 100 in
  {| fmt_sections := sections_found;
     section_score := section_score;
     bullet_points := bullet_count;
     bullet_score := bullet_score;
     overall_formatting_score :=
       (section_score [+] Num.of_Z bullet_score) [/] Num.of_Z 2 |}.

Record ContentQuality : Type := mkContentQuality {
  word_count : nat;
  sentence_count : nat;
  avg_words_per_sentence : Q;
  cq_bullet_points : nat;
  quantified_achievements : nat;
  quality_score : Z
}.

Definition _analyze_content_quality (cv_text : string) : ContentQuality :=
  let words := Py.words cv_text in
  let sentences := split sentence_end_re cv_text in
  let word_count := List.length words in
  let sentence_count :=
    Py.count (fun s => negb (String.eqb (Py.strip s) "")) sentences in
  let bullet_points := List.length (findall bullet_start_re cv_text) in
  let quantified_achievements := List.length (findall figure_re cv_text) in
  {| word_count := word_count;
     sentence_count := sentence_count;
     avg_words_per_sentence :=
       Num.div_nat word_count (Nat.max sentence_count 1);
     cq_bullet_points := bullet_points;
     quantified_achievements := quantified_achievements;
     quality_score :=
       Z.min (Z.of_nat bullet_points * 5 + Z.of_nat quantified_achievements * 10)
             100 |}.

Record AtsCompatibility : Type := mkAtsCompatibility {
  ats_score : Z;
  issues : list string;
  email_found : bool;
  phone_found : bool
}.

(** The mutable pair [(compatibility_issues, score)] and one guarded
    update of it. *)
Definition penalise (cond : bool) (issue : string) (points : Z)
    (st : list string * Z) : list string * Z :=
  if cond then (fst st ++ [issue], (snd st - points)%Z) else st.

Definition _analyze_ats_compatibility (cv_text : string) : AtsCompatibility :=
  let st := ([], 100%Z) in
  let st := penalise (Py.contains (Py.chr Py.tab) cv_text)
                     "Contains tab characters" 10 st in
  let special_char_count := List.length (findall special_re cv_text) in
  let st := penalise (50 <? special_char_count)
                     "Excessive special characters" 15 st in
  let email_found := matches email_re cv_text in
  let phone_found := matches phone_re cv_text in
  let st := penalise (negb email_found) "No email address found" 20 st in
  let st := penalise (negb phone_found) "No phone number found" 10 st in
  {| ats_score := Z.max (snd st) 0;
     issues := fst st;
     email_found := email_found;
     phone_found := phone_found |}.

Record Quantification : Type := mkQuantification {
  total_bullets : nat;
  quantified_bullets : nat;
  quantification_rate : Q;
  quantified_examples : list string;
  q_score : Q
}.

Definition _analyze_quantification (cv_text : string) : Quantification :=
  let bullet_lines := findall bullet_line_re cv_text in
  let quantified_bullets :=
    map Py.strip (filter (fun bullet => matches quantified_re bullet) bullet_lines) in
  let total_bullets := List.length bullet_lines in
  let quantified_count := List.length quantified_bullets in
  let quantification_rate :=
    Num.percent quantified_count (Nat.max total_bullets 1) in
  {| total_bullets := total_bullets;
     quantified_bullets := quantified_count;
     quantification_rate := quantification_rate;
     quantified_examples := firstn 5 quantified_bullets;
     q_score := quantification_rate |}.

Record Sections : Type := mkSections {
  keywords : Keywords;
  formatting : Formatting;
  content_quality : ContentQuality;
  ats_compatibility : AtsCompatibility;
  quantification : Quantification
}.

Definition _calculate_overall_score (sections : Sections) : Z :=
  let scores := [] in
  let keyword_score :=
    Num.of_Z (pv_score (kw_power_verbs (keywords sections))) [*] Num.lit 0.3
    [+] Num.of_Z (score (kw_technical_skills (keywords sections))) [*] Num.lit 0.4
    [+] Num.of_Z (score (kw_soft_skills (keywords sections))) [*] Num.lit 0.2
    [+] jm_score (job_match (keywords sections)) [*] Num.lit 0.1 in
  let scores := scores ++ [keyword_score [*] Num.lit 0.3] in
  let scores :=
    scores ++ [overall_formatting_score (formatting sections) [*] Num.lit 0.25] in
  let scores :=
    scores ++ [Num.of_Z (quality_score (content_quality sections)) [*] Num.lit 0.2] in
  let scores :=
    scores ++ [Num.of_Z (ats_score (ats_compatibility sections)) [*] Num.lit 0.15] in
  let scores :=
    scores ++ [q_score (quantification sections) [*] Num.lit 0.1] in
  Num.py_int (Num.sum scores).

(** [if cond: recommendations.append(text)] *)
Definition recommend (cond : bool) (text : string) (l : list string)
    : list string :=
  if cond then l ++ [text] else l.

Definition _generate_recommendations (sections : Sections) : list string :=
  let recommendations := [] in
  let recommendations :=
    recommend (pv_count (kw_power_verbs (keywords sections)) <? 5)
      "Add more power verbs to strengthen impact statements" recommendations in
  let recommendations :=
    recommend (count (kw_technical_skills (keywords sections)) <? 8)
      "Include more relevant technical skills from your experience"
      recommendations in
  let recommendations :=
    recommend (negb (summary (fmt_sections (formatting sections))))
      "Add a professional summary or objective section" recommendations in
  let recommendations :=
    recommend (bullet_points (formatting sections) <? 10)
      "Use more bullet points to improve readability" recommendations in
  let recommendations :=
    recommend (quantified_achievements (content_quality sections) <? 5)
      "Add more quantified achievements with specific numbers and results"
      recommendations in
  let recommendations :=
    recommendations
    ++ map (fun issue => ("Fix ATS issue: " ++ issue)%string)
           (issues (ats_compatibility sections)) in
  let recommendations :=
    recommend (Num.Qlt_bool (quantification_rate (quantification sections)) 60)
      "Quantify more of your achievements with specific metrics and numbers"
      recommendations in
  firstn 10 recommendations.

(** A path with its suffix, and what reading the document gives. *)
Record Path : Type := mkPath {
  path_str : string;
  suffix : string
}.

Record ScanResults : Type := mkScanResults {
  timestamp : string;
  cv_path : string;
  overall_score : Z;
  sections : Sections;
  recommendations : list string
}.

Inductive ScanOutcome : Type :=
| Scanned (results : ScanResults)
| ScanError (e : Exn).

Section Scan.

(** The order of [set] in this run, and the reader of documents:
    [read p] is the text of the paragraphs of a [.docx] joined by line
    feeds, or the content of a text file, or the exception raised. *)
Variable enumerate : list string -> list string.
Variable read : Path -> Exn + string.

Definition _extract_text (cv_path : Path) : M string :=
  try_except
    (if String.eqb (Py.lower (suffix cv_path)) ".docx" then
       match read cv_path with inl e => raise e | inr t => ret t end
     else if String.eqb (Py.lower (suffix cv_path)) ".pdf" then
       ret ""
     else
       match read cv_path with inl e => raise e | inr t => ret t end)
    (fun e => log_error ;; ret "").

Definition analyze (cv_text job_description : string) : Sections :=
  {| keywords := _analyze_keywords enumerate cv_text job_description;
     formatting := _analyze_formatting cv_text;
     content_quality := _analyze_content_quality cv_text;
     ats_compatibility := _analyze_ats_compatibility cv_text;
     quantification := _analyze_quantification cv_text |}.

Definition scan_cv (cv_path : Path) (job_description : string)
    : M ScanOutcome :=
  try_except
    (cv_text <- _extract_text cv_path ;;
     now <- now_isoformat ;;
     let sections := analyze cv_text job_description in
     ret (Scanned
            {| timestamp := now;
               cv_path := path_str cv_path;
               overall_score := _calculate_overall_score sections;
               sections := sections;
               recommendations := _generate_recommendations sections |}))
    (fun e => log_error ;; ret (ScanError e)).

End Scan.

End Scanner.

(** ** [enhanced_scanner.py]: the standards and the enhanced score *)

Module EnhancedScanner.

Local Open Scope monad_scope.
Import Re.

(** [self.enhanced_keywords], the entries added to [ats_keywords]. *)
Definition tier1_verbs : list string :=
  ["architected"; "orchestrated"; "spearheaded"; "pioneered"; "transformed";
   "revolutionized"; "optimized"; "streamlined"; "automated"; "scaled"].

Definition tier2_verbs : list string :=
  ["developed"; "implemented"; "created"; "built"; "designed"; "managed";
   "led"; "delivered"; "executed"; "coordinated"].

Definition tier3_verbs : list string :=
  ["assisted"; "helped"; "participated"; "supported"; "contributed";
   "worked"; "involved"; "collaborated"; "engaged"; "handled"].

Definition leadership_indicators : list string :=
  ["led team"; "managed"; "supervised"; "mentored"; "coached";
   "directed"; "oversaw"; "guided"; "trained"; "developed team"].

Definition impact_indicators : list string :=
  ["reduced"; "increased"; "improved"; "enhanced"; "optimized";
   "decreased"; "accelerated"; "generated"; "saved"; "achieved"].

(** The patterns of the enhanced scan. *)

(** [team of (\d+)|led (\d+)] *)
Definition team_size_re : re :=
  Alt (Cat (Lit "team of ") (Group 1 (Plus digit)))
      (Cat (Lit "led ") (Group 2 (Plus digit))).

(** [\$[\d,]+|budget] *)
Definition budget_re : re :=
  Alt (Cat (Lit "$") (Plus (Alt digit (Lit ",")))) (Lit "budget").

(** [(\d+%|\d+)] as the second group *)
Definition amount_group : re :=
  Group 2 (Alt (Cat (Plus digit) (Lit "%")) (Plus digit)).

(** The four [impact_patterns], each under [re.IGNORECASE]:
    [(reduced|decreased|cut).*?(\d+%|\d+)],
    [(increased|improved|grew|boosted).*?(\d+%|\d+)],
    [(saved|generated).*?\$([\d,]+)],
    [(achieved|delivered).*?(\d+%|\d+)]. *)
Definition impact_patterns : list re :=
  [Cats [Scanner.any_word_re ["reduced"; "decreased"; "cut"]; Lazy dot;
         amount_group];
   Cats [Scanner.any_word_re ["increased"; "improved"; "grew"; "boosted"];
         Lazy dot; amount_group];
   Cats [Scanner.any_word_re ["saved"; "generated"]; Lazy dot; Lit "$";
         Group 2 (Plus (Alt digit (Lit ",")))];
   Cats [Scanner.any_word_re ["achieved"; "delivered"]; Lazy dot;
         amount_group]].

(** [\d{4}|\d{1,2}/\d{4}|\w+ \d{4}] *)
Definition date_re : re :=
  Alts [Rep 4 digit;
        Cats [digit; Opt digit; Lit "/"; Rep 4 digit];
        Cats [Plus word; Lit " "; Rep 4 digit]].

(** [^\s*([•\-\*])] under [re.MULTILINE] *)
Definition bullet_glyph_re : re :=
  Cats [Bol; Star space; Group 1 Scanner.glyph].

(** [len(set(l))] *)
Definition distinct (l : list string) : nat :=
  List.length (nodup string_dec l).

(** *** The analyses *)

Definition _get_verb_recommendation (tier1 tier2 tier3 : nat) : string :=
  if 5 <=? tier1 then "Excellent use of powerful action verbs"
  else if 3 <=? tier1 then "Good verb usage, consider adding more Tier 1 verbs"
  else "Focus on using more impactful Tier 1 action verbs".

Definition _get_alignment_recommendation (score : Q) : string :=
  if Qle_bool 80 score then "Strong alignment with target role"
  else if Qle_bool 60 score
       then "Good alignment, consider adding more role-specific skills"
       else "Needs better alignment with target role requirements".

Record VerbHierarchy : Type := mkVerbHierarchy {
  tier1_count : nat;
  tier2_count : nat;
  tier3_count : nat;
  total_verbs : nat;
  tier_distribution_score : Q;
  vh_recommendation : string
}.

Definition _analyze_verb_hierarchy (cv_text : string) : VerbHierarchy :=
  let cv_lower := Py.lower cv_text in
  let tier1_count := Py.count (fun verb => Py.contains verb cv_lower) tier1_verbs in
  let tier2_count := Py.count (fun verb => Py.contains verb cv_lower) tier2_verbs in
  let tier3_count := Py.count (fun verb => Py.contains verb cv_lower) tier3_verbs in
  let total_verbs := tier1_count + tier2_count + tier3_count in
  let tier_score :=
    if 0 <? total_verbs
    then Num.percent (tier1_count * 3 + tier2_count * 2 + tier3_count * 1)
                     (total_verbs * 3)
    else 0%Q in
  {| tier1_count := tier1_count;
     tier2_count := tier2_count;
     tier3_count := tier3_count;
     total_verbs := total_verbs;
     tier_distribution_score := tier_score;
     vh_recommendation :=
       _get_verb_recommendation tier1_count tier2_count tier3_count |}.

Record Leadership : Type := mkLeadership {
  leadership_terms : list string;
  leadership_term_count : nat;
  team_size_mentions : nat;
  budget_mentions : nat;
  leadership_score : Z
}.

Definition _analyze_leadership_indicators (cv_text : string) : Leadership :=
  let cv_lower := Py.lower cv_text in
  let leadership_terms :=
    filter (fun indicator => Py.contains indicator cv_lower)
           leadership_indicators in
  let team_size_mentions := List.length (finditer team_size_re cv_lower) in
  let budget_mentions := List.length (findall budget_re cv_lower) in
  {| leadership_terms := leadership_terms;
     leadership_term_count := List.length leadership_terms;
     team_size_mentions := team_size_mentions;
     budget_mentions := budget_mentions;
     leadership_score :=
       Z.min (Z.of_nat (List.length leadership_terms) * 15
              + Z.of_nat team_size_mentions * 20
              + Z.of_nat budget_mentions * 10) 100 |}.

Record Impact : Type := mkImpact {
  impact_statements : list string;
  total_impact_statements : nat;
  high_impact_statements : nat;
  impact_score : Z
}.

Definition _analyze_impact_statements (cv_text : string) : Impact :=
  let impact_statements :=
    flat_map (fun pattern =>
                map (fun m => Py.join " " [group 1 (groups m); group 2 (groups m)])
                    (finditer pattern cv_text))
             impact_patterns in
  let high_impact_count :=
    Py.count (fun stmt => Py.any (fun term => Py.contains term (Py.lower stmt))
                                 ["million"; "$"; "%"])
             impact_statements in
  {| impact_statements := firstn 10 impact_statements;
     total_impact_statements := List.length impact_statements;
     high_impact_statements := high_impact_count;
     impact_score :=
       Z.min (Z.of_nat (List.length impact_statements) * 20
              + Z.of_nat high_impact_count * 10) 100 |}.

(** [_analyze_role_alignment] returns one of two shapes. *)
Inductive RoleAlignment : Type :=
| NoTargetRole (score : Z) (message : string)
| Aligned (target_role : string) (relevant_keywords matched_keywords : list string)
          (alignment_score : Q) (recommendation : string).

Definition role_keywords : list (string * list string) :=
  [("devops", ["docker"; "kubernetes"; "jenkins"; "terraform"; "ansible"; "aws";
               "ci/cd"]);
   ("developer", ["python"; "java"; "javascript"; "react"; "node.js"; "api";
                  "database"]);
   ("data", ["python"; "sql"; "machine learning"; "pandas"; "numpy";
             "visualization"]);
   ("manager", ["leadership"; "team"; "budget"; "strategy"; "stakeholder";
                "project"]);
   ("architect", ["design"; "architecture"; "system"; "scalability";
                  "microservices"])].

(** The loop over [role_keywords.items()] and the generic vocabulary taken
    when no role type occurs in the target role. *)
Definition relevant_keywords_for (target_lower : string) : list string :=
  let relevant_keywords :=
    flat_map (fun rk => if Py.contains (fst rk) target_lower then snd rk else [])
             role_keywords in
  match relevant_keywords with
  | [] => Scanner.technical_skills ++ Scanner.soft_skills
  | _ :: _ => relevant_keywords
  end.

Definition _analyze_role_alignment (cv_text target_role : string)
    : RoleAlignment :=
  if String.eqb target_role "" then
    NoTargetRole 50 "No target role specified"
  else
    let target_lower := Py.lower target_role in
    let cv_lower := Py.lower cv_text in
    let relevant_keywords := relevant_keywords_for target_lower in
    let matched_keywords :=
      filter (fun kw => Py.contains kw cv_lower) relevant_keywords in
    let alignment_score :=
      Num.percent (List.length matched_keywords)
                  (Nat.max (List.length relevant_keywords) 1) in
    Aligned target_role (firstn 20 relevant_keywords) (firstn 15 matched_keywords)
            alignment_score (_get_alignment_recommendation alignment_score).

Record ContentDepth : Type := mkContentDepth {
  cd_total_bullets : nat;
  detailed_bullets : nat;
  weak_bullets : nat;
  avg_bullet_length : Q;
  depth_score : Q
}.

Definition _analyze_content_depth (cv_text : string) : ContentDepth :=
  let lines := Py.lines cv_text in
  let bullet_lines := filter Scanner.is_bullet lines in
  let word_counts := map (fun bullet => List.length (Py.words bullet)) bullet_lines in
  let detailed_bullets := Py.count (fun wc => 12 <=? wc) word_counts in
  let weak_bullets :=
    Py.count (fun wc => negb (12 <=? wc) && (wc <=? 4)) word_counts in
  let avg_bullet_length :=
    Num.div_nat (fold_left Nat.add word_counts 0%nat)
                (Nat.max (List.length bullet_lines) 1) in
  let depth_score :=
    Num.min (Num.of_Z (Z.of_nat detailed_bullets * 15 - Z.of_nat weak_bullets * 5)
             [+] avg_bullet_length [*] Num.of_Z 2) 100%Q in
  {| cd_total_bullets := List.length bullet_lines;
     detailed_bullets := detailed_bullets;
     weak_bullets := weak_bullets;
     avg_bullet_length := avg_bullet_length;
     depth_score := Num.max depth_score 0%Q |}.

Record Presentation : Type := mkPresentation {
  presentation_score : Z;
  presentation_issues : list string;
  date_format_consistency : bool;
  professional_language : bool;
  bullet_consistency : bool
}.

Definition _analyze_presentation (cv_text : string) : Presentation :=
  let date_formats := distinct (findall date_re cv_text) in
  let unprofessional_terms := ["awesome"; "cool"; "stuff"; "things"; "guys"] in
  let unprofessional_count :=
    Py.count (fun term => Py.contains term (Py.lower cv_text))
             unprofessional_terms in
  let bullet_formats :=
    distinct (map (fun m => group 1 (groups m))
                  (finditer bullet_glyph_re cv_text)) in
  let st := ([], 100%Z) in
  let st := Scanner.penalise (2 <? date_formats)
                             "Inconsistent date formatting" 15 st in
  let st := Scanner.penalise (0 <? unprofessional_count)
              (Py.str_of_nat unprofessional_count
               ++ " unprofessional terms found")%string
              (Z.of_nat unprofessional_count * 10) st in
  let st := Scanner.penalise (1 <? bullet_formats)
                             "Inconsistent bullet point formatting" 10 st in
  {| presentation_score := Z.max (snd st) 0;
     presentation_issues := fst st;
     date_format_consistency := date_formats <=? 2;
     professional_language := unprofessional_count =? 0;
     bullet_consistency := bullet_formats <=? 1 |}.

(** *** The seven checks of the standards *)

(** A finding is a text; the one built from a number keeps the number,
    which the source prints with one decimal. *)
Inductive Finding : Type :=
| Msg (s : string)
| OnlyQuantified (quantification_rate : Q).

Section Standards.

(** The details of a standard and the catalog
    [IndustryStandards().get_all_standards()], a [dict] from the names of
    the standards to their details: [industry_standards.py] is not among
    the sources.  No check reads the details. *)
Variable Standard : Type.
Variable all_standards : list (string * Standard).

Definition _check_action_verb_compliance (cv_text : string)
    (standard : Standard) : Z * list Finding :=
  let cv_lower := Py.lower cv_text in
  let tier1_count :=
    Py.count (fun verb => Py.contains verb cv_lower) tier1_verbs in
  if 5 <=? tier1_count then
    (90%Z, [Msg "Excellent use of Tier 1 action verbs"])
  else if 3 <=? tier1_count then
    (75%Z, [Msg "Good use of action verbs, add more Tier 1 verbs"])
  else
    (50%Z, [Msg "Need more powerful Tier 1 action verbs"]).

Definition _check_quantification_compliance (cv_text : string)
    (standard : Standard) : Z * list Finding :=
  let bullet_lines := findall Scanner.bullet_line_re cv_text in
  let quantified_bullets :=
    filter (fun bullet => matches Scanner.figure_re bullet) bullet_lines in
  match bullet_lines with
  | [] => (0%Z, [Msg "No bullet points found"])
  | _ :: _ =>
      let quantification_rate :=
        Num.percent (List.length quantified_bullets)
                    (List.length bullet_lines) in
      if Qle_bool 80 quantification_rate then
        (95%Z, [Msg "Excellent quantification rate"])
      else if Qle_bool 60 quantification_rate then
        (80%Z, [Msg "Good quantification, aim for 80%+ of bullets"])
      else
        (Num.py_int quantification_rate, [OnlyQuantified quantification_rate])
  end.

Definition _check_ats_formatting_compliance (cv_text : string)
    (standard : Standard) : Z * list Finding :=
  let st := ([], 100%Z) in
  let st := Scanner.penalise (Py.contains (Py.chr Py.tab) cv_text)
                             "Remove tab characters" 20 st in
  let st := Scanner.penalise (negb (matches Scanner.email_re cv_text))
                             "Add proper email format" 30 st in
  (Z.max (snd st) 0,
   match fst st with
   | [] => [Msg "ATS formatting compliant"]
   | _ :: _ => map Msg (fst st)
   end).

Definition _check_keyword_compliance (cv_text : string)
    (standard : Standard) : Z * list Finding :=
  let cv_lower := Py.lower cv_text in
  let tech_count :=
    Py.count (fun skill => Py.contains skill cv_lower)
             Scanner.technical_skills in
  if 12 <=? tech_count then (90%Z, [Msg "Strong keyword presence"])
  else if 8 <=? tech_count then (75%Z, [Msg "Good keyword coverage"])
  else (50%Z, [Msg "Need more relevant technical keywords"]).

Definition _check_presentation_compliance (cv_text : string)
    (standard : Standard) : Z * list Finding :=
  (presentation_score (_analyze_presentation cv_text), []).

Definition _check_impact_compliance (cv_text : string)
    (standard : Standard) : Z * list Finding :=
  let impact_analysis := _analyze_impact_statements cv_text in
  (impact_score impact_analysis, []).

Definition _check_alignment_compliance (cv_text : string)
    (standard : Standard) : Z * list Finding :=
  (70%Z, [Msg "Role alignment requires specific target role"]).

Record StandardResult : Type := mkStandardResult {
  sr_score : Z;
  findings : list Finding;
  standard_details : Standard
}.

Record IndustryStandards : Type := mkIndustryStandards {
  standards : list (string * StandardResult);
  overall_compliance_score : Q;
  compliant_standards : nat;
  total_standards : nat
}.

(** The chain of [if]/[elif] on the name of the standard. *)
Definition check_standard (cv_text standard_name : string)
    (standard : Standard) : Z * list Finding :=
  if String.eqb standard_name "action_verb_hierarchy" then
    _check_action_verb_compliance cv_text standard
  else if String.eqb standard_name "quantification_standard" then
    _check_quantification_compliance cv_text standard
  else if String.eqb standard_name "ats_formatting" then
    _check_ats_formatting_compliance cv_text standard
  else if String.eqb standard_name "keyword_optimization" then
    _check_keyword_compliance cv_text standard
  else if String.eqb standard_name "professional_presentation" then
    _check_presentation_compliance cv_text standard
  else if String.eqb standard_name "impact_demonstration" then
    _check_impact_compliance cv_text standard
  else if String.eqb standard_name "role_alignment" then
    _check_alignment_compliance cv_text standard
  else (0%Z, []).

(** The mean of the scores divides by the number of standards: an empty
    catalog raises [ZeroDivisionError]. *)
Definition _analyze_industry_standards (cv_text : string)
    : M IndustryStandards :=
  let results :=
    map (fun ns =>
           let '(compliance_score, findings) :=
             check_standard cv_text (fst ns) (snd ns) in
           (fst ns, {| sr_score := compliance_score;
                       findings := findings;
                       standard_details := snd ns |}))
        all_standards in
  match results with
  | [] => raise ZeroDivisionError
  | _ :: _ =>
      let overall_score :=
        Num.div_Z (fold_left Z.add (map (fun r => sr_score (snd r)) results) 0%Z)
                  (Z.of_nat (List.length results)) in
      ret {| standards := results;
             overall_compliance_score := overall_score;
             compliant_standards :=
               Py.count (fun r => (80 <=? sr_score (snd r))%Z) results;
             total_standards := List.length results |}
  end.

(** *** The enhanced score *)

Record EnhancedAnalysis : Type := mkEnhancedAnalysis {
  industry_standards : IndustryStandards;
  verb_hierarchy : VerbHierarchy;
  leadership_analysis : Leadership;
  impact_analysis : Impact;
  role_alignment : RoleAlignment;
  content_depth : ContentDepth;
  professional_presentation : Presentation
}.

Definition _calculate_enhanced_score (base_sections : Scanner.Sections)
    (enhanced_analysis : EnhancedAnalysis) : Z :=
  let base_score :=
    Num.sum
      [Num.of_Z (Scanner.pv_score (Scanner.kw_power_verbs
                                     (Scanner.keywords base_sections)))
         [*] Num.lit 0.15;
       Num.of_Z (Scanner.score (Scanner.kw_technical_skills
                                  (Scanner.keywords base_sections)))
         [*] Num.lit 0.20;
       Scanner.overall_formatting_score (Scanner.formatting base_sections)
         [*] Num.lit 0.15;
       Num.of_Z (Scanner.ats_score (Scanner.ats_compatibility base_sections))
         [*] Num.lit 0.10]
    [*] Num.lit 0.6 in
  let enhanced_score :=
    Num.sum
      [overall_compliance_score (industry_standards enhanced_analysis)
         [*] Num.lit 0.15;
       tier_distribution_score (verb_hierarchy enhanced_analysis)
         [*] Num.lit 0.08;
       Num.of_Z (leadership_score (leadership_analysis enhanced_analysis))
         [*] Num.lit 0.05;
       Num.of_Z (impact_score (impact_analysis enhanced_analysis))
         [*] Num.lit 0.07;
       depth_score (content_depth enhanced_analysis) [*] Num.lit 0.03;
       Num.of_Z (presentation_score (professional_presentation enhanced_analysis))
         [*] Num.lit 0.02]
    [*] Num.lit 0.4 in
  Num.py_int (base_score [+] enhanced_score).

(** A recommendation is a text; the one built from a standard keeps the
    name, its underscores replaced, and the first finding if any. *)
Inductive Recommendation : Type :=
| Text (s : string)
| Improve (standard_name : string) (finding : option Finding).

Definition _generate_enhanced_recommendations
    (base_sections : Scanner.Sections) (enhanced_analysis : EnhancedAnalysis)
    : list Recommendation :=
  let recommendations :=
    flat_map (fun nd =>
                if (sr_score (snd nd) <? 70)%Z
                then [Improve (Py.replace "_" " " (fst nd))
                              (hd_error (findings (snd nd)))]
                else [])
             (standards (industry_standards enhanced_analysis)) in
  let recommendations :=
    if tier1_count (verb_hierarchy enhanced_analysis) <? 3 then
      recommendations
      ++ [Text "Use more Tier 1 action verbs (architected, orchestrated, spearheaded)"]
    else recommendations in
  let recommendations :=
    if (leadership_score (leadership_analysis enhanced_analysis) <? 50)%Z then
      recommendations
      ++ [Text "Add more leadership indicators and team management examples"]
    else recommendations in
  let recommendations :=
    if (impact_score (impact_analysis enhanced_analysis) <? 60)%Z then
      recommendations
      ++ [Text "Include more quantified impact statements with specific results"]
    else recommendations in
  let recommendations :=
    if 3 <? weak_bullets (content_depth enhanced_analysis) then
      recommendations
      ++ [Text "Expand brief bullet points with more detailed descriptions"]
    else recommendations in
  let recommendations :=
    recommendations
    ++ map (fun issue => Text ("Fix presentation issue: " ++ issue)%string)
           (presentation_issues (professional_presentation enhanced_analysis)) in
  firstn 12 recommendations.

Record EnhancedResults : Type := mkEnhancedResults {
  base_results : Scanner.ScanResults;
  enhanced_analysis : EnhancedAnalysis;
  enhanced_score : Z;
  enhanced_recommendations : list Recommendation
}.

Inductive EnhancedOutcome : Type :=
| EnhancedScanned (results : EnhancedResults)
| EnhancedError (e : Exn).

Variable enumerate : list string -> list string.
Variable read : Scanner.Path -> Exn + string.

Definition analyze (cv_text target_role : string) : M EnhancedAnalysis :=
  compliance <- _analyze_industry_standards cv_text ;;
  ret {| industry_standards := compliance;
         verb_hierarchy := _analyze_verb_hierarchy cv_text;
         leadership_analysis := _analyze_leadership_indicators cv_text;
         impact_analysis := _analyze_impact_statements cv_text;
         role_alignment := _analyze_role_alignment cv_text target_role;
         content_depth := _analyze_content_depth cv_text;
         professional_presentation := _analyze_presentation cv_text |}.

Definition enhanced_scan (cv_path : Scanner.Path)
    (job_description target_role : string) : M EnhancedOutcome :=
  try_except
    (results <- Scanner.scan_cv enumerate read cv_path job_description ;;
     match results with
     | Scanner.ScanError e => ret (EnhancedError e)
     | Scanner.Scanned results =>
         cv_text <- Scanner._extract_text read cv_path ;;
         enhanced <- analyze cv_text target_role ;;
         ret (EnhancedScanned
                {| base_results := results;
                   enhanced_analysis := enhanced;
                   enhanced_score :=
                     _calculate_enhanced_score (Scanner.sections results)
                                               enhanced;
                   enhanced_recommendations :=
                     _generate_enhanced_recommendations
                       (Scanner.sections results) enhanced |})
     end)
    (fun e => log_error ;; ret (EnhancedError e)).

End Standards.

(** Modelled from the spec: the catalog of [industry_standards.py], which is
    not among the sources.  The spec names seven standards; their details
    are not described and no check reads them. *)
Definition spec_standards : list (string * unit) :=
  map (fun name => (name, tt))
      ["action_verb_hierarchy"; "quantification_standard"; "ats_formatting";
       "keyword_optimization"; "professional_presentation";
       "impact_demonstration"; "role_alignment"].

End EnhancedScanner.

(** ** [report.py]: the grade and the benchmarks *)

Module Report.

(** The chain of thresholds of [_create_executive_summary]. *)
Definition grade (enhanced_score : Z) : string * string :=
  if (90 <=? enhanced_score)%Z then ("A+", "Excellent")
  else if (80 <=? enhanced_score)%Z then ("A", "Very Good")
  else if (70 <=? enhanced_score)%Z then ("B", "Good")
  else if (60 <=? enhanced_score)%Z then ("C", "Needs Improvement")
  else ("D", "Significant Improvements Required").

Definition benchmarks : list (string * Z) :=
  [("industry_average", 65%Z);
   ("top_10_percent", 85%Z);
   ("ats_passing_threshold", 70%Z);
   ("interview_likely_threshold", 80%Z)].

Record Comparison : Type := mkComparison {
  threshold : Z;
  current_score : Z;
  meets_benchmark : bool;
  points_needed : Z
}.

(** [_create_benchmark_comparison] on the score it reads: the enhanced
    score where the results have one. *)
Definition _create_benchmark_comparison (overall_score : Z)
    : list (string * Comparison) :=
  map (fun bt =>
         (fst bt,
          {| threshold := snd bt;
             current_score := overall_score;
             meets_benchmark := (snd bt <=? overall_score)%Z;
             points_needed := Z.max 0 (snd bt - overall_score) |}))
      benchmarks.

Local Open Scope monad_scope.

(** *** The results a report reads *)

(** A section of the report: the dictionary built, or the one with the key
    ['error'] alone that the handler of the section returns. *)
Inductive Part (A : Type) : Type :=
| Built (a : A)
| NotBuilt (e : Exn).

Arguments Built {A} a.
Arguments NotBuilt {A} e.

(** [d.get(k1, {}).get(k2, default)]: the value read through a dictionary
    that is absent where a [get] before returned its empty default. *)
Definition get_or {A B} (default : B) (f : A -> B) (d : option A) : B :=
  match d with Some x => f x | None => default end.

(** [f"{x:.1f}"] for a float [0 <= x]: the decimal with one digit nearest
    to the value, the even one of two equally near. *)
Definition format_1f (x : Q) : string :=
  let n := Num.py_round (x * 10)%Q in
  (Py.str_of_nat (Z.to_nat (n / 10)) ++ "."
   ++ Py.str_of_nat (Z.to_nat (n mod 10)))%string.

(** The texts of the findings and of the enhanced recommendations, as the
    f-strings of [enhanced_scanner.py] print them. *)
Definition finding_text (f : EnhancedScanner.Finding) : string :=
  match f with
  | EnhancedScanner.Msg s => s
  | EnhancedScanner.OnlyQuantified quantification_rate =>
      ("Only " ++ format_1f quantification_rate
       ++ "% of bullets quantified")%string
  end.

Definition recommendation_text (r : EnhancedScanner.Recommendation) : string :=
  match r with
  | EnhancedScanner.Text s => s
  | EnhancedScanner.Improve standard_name finding =>
      ("Improve " ++ standard_name ++ ": "
       ++ match finding with
          | Some f => finding_text f
          | None => "Review standard requirements"
          end)%string
  end.

(** [len(v)] for a value decoded from JSON. *)
Definition json_len (v : JValue) : M nat :=
  match v with
  | JStr s => ret (Py.len s)
  | JArr l => ret (List.length l)
  | JObj kv => ret (List.length kv)
  | JNull | JBool _ | JNum _ => raise TypeError
  end.

(** [len(optimization_results.get('improvements', []))]: the improvements
    are the records of the engine or whatever the reply of the LLM held
    under the key. *)
Definition len_improvements (improvements : CVOptimizer.Improvements) : M nat :=
  match improvements with
  | CVOptimizer.Records l => ret (List.length l)
  | CVOptimizer.Reply v => json_len v
  end.

Section Results.

Variable Standard : Type.

(** The dictionary of results a report is made from: that of a scan, that
    of an enhanced scan, or the one a failed scan returns, with the key
    ['error'] alone. *)
Inductive AnalysisResults : Type :=
| BaseScan (results : Scanner.ScanResults)
| EnhancedScan (results : EnhancedScanner.EnhancedResults Standard)
| FailedScan (e : Exn).

(** [analysis_results.get('sections', {})] *)
Definition get_sections (a : AnalysisResults) : option Scanner.Sections :=
  match a with
  | BaseScan r => Some (Scanner.sections r)
  | EnhancedScan r =>
      Some (Scanner.sections (EnhancedScanner.base_results Standard r))
  | FailedScan _ => None
  end.

(** [analysis_results.get('enhanced_analysis', {})] *)
Definition get_enhanced_analysis (a : AnalysisResults)
    : option (EnhancedScanner.EnhancedAnalysis Standard) :=
  match a with
  | EnhancedScan r => Some (EnhancedScanner.enhanced_analysis Standard r)
  | _ => None
  end.

(** [analysis_results.get('overall_score', 0)] *)
Definition get_overall_score (a : AnalysisResults) : Z :=
  match a with
  | BaseScan r => Scanner.overall_score r
  | EnhancedScan r =>
      Scanner.overall_score (EnhancedScanner.base_results Standard r)
  | FailedScan _ => 0%Z
  end.

(** [analysis_results.get('enhanced_score', overall_score)] *)
Definition get_enhanced_score (a : AnalysisResults) : Z :=
  match a with
  | EnhancedScan r => EnhancedScanner.enhanced_score Standard r
  | _ => get_overall_score a
  end.

(** [analysis_results.get('recommendations', [])] and
    [analysis_results.get('enhanced_recommendations', [])] *)
Definition get_recommendations (a : AnalysisResults) : list string :=
  match a with
  | BaseScan r => Scanner.recommendations r
  | EnhancedScan r =>
      Scanner.recommendations (EnhancedScanner.base_results Standard r)
  | FailedScan _ => []
  end.

Definition get_enhanced_recommendations (a : AnalysisResults) : list string :=
  match a with
  | EnhancedScan r =>
      map recommendation_text (EnhancedScanner.enhanced_recommendations Standard r)
  | _ => []
  end.

(** *** Strengths, weaknesses and priority actions *)

Definition _identify_strengths (a : AnalysisResults) : list string :=
  let strengths := [] in
  let sections := get_sections a in
  let strengths :=
    Scanner.recommend
      (Qle_bool 70
         (get_or 0%Q (fun s => Scanner.quantification_rate (Scanner.quantification s))
                 sections))
      "Strong quantification of achievements" strengths in
  let strengths :=
    Scanner.recommend
      (8 <=? get_or 0 (fun s => Scanner.count (Scanner.kw_technical_skills
                                                  (Scanner.keywords s)))
                    sections)
      "Good technical keyword coverage" strengths in
  let strengths :=
    Scanner.recommend
      (80 <=? get_or 0%Z (fun s => Scanner.ats_score (Scanner.ats_compatibility s))
                     sections)%Z
      "ATS-friendly formatting" strengths in
  let enhanced := get_enhanced_analysis a in
  let strengths :=
    Scanner.recommend
      (3 <=? get_or 0 (fun en => EnhancedScanner.tier1_count
                                   (EnhancedScanner.verb_hierarchy Standard en))
                    enhanced)
      "Uses powerful action verbs" strengths in
  let strengths :=
    Scanner.recommend
      (60 <=? get_or 0%Z (fun en => EnhancedScanner.leadership_score
                                      (EnhancedScanner.leadership_analysis Standard en))
                     enhanced)%Z
      "Demonstrates leadership experience" strengths in
  match strengths with
  | [] => ["Basic structure present"]
  | _ :: _ => strengths
  end.

Definition _identify_weaknesses (a : AnalysisResults) : list string :=
  let weaknesses := [] in
  let sections := get_sections a in
  let weaknesses :=
    Scanner.recommend
      (Num.Qlt_bool
         (get_or 0%Q (fun s => Scanner.quantification_rate (Scanner.quantification s))
                 sections)
         50)
      "Insufficient quantification of achievements" weaknesses in
  let weaknesses :=
    Scanner.recommend
      (get_or 0 (fun s => Scanner.pv_count (Scanner.kw_power_verbs
                                              (Scanner.keywords s)))
              sections <? 5)
      "Limited use of strong action verbs" weaknesses in
  let weaknesses :=
    Scanner.recommend
      (get_or 0%Z (fun s => Scanner.ats_score (Scanner.ats_compatibility s))
              sections <? 70)%Z
      "ATS compatibility issues" weaknesses in
  let enhanced := get_enhanced_analysis a in
  let weaknesses :=
    Scanner.recommend
      (get_or 0%Z (fun en => EnhancedScanner.impact_score
                               (EnhancedScanner.impact_analysis Standard en))
              enhanced <? 40)%Z
      "Limited demonstration of impact" weaknesses in
  let weaknesses :=
    Scanner.recommend
      (negb (get_or false (fun s => Scanner.summary (Scanner.fmt_sections
                                                       (Scanner.formatting s)))
                    sections))
      "Missing professional summary" weaknesses in
  match weaknesses with
  | [] => ["No critical issues identified"]
  | _ :: _ => weaknesses
  end.

Definition _get_priority_actions (a : AnalysisResults) : list string :=
  let actions := [] in
  let sections := get_sections a in
  let actions :=
    Scanner.recommend
      (Num.Qlt_bool
         (get_or 0%Q (fun s => Scanner.quantification_rate (Scanner.quantification s))
                 sections)
         60)
      "Add specific numbers and percentages to 5+ bullet points" actions in
  let actions :=
    Scanner.recommend
      (negb (get_or false (fun s => Scanner.summary (Scanner.fmt_sections
                                                       (Scanner.formatting s)))
                    sections))
      "Add a 3-4 line professional summary at the top" actions in
  let actions :=
    Scanner.recommend
      (get_or 0 (fun s => Scanner.count (Scanner.kw_technical_skills
                                           (Scanner.keywords s)))
              sections <? 6)
      "Include more relevant technical skills and keywords" actions in
  let actions :=
    match get_or [] (fun s => Scanner.issues (Scanner.ats_compatibility s))
                 sections with
    | [] => actions
    | issue :: _ => actions ++ [("Fix ATS issues: " ++ issue)%string]
    end in
  let enhanced := get_enhanced_analysis a in
  let actions :=
    Scanner.recommend
      (get_or 0 (fun en => EnhancedScanner.tier1_count
                             (EnhancedScanner.verb_hierarchy Standard en))
              enhanced <? 2)
      "Replace weak verbs with powerful action verbs (architected, orchestrated, etc.)"
      actions in
  actions.

(** *** The executive summary *)

Record OverallAssessment : Type := mkOverallAssessment {
  oa_score : Z;
  oa_grade : string;
  oa_assessment : string;
  improvement_potential : Z
}.

Record AtsReadiness : Type := mkAtsReadiness {
  ar_score : Z;
  ar_status : string
}.

Record OptimizationImpact : Type := mkOptimizationImpact {
  improvements_applied : nat;
  score_improvement : Z;
  oi_validation_passed : bool
}.

Record ExecutiveSummary : Type := mkExecutiveSummary {
  overall_assessment : OverallAssessment;
  key_strengths : list string;
  critical_weaknesses : list string;
  priority_actions : list string;
  ats_readiness : AtsReadiness;
  optimization_impact : option OptimizationImpact
}.

Definition _create_executive_summary (a : AnalysisResults)
    (optimization_results : option CVOptimizer.OptimizeResult)
    : M (Part ExecutiveSummary) :=
  try_except
    (let overall_score := get_overall_score a in
     let enhanced_score := get_enhanced_score a in
     let '(grade, assessment) := grade enhanced_score in
     let strengths := _identify_strengths a in
     let weaknesses := _identify_weaknesses a in
     let priority_actions := _get_priority_actions a in
     let ats :=
       get_or 0%Z (fun s => Scanner.ats_score (Scanner.ats_compatibility s))
              (get_sections a) in
     let summary (impact : option OptimizationImpact) :=
       {| overall_assessment :=
            {| oa_score := enhanced_score;
               oa_grade := grade;
               oa_assessment := assessment;
               improvement_potential := Z.max 0 (95 - enhanced_score) |};
          key_strengths := firstn 3 strengths;
          critical_weaknesses := firstn 3 weaknesses;
          priority_actions := firstn 5 priority_actions;
          ats_readiness :=
            {| ar_score := ats;
               ar_status := if (80 <=? ats)%Z then "Ready" else "Needs Work" |};
          optimization_impact := impact |} in
     match optimization_results with
     | Some (CVOptimizer.Optimized _ _ _ improvements validation _ _) =>
         n <- len_improvements improvements ;;
         ret (Built (summary
                       (Some {| improvements_applied := n;
                                score_improvement :=
                                  CVOptimizer.improvement_score validation;
                                oi_validation_passed :=
                                  CVOptimizer.validation_passed validation |})))
     | Some (CVOptimizer.Failed _ _) | None => ret (Built (summary None))
     end)
    (fun e => log_error ;; ret (NotBuilt e)).

(** *** The improvement recommendations *)

Definition _estimate_impact (recommendation : string) : Z :=
  let high_impact_keywords :=
    ["quantif"; "action verb"; "ats"; "keyword"; "achievement"] in
  let medium_impact_keywords := ["format"; "section"; "bullet"; "professional"] in
  let rec_lower := Py.lower recommendation in
  if Py.any (fun keyword => Py.contains keyword rec_lower) high_impact_keywords
  then 8%Z
  else if Py.any (fun keyword => Py.contains keyword rec_lower)
                 medium_impact_keywords
  then 6%Z
  else 4%Z.

Definition _estimate_effort (recommendation : string) : Z :=
  let low_effort_keywords := ["add"; "include"; "fix"; "remove"] in
  let high_effort_keywords := ["rewrite"; "restructure"; "complete"; "overhaul"] in
  let rec_lower := Py.lower recommendation in
  if Py.any (fun keyword => Py.contains keyword rec_lower) high_effort_keywords
  then 8%Z
  else if Py.any (fun keyword => Py.contains keyword rec_lower)
                 low_effort_keywords
  then 3%Z
  else 5%Z.

Definition categories : list (string * list string) :=
  [("content", ["quantif"; "achievement"; "bullet"; "verb"]);
   ("formatting", ["format"; "section"; "ats"]);
   ("keywords", ["keyword"; "skill"; "technical"]);
   ("structure", ["section"; "summary"; "experience"])].

(** The loop over [categories.items()] returns at the first category one of
    whose keywords occurs. *)
Definition _categorize_recommendation (recommendation : string) : string :=
  let rec_lower := Py.lower recommendation in
  match List.find (fun ck => Py.any (fun keyword => Py.contains keyword rec_lower)
                                    (snd ck))
                  categories with
  | Some ck => fst ck
  | None => "general"
  end.

Record RecItem : Type := mkRecItem {
  recommendation : string;
  estimated_impact : Z;
  effort_level : Z;
  category : string
}.

Record Priorities : Type := mkPriorities {
  high_priority : list RecItem;
  medium_priority : list RecItem;
  low_priority : list RecItem;
  quick_wins : list RecItem;
  strategic_improvements : list RecItem
}.

Record Timeline : Type := mkTimeline {
  immediate : Z;
  short_term : Z;
  medium_term : Z;
  long_term : Z
}.

Record ImprovementRecommendations : Type := mkImprovementRecommendations {
  priorities : Priorities;
  implementation_timeline : Timeline
}.

(** One turn of the loop over the recommendations. *)
Definition file_recommendation (recommendations : Priorities) (rec : string)
    : Priorities :=
  let rec_item :=
    {| recommendation := rec;
       estimated_impact := _estimate_impact rec;
       effort_level := _estimate_effort rec;
       category := _categorize_recommendation rec |} in
  let recommendations :=
    if (8 <=? estimated_impact rec_item)%Z then
      {| high_priority := high_priority recommendations ++ [rec_item];
         medium_priority := medium_priority recommendations;
         low_priority := low_priority recommendations;
         quick_wins := quick_wins recommendations;
         strategic_improvements := strategic_improvements recommendations |}
    else if (6 <=? estimated_impact rec_item)%Z then
      {| high_priority := high_priority recommendations;
         medium_priority := medium_priority recommendations ++ [rec_item];
         low_priority := low_priority recommendations;
         quick_wins := quick_wins recommendations;
         strategic_improvements := strategic_improvements recommendations |}
    else
      {| high_priority := high_priority recommendations;
         medium_priority := medium_priority recommendations;
         low_priority := low_priority recommendations ++ [rec_item];
         quick_wins := quick_wins recommendations;
         strategic_improvements := strategic_improvements recommendations |} in
  let recommendations :=
    if ((7 <=? estimated_impact rec_item) && (effort_level rec_item <=? 3))%Z then
      {| high_priority := high_priority recommendations;
         medium_priority := medium_priority recommendations;
         low_priority := low_priority recommendations;
         quick_wins := quick_wins recommendations ++ [rec_item];
         strategic_improvements := strategic_improvements recommendations |}
    else recommendations in
  let recommendations :=
    if ((8 <=? estimated_impact rec_item) && (7 <=? effort_level rec_item))%Z then
      {| high_priority := high_priority recommendations;
         medium_priority := medium_priority recommendations;
         low_priority := low_priority recommendations;
         quick_wins := quick_wins recommendations;
         strategic_improvements :=
           strategic_improvements recommendations ++ [rec_item] |}
    else recommendations in
  recommendations.

(** No statement of the body raises on these results: the handler of the
    section is never entered. *)
Definition _create_improvement_recommendations (a : AnalysisResults)
    : ImprovementRecommendations :=
  let recommendations :=
    {| high_priority := []; medium_priority := []; low_priority := [];
       quick_wins := []; strategic_improvements := [] |} in
  let base_recommendations := get_recommendations a in
  let enhanced_recommendations := get_enhanced_recommendations a in
  let all_recommendations := base_recommendations ++ enhanced_recommendations in
  let recommendations :=
    fold_left file_recommendation all_recommendations recommendations in
  {| priorities := recommendations;
     implementation_timeline :=
       {| immediate := Z.of_nat (List.length (quick_wins recommendations));
          short_term :=
            (Z.of_nat (List.length (high_priority recommendations))
             - Z.of_nat (List.length (quick_wins recommendations)))%Z;
          medium_term := Z.of_nat (List.length (medium_priority recommendations));
          long_term :=
            Z.of_nat (List.length (strategic_improvements recommendations)) |} |}.

(** *** The performance metrics

    The defaults of the [get]s are [int]s where the values of a scan are
    floats; they are small, so the float operations are exact on them. *)

Definition _calculate_readability_score (sections : option Scanner.Sections)
    : Z :=
  let score := 0%Z in
  let score :=
    (score + Z.min (get_or 0%Z (fun s => Scanner.bullet_score (Scanner.formatting s))
                           sections) 40)%Z in
  let score :=
    Num.of_Z score
    [+] Num.min (get_or 15%Q (fun s => Scanner.avg_words_per_sentence
                                         (Scanner.content_quality s))
                        sections [*] Num.of_Z 2)
                30%Q in
  let score :=
    score
    [+] Num.min (get_or 0%Q (fun s => Scanner.section_score (Scanner.formatting s))
                        sections [*] Num.lit 0.3)
                30%Q in
  Z.min (Num.py_int score) 100.

Definition _calculate_keyword_density (sections : option Scanner.Sections) : Z :=
  let tech_score :=
    Z.min (Z.of_nat (get_or 0 (fun s => Scanner.count (Scanner.kw_technical_skills
                                                        (Scanner.keywords s)))
                            sections) * 5) 40 in
  let power_verb_score :=
    Z.min (Z.of_nat (get_or 0 (fun s => Scanner.pv_count (Scanner.kw_power_verbs
                                                           (Scanner.keywords s)))
                            sections) * 8) 40 in
  let job_match_score :=
    Num.min (get_or 0%Q (fun s => Scanner.jm_score (Scanner.job_match
                                                      (Scanner.keywords s)))
                    sections [*] Num.lit 0.2)
            20%Q in
  Z.min (Num.py_int (Num.of_Z (tech_score + power_verb_score) [+] job_match_score))
        100.

Definition _calculate_impact_score (sections : option Scanner.Sections)
    (enhanced : option (EnhancedScanner.EnhancedAnalysis Standard)) : Z :=
  let quantification_score :=
    get_or 0%Q (fun s => Scanner.q_score (Scanner.quantification s)) sections
    [*] Num.lit 0.4 in
  let impact_score :=
    match enhanced with
    | Some en =>
        Num.of_Z (EnhancedScanner.impact_score
                    (EnhancedScanner.impact_analysis Standard en))
        [*] Num.lit 0.6
    | None => 0%Q
    end in
  Z.min (Num.py_int (quantification_score [+] impact_score)) 100.

Definition _calculate_professional_score (sections : option Scanner.Sections)
    (enhanced : option (EnhancedScanner.EnhancedAnalysis Standard)) : Z :=
  let ats_score :=
    Num.of_Z (get_or 0%Z (fun s => Scanner.ats_score (Scanner.ats_compatibility s))
                     sections)
    [*] Num.lit 0.5 in
  let presentation_score :=
    match enhanced with
    | Some en =>
        Num.of_Z (EnhancedScanner.presentation_score
                    (EnhancedScanner.professional_presentation Standard en))
        [*] Num.lit 0.5
    | None => 40%Q
    end in
  Z.min (Num.py_int (ats_score [+] presentation_score)) 100.

Record PerformanceMetrics : Type := mkPerformanceMetrics {
  readability_score : Z;
  keyword_density : Z;
  pm_impact_score : Z;
  professional_score : Z;
  ats_optimization_score : Z;
  benchmark_comparison : list (string * Comparison)
}.

(** No statement of the body raises on these results. *)
Definition _create_performance_metrics (a : AnalysisResults)
    : PerformanceMetrics :=
  let sections := get_sections a in
  let enhanced_analysis := get_enhanced_analysis a in
  {| readability_score := _calculate_readability_score sections;
     keyword_density := _calculate_keyword_density sections;
     pm_impact_score := _calculate_impact_score sections enhanced_analysis;
     professional_score := _calculate_professional_score sections enhanced_analysis;
     ats_optimization_score :=
       get_or 0%Z (fun s => Scanner.ats_score (Scanner.ats_compatibility s))
              sections;
     benchmark_comparison := _create_benchmark_comparison (get_enhanced_score a) |}.

(** *** The compliance report *)

Record FormattingCompliance : Type := mkFormattingCompliance {
  section_structure : option Scanner.SectionsFound;
  bullet_point_usage : nat;
  consistency_score : Q
}.

Record AtsCompliance : Type := mkAtsCompliance {
  ac_overall_score : Z;
  compatibility_issues : list string;
  contact_info_check : option (bool * bool);
  formatting_compliance : FormattingCompliance;
  keyword_optimization : option Scanner.Keywords;
  ac_recommendations : list string;
  ac_status : string
}.

(** No statement of the body raises on these results. *)
Definition _create_ats_compliance_report (a : AnalysisResults) : AtsCompliance :=
  let ats_data := option_map Scanner.ats_compatibility (get_sections a) in
  let formatting_data := option_map Scanner.formatting (get_sections a) in
  let overall_score := get_or 0%Z Scanner.ats_score ats_data in
  {| ac_overall_score := overall_score;
     compatibility_issues := get_or [] Scanner.issues ats_data;
     contact_info_check :=
       option_map (fun d => (Scanner.email_found d, Scanner.phone_found d))
                  ats_data;
     formatting_compliance :=
       {| section_structure := option_map Scanner.fmt_sections formatting_data;
          bullet_point_usage := get_or 0 Scanner.bullet_points formatting_data;
          consistency_score := get_or 0%Q Scanner.section_score formatting_data |};
     keyword_optimization := option_map Scanner.keywords (get_sections a);
     ac_recommendations :=
       ["Use standard section headers (Experience, Education, Skills)";
        "Include complete contact information";
        "Avoid special characters and complex formatting";
        "Use consistent bullet point formatting";
        "Include relevant keywords naturally in content"];
     ac_status :=
       if (85 <=? overall_score)%Z then "Excellent ATS Compatibility"
       else if (70 <=? overall_score)%Z then "Good ATS Compatibility"
       else if (50 <=? overall_score)%Z
       then "Moderate ATS Compatibility - Improvements Needed"
       else "Poor ATS Compatibility - Major Issues" |}.

(** *** The comparison of an optimization *)

Record ScoreComparison : Type := mkScoreComparison {
  original_score : Z;
  optimized_score : Z;
  improvement : Z
}.

Record ChangesSummary : Type := mkChangesSummary {
  total_improvements : nat;
  sections_modified : nat;
  average_impact_score : Q
}.

Record ValidationResults : Type := mkValidationResults {
  passed : bool;
  vr_quantification_improvement : Q;
  vr_power_verb_improvement : Z;
  vr_length_change : Z
}.

Record ComparisonReport : Type := mkComparisonReport {
  score_comparison : ScoreComparison;
  metric_improvements : option CVOptimizer.Deltas;
  changes_summary : ChangesSummary;
  detailed_changes : list CVOptimizer.Improvement;
  validation_results : ValidationResults
}.

(** [_create_comparison_report] on what it reads from the results of an
    optimization: the validation, absent from the results of a failure, and
    the improvements where they are the records of the engine.  The
    analysis of the optimized text kept by the validation has no key
    ['overall_score']; no statement of the body raises on these values. *)
Definition _create_comparison_report (a : AnalysisResults)
    (validation : option CVOptimizer.Validation)
    (improvements : list CVOptimizer.Improvement) : ComparisonReport :=
  let deltas := option_map CVOptimizer.improvements validation in
  {| score_comparison :=
       {| original_score := get_overall_score a;
          optimized_score :=
            get_or 0%Z (fun _ : CVOptimizer.Analysis => 0%Z)
                   (option_map CVOptimizer.optimized_analysis validation);
          improvement := get_or 0%Z CVOptimizer.improvement_score validation |};
     metric_improvements := deltas;
     changes_summary :=
       {| total_improvements := List.length improvements;
          sections_modified :=
            List.length (nodup string_dec
                           (map CVOptimizer.section improvements));
          average_impact_score :=
            Num.div_Z (fold_left Z.add (map CVOptimizer.impact_score improvements) 0%Z)
                      (Z.of_nat (Nat.max (List.length improvements) 1)) |};
     detailed_changes := firstn 10 improvements;
     validation_results :=
       {| passed := get_or false CVOptimizer.validation_passed validation;
          vr_quantification_improvement :=
            get_or 0%Q CVOptimizer.quantification_improvement deltas;
          vr_power_verb_improvement :=
            get_or 0%Z CVOptimizer.power_verb_improvement deltas;
          vr_length_change := get_or 0%Z CVOptimizer.length_change deltas |} |}.

End Results.

End Report.

(** * The vocabulary of the statements *)

Definition nl : string := Py.chr Py.newline.

Definition w0 : World := mkWorld 0 0 "2024-01-01T00:00:00".

(** ** Documents and services of the examples *)

(** Two bullets with a weak verb each. *)
Definition weak_verbs_doc : string :=
  ("- worked on migrating servers" ++ nl ++ "- helped with deployment")%string.

(** Ten bullets, eight of them with a numeral. *)
Definition eight_of_ten : string :=
  Py.join nl ["- cut costs by 10%"; "- led 3 teams"; "- shipped 4 releases";
              "- saved $5"; "- grew revenue 6x"; "- 7 audits passed";
              "- trained 8 people"; "- closed 9 deals";
              "- wrote documentation"; "- mentored juniors"].

(** Nine bullets, five of them with a numeral. *)
Definition five_of_nine : string :=
  Py.join nl ["- cut costs by 10%"; "- led 3 teams"; "- shipped 4 releases";
              "- saved $5"; "- grew revenue 6x"; "- passed audits";
              "- trained people"; "- wrote documentation"; "- mentored juniors"].

(** A hundred bullets, twenty-nine of them with a numeral. *)
Definition twenty_nine_of_hundred : string :=
  Py.join nl (repeat "- led 3 teams" 29 ++ repeat "- wrote documentation" 71).

(** A text without any bullet. *)
Definition no_bullets : string :=
  ("Summary" ++ nl ++ "Engineer with 5 years of experience.")%string.

(** Texts that use 0, 1, ..., 6 of the tier-1 verbs. *)
Definition tier1_docs : list string :=
  ["Worked on builds";
   "Automated builds";
   "Automated and scaled builds";
   "Architected, automated and scaled builds";
   "Architected, automated, optimized and scaled builds";
   "Architected, automated, optimized, streamlined and scaled builds";
   "Architected, automated, optimized, pioneered, streamlined and scaled builds"].

(** A small curriculum vitae and its reader. *)
Definition sample_cv : string :=
  Py.join nl ["John Doe";
              "Email: john@example.com  Phone: 555-123-4567";
              "Summary";
              "Experienced devops engineer.";
              "Experience";
              "- Architected AWS platform, reduced costs by 25%";
              "- Led team of 5 engineers";
              "* helped with stuff";
              "Skills: python, docker, kubernetes";
              "Education 2015"].

Definition sample_path : Scanner.Path := Scanner.mkPath "cv.txt" ".txt".

Definition sample_read (p : Scanner.Path) : Exn + string := inr sample_cv.

(** The endpoint cannot be reached. *)
Definition unreachable : CVOptimizer.Services :=
  CVOptimizer.mkServices (fun _ _ => inl ConnectionError)
                         (fun _ => inl JSONDecodeError).

(** The endpoint answers with a text whose braces hold no JSON object, and
    the decoder rejects it. *)
Definition malformed_reply : CVOptimizer.Services :=
  CVOptimizer.mkServices
    (fun _ _ =>
       inr (CVOptimizer.mkResponse 200
              (inr (JObj [("response", JStr "sure {oops}")]))))
    (fun _ => inl JSONDecodeError).

(** The endpoint answers with an object nested deeper than the decoder
    follows, which raises [RecursionError]. *)
Definition nested_reply : CVOptimizer.Services :=
  CVOptimizer.mkServices
    (fun _ _ =>
       inr (CVOptimizer.mkResponse 200
              (inr (JObj [("response", JStr "{deep}")]))))
    (fun _ => inl RecursionError).

(** ** Notions used in the statements *)

(** A fixed bonus, granted or not. *)
Definition bonus (cond : bool) (points : Z) : Z := if cond then points else 0%Z.

(** The count of tier-1 verbs of a text. *)
Definition tier1_count_of (cv_text : string) : nat :=
  EnhancedScanner.tier1_count (EnhancedScanner._analyze_verb_hierarchy cv_text).

(** The bullet lines and the rate that the quantification standard reads. *)
Definition compliance_bullets (cv_text : string) : list string :=
  Re.findall Scanner.bullet_line_re cv_text.

Definition compliance_rate (cv_text : string) : Q :=
  Num.percent
    (List.length (filter (fun bullet => Re.matches Scanner.figure_re bullet)
                         (compliance_bullets cv_text)))
    (List.length (compliance_bullets cv_text)).

(** What the inner loop of the fallback leaves in [optimized_line]. *)
Definition optimized_line_of (line : string) : string :=
  fst (fold_left (CVOptimizer.replace_weak line) CVOptimizer.verb_replacements
                 (line, [])).

(** A computation sends [n] requests at most. *)
Definition sends_at_most {A} (n : nat) (m : M A) : Prop :=
  forall w, net_calls (snd (m w)) <= net_calls w + n.

(** Decoding the object embedded in the reply raises [e]: the call returned
    a text with an opening and a closing brace, and [json.loads] raised [e]
    on the slice between them. *)
Definition decode_raises (e : Exn) (cfg : CVOptimizer.LLMConfig)
    (svc : CVOptimizer.Services) (ctx : CVOptimizer.Context) (w : World) : Prop :=
  exists response w1,
    CVOptimizer._call_llm_api cfg svc (CVOptimizer._create_optimization_prompt ctx) w
    = (inr (JStr response), w1)
    /\ Py.find CVOptimizer.lbrace response <> (-1)%Z
    /\ (Py.rfind CVOptimizer.rbrace response + 1)%Z <> 0%Z
    /\ fst (CVOptimizer.json_loads svc
              (Py.slice (Py.find CVOptimizer.lbrace response)
                        (Py.rfind CVOptimizer.rbrace response + 1) response) w1)
       = inl e.

(** The decoder rejects the text: [json.JSONDecodeError]. *)
Definition decode_error (cfg : CVOptimizer.LLMConfig)
    (svc : CVOptimizer.Services) (ctx : CVOptimizer.Context) (w : World) : Prop :=
  decode_raises JSONDecodeError cfg svc ctx w.

(** The text [_extract_text] returns, as a function of the reader. *)
Definition extracted (read : Scanner.Path -> Exn + string)
    (cv_path : Scanner.Path) : string :=
  if String.eqb (Py.lower (Scanner.suffix cv_path)) ".docx" then
    match read cv_path with inl _ => "" | inr t => t end
  else if String.eqb (Py.lower (Scanner.suffix cv_path)) ".pdf" then ""
  else match read cv_path with inl _ => "" | inr t => t end.

(** The scores an outcome carries. *)
Definition overall_of (o : Exn + Scanner.ScanOutcome) : option Z :=
  match o with
  | inr (Scanner.Scanned r) => Some (Scanner.overall_score r)
  | _ => None
  end.

Definition scores_of {Standard : Type}
    (o : Exn + EnhancedScanner.EnhancedOutcome Standard) : option (Z * Z) :=
  match o with
  | inr (EnhancedScanner.EnhancedScanned _ r) =>
      Some (Scanner.overall_score (EnhancedScanner.base_results Standard r),
            EnhancedScanner.enhanced_score Standard r)
  | _ => None
  end.

(** Two worlds that differ in the error log only. *)
Definition same_but_log (w w' : World) : Prop :=
  net_calls w' = net_calls w /\ clock w' = clock w.

(** The seven analyses of the enhanced scan, without the world: an
    exception for an empty catalog. *)
Definition enhanced_features (Standard : Type)
    (all_standards : list (string * Standard)) (cv_text target_role : string)
    : Exn + EnhancedScanner.EnhancedAnalysis Standard :=
  fst (EnhancedScanner.analyze Standard all_standards cv_text target_role
         (mkWorld 0 0 "")).

(** Each of the ten sub-scores that the enhanced score reads lies in
    [0, 100]. *)
Definition sub_scores_in_range (Standard : Type) (base : Scanner.Sections)
    (enhanced : EnhancedScanner.EnhancedAnalysis Standard) : Prop :=
  (0 <= Scanner.pv_score (Scanner.kw_power_verbs (Scanner.keywords base)) <= 100)%Z
  /\ (0 <= Scanner.score (Scanner.kw_technical_skills (Scanner.keywords base))
      <= 100)%Z
  /\ (0 <= Scanner.overall_formatting_score (Scanner.formatting base) <= 100)%Q
  /\ (0 <= Scanner.ats_score (Scanner.ats_compatibility base) <= 100)%Z
  /\ (0 <= EnhancedScanner.overall_compliance_score Standard
             (EnhancedScanner.industry_standards Standard enhanced) <= 100)%Q
  /\ (0 <= EnhancedScanner.tier_distribution_score
             (EnhancedScanner.verb_hierarchy Standard enhanced) <= 100)%Q
  /\ (0 <= EnhancedScanner.leadership_score
             (EnhancedScanner.leadership_analysis Standard enhanced) <= 100)%Z
  /\ (0 <= EnhancedScanner.impact_score
             (EnhancedScanner.impact_analysis Standard enhanced) <= 100)%Z
  /\ (0 <= EnhancedScanner.depth_score
             (EnhancedScanner.content_depth Standard enhanced) <= 100)%Q
  /\ (0 <= EnhancedScanner.presentation_score
             (EnhancedScanner.professional_presentation Standard enhanced)
      <= 100)%Z.
(** Sub-scores of 100 each.  No document yields them (the role-alignment
    standard alone keeps the compliance below 100): they mark the bound of
    the enhanced score. *)
Definition full_marks_base : Scanner.Sections :=
  {| Scanner.keywords :=
       {| Scanner.kw_power_verbs :=
            {| Scanner.pv_count := 10; Scanner.pv_score := 100 |};
          Scanner.kw_technical_skills :=
            {| Scanner.found := []; Scanner.count := 20; Scanner.score := 100 |};
          Scanner.kw_soft_skills :=
            {| Scanner.found := []; Scanner.count := 10; Scanner.score := 100 |};
          Scanner.job_match :=
            {| Scanner.jm_score := 100; Scanner.matched_count := 39 |} |};
     Scanner.formatting :=
       {| Scanner.fmt_sections := Scanner.mkSectionsFound true true true true true;
          Scanner.section_score := 100;
          Scanner.bullet_points := 20;
          Scanner.bullet_score := 100;
          Scanner.overall_formatting_score := 100 |};
     Scanner.content_quality :=
       {| Scanner.word_count := 400;
          Scanner.sentence_count := 20;
          Scanner.avg_words_per_sentence := 20;
          Scanner.cq_bullet_points := 20;
          Scanner.quantified_achievements := 20;
          Scanner.quality_score := 100 |};
     Scanner.ats_compatibility :=
       {| Scanner.ats_score := 100;
          Scanner.issues := [];
          Scanner.email_found := true;
          Scanner.phone_found := true |};
     Scanner.quantification :=
       {| Scanner.total_bullets := 20;
          Scanner.quantified_bullets := 20;
          Scanner.quantification_rate := 100;
          Scanner.quantified_examples := [];
          Scanner.q_score := 100 |} |}.

Definition full_marks_enhanced : EnhancedScanner.EnhancedAnalysis unit :=
  {| EnhancedScanner.industry_standards :=
       {| EnhancedScanner.standards := [];
          EnhancedScanner.overall_compliance_score := 100;
          EnhancedScanner.compliant_standards := 7;
          EnhancedScanner.total_standards := 7 |};
     EnhancedScanner.verb_hierarchy :=
       {| EnhancedScanner.tier1_count := 10;
          EnhancedScanner.tier2_count := 0;
          EnhancedScanner.tier3_count := 0;
          EnhancedScanner.total_verbs := 10;
          EnhancedScanner.tier_distribution_score := 100;
          EnhancedScanner.vh_recommendation :=
            "Excellent use of powerful action verbs" |};
     EnhancedScanner.leadership_analysis :=
       {| EnhancedScanner.leadership_terms := [];
          EnhancedScanner.leadership_term_count := 0;
          EnhancedScanner.team_size_mentions := 5;
          EnhancedScanner.budget_mentions := 0;
          EnhancedScanner.leadership_score := 100 |};
     EnhancedScanner.impact_analysis :=
       {| EnhancedScanner.impact_statements := [];
          EnhancedScanner.total_impact_statements := 5;
          EnhancedScanner.high_impact_statements := 0;
          EnhancedScanner.impact_score := 100 |};
     EnhancedScanner.role_alignment :=
       EnhancedScanner.NoTargetRole 50 "No target role specified";
     EnhancedScanner.content_depth :=
       {| EnhancedScanner.cd_total_bullets := 20;
          EnhancedScanner.detailed_bullets := 20;
          EnhancedScanner.weak_bullets := 0;
          EnhancedScanner.avg_bullet_length := 12;
          EnhancedScanner.depth_score := 100 |};
     EnhancedScanner.professional_presentation :=
       {| EnhancedScanner.presentation_score := 100;
          EnhancedScanner.presentation_issues := [];
          EnhancedScanner.date_format_consistency := true;
          EnhancedScanner.professional_language := true;
          EnhancedScanner.bullet_consistency := true |} |}.

(** A job description that names a skill of the vocabulary twice over. *)
Definition sample_job : string := "We need python and aws".

(** ** Notions used in the further properties *)

(** [s.isascii()]: every character of the text is an ASCII character. *)
Fixpoint is_ascii (s : string) : bool :=
  match s with
  | EmptyString => true
  | String c s' => (nat_of_ascii c <? 128) && is_ascii s'
  end.

(** Some character of the text is one of the digits 0 to 9. *)
Fixpoint has_digit (s : string) : bool :=
  match s with
  | EmptyString => false
  | String c s' => Py.isdigit c || has_digit s'
  end.

(** What each issue of the compatibility check costs. *)
Definition ats_penalty (issue : string) : Z :=
  if String.eqb issue "Contains tab characters" then 10
  else if String.eqb issue "Excessive special characters" then 15
  else if String.eqb issue "No email address found" then 20
  else if String.eqb issue "No phone number found" then 10
  else 0.

(** The words of the vocabulary that occur in a text. *)
Definition vocabulary_found (cv_text : string) : list string :=
  filter (fun kw => Py.contains kw (Py.lower cv_text))
         (Scanner.technical_skills ++ Scanner.soft_skills).

(** The recommendations of a scan that returned results. *)
Definition recommendations_of (o : Exn + Scanner.ScanOutcome)
    : option (list string) :=
  match o with
  | inr (Scanner.Scanned r) => Some (Scanner.recommendations r)
  | _ => None
  end.

(** The recommendations of an enhanced scan that returned results. *)
Definition enhanced_recommendations_of {Standard : Type}
    (o : Exn + EnhancedScanner.EnhancedOutcome Standard)
    : option (list EnhancedScanner.Recommendation) :=
  match o with
  | inr (EnhancedScanner.EnhancedScanned _ r) =>
      Some (EnhancedScanner.enhanced_recommendations Standard r)
  | _ => None
  end.

(** A character of the text is [c]. *)
Fixpoint has_char (c : ascii) (s : string) : bool :=
  match s with
  | EmptyString => false
  | String a s' => Ascii.eqb a c || has_char c s'
  end.

(** The opening parenthesis. *)
Definition lparen : ascii := ascii_of_nat 40.

(** The entries of the table of weak verbs whose phrase occurs in a line,
    in the order of the table. *)
Definition matching_replacements (line : string) : list (string * string) :=
  filter (fun ws => Py.contains (fst ws) (Py.lower line))
         CVOptimizer.verb_replacements.

(** The line the fallback writes for a line: the line itself when no weak
    phrase occurs in it, else the lower-cased line with the last matching
    entry of the table applied. *)
Definition rewritten (line : string) : string :=
  match rev (matching_replacements line) with
  | [] => line
  | (weak, strong) :: _ => Py.replace weak strong (Py.lower line)
  end.

(** The record the fallback keeps for an entry applied to a line. *)
Definition improvement_for (line : string) (ws : string * string)
    : CVOptimizer.Improvement :=
  {| CVOptimizer.section := "experience";
     CVOptimizer.original := line;
     CVOptimizer.improved := Py.replace (fst ws) (snd ws) (Py.lower line);
     CVOptimizer.reason :=
       ("Replaced weak verb " ++ Py.dquote ++ fst ws ++ Py.dquote
        ++ " with stronger " ++ Py.dquote ++ snd ws ++ Py.dquote)%string;
     CVOptimizer.impact_score := 6 |}.

(** The entries of the table: lower-case replacements that open with
    another character than their phrase. *)
Definition proper_entry (ws : string * string) : Prop :=
  exists a b old new,
    ws = (String a old, String b new) /\ a <> b
    /\ Py.lower (String b new) = String b new.

(** ** Notions used in the properties of the report *)

(** The entry the report makes of a recommendation. *)
Definition item_of (rec : string) : Report.RecItem :=
  {| Report.recommendation := rec;
     Report.estimated_impact := Report._estimate_impact rec;
     Report.effort_level := Report._estimate_effort rec;
     Report.category := Report._categorize_recommendation rec |}.

(** The recommendations a report files: those of the scan, then those of
    the enhanced scan. *)
Definition all_recommendations {Standard : Type}
    (a : Report.AnalysisResults Standard) : list string :=
  Report.get_recommendations Standard a
  ++ Report.get_enhanced_recommendations Standard a.

(** A value decoded from JSON that has no length. *)
Definition unsized (v : JValue) : bool :=
  match v with
  | JNull | JBool _ | JNum _ => true
  | JStr _ | JArr _ | JObj _ => false
  end.

(** The results of an optimization whose improvements, taken from the reply
    of the LLM, have no length. *)
Definition improvements_unsized (o : option CVOptimizer.OptimizeResult) : bool :=
  match o with
  | Some (CVOptimizer.Optimized _ _ _ (CVOptimizer.Reply v) _ _ _) => unsized v
  | _ => false
  end.

(** The world after one more message of the error log. *)
Definition logged (w : World) : World :=
  mkWorld (net_calls w) (S (errors_logged w)) (clock w).

(** * Properties *)

(** ** Rounding to binary64 *)

Section Rounding.

Import Num.

(** Powers of two. *)

Lemma pow2_pos (k : Z) : (0 < pow2 k)%Q.
Proof. unfold pow2. apply Qpower_0_lt. reflexivity. Qed.

Lemma pow2_add (a b : Z) : (pow2 (a + b) == pow2 a * pow2 b)%Q.
Proof. unfold pow2. apply Qpower_plus. discriminate. Qed.

Lemma pow2_le (a b : Z) : (a <= b)%Z -> (pow2 a <= pow2 b)%Q.
Proof.
  intro H. unfold pow2. apply Qpower_le_compat_l; [exact H |].
  unfold Qle. cbn. lia.
Qed.

Lemma pow2_nonneg_exp (k : Z) : (0 <= k)%Z -> (pow2 k == inject_Z (2 ^ k))%Q.
Proof.
  intro H. unfold pow2. rewrite (Zpower_Qpower 2 k H). reflexivity.
Qed.

Lemma pow2_succ (k : Z) : (pow2 (k + 1) == 2 * pow2 k)%Q.
Proof.
  rewrite pow2_add. change (pow2 1) with 2%Q. ring.
Qed.

(** The binary logarithm. *)

Lemma log2_bounds (n : Z) : (0 < n)%Z ->
  (pow2 (Z.log2 n) <= inject_Z n < pow2 (Z.log2 n + 1))%Q.
Proof.
  intro H. pose proof (Z.log2_spec n H) as [L U].
  pose proof (Z.log2_nonneg n) as Hn.
  rewrite (pow2_nonneg_exp _ Hn), (pow2_nonneg_exp (Z.log2 n + 1)) by lia.
  split.
  - rewrite <- Zle_Qle. exact L.
  - rewrite <- Zlt_Qlt. replace (Z.log2 n + 1)%Z with (Z.succ (Z.log2 n)) by lia.
    exact U.
Qed.

Lemma ilog2_spec (x : Q) : (0 < x)%Q ->
  (pow2 (ilog2 x) <= x < pow2 (ilog2 x + 1))%Q.
Proof.
  intro Hx. destruct x as [n d].
  assert (Hn : (0 < n)%Z) by (unfold Qlt in Hx; cbn in Hx; lia).
  unfold ilog2. cbn [Qnum Qden].
  set (a := Z.log2 n). set (b := Z.log2 (Zpos d)).
  pose proof (log2_bounds n Hn) as [La Ua]. fold a in La, Ua.
  pose proof (log2_bounds (Zpos d) ltac:(lia)) as [Lb Ub]. fold b in Lb, Ub.
  assert (Hx' : (n # d == inject_Z n / inject_Z (Zpos d))%Q) by apply Qmake_Qdiv.
  assert (HD : (0 < inject_Z (Zpos d))%Q) by (unfold Qlt; cbn; lia).
  assert (HN : (0 < inject_Z n)%Q).
  { change 0%Q with (inject_Z 0). rewrite <- Zlt_Qlt. exact Hn. }
  pose proof (pow2_pos a) as Pa. pose proof (pow2_pos b) as Pb.
  pose proof (pow2_pos (a + 1)) as Pa1. pose proof (pow2_pos (b + 1)) as Pb1.
  assert (Hup : (n # d < pow2 (a - b + 1))%Q).
  { rewrite Hx'.
    replace (a - b + 1)%Z with ((a + 1) + - b)%Z by lia.
    rewrite pow2_add. unfold pow2 at 2. rewrite Qpower_opp. fold (pow2 b).
    apply Qlt_shift_div_r; [exact HD |].
    assert (E : (pow2 (a + 1) * / pow2 b * inject_Z (Zpos d)
                 == pow2 (a + 1) * (inject_Z (Zpos d) / pow2 b))%Q).
    { field. intro H0. rewrite H0 in Pb. apply (Qlt_irrefl _ Pb). }
    rewrite E.
    assert (H1 : (1 <= inject_Z (Zpos d) / pow2 b)%Q).
    { apply Qle_shift_div_l; [exact Pb | lra]. }
    set (t := (inject_Z (Zpos d) / pow2 b)%Q) in *. clearbody t.
    nra. }
  assert (Hlow : (pow2 (a - b - 1) <= n # d)%Q).
  { rewrite Hx'.
    replace (a - b - 1)%Z with (a + - (b + 1))%Z by lia.
    rewrite pow2_add. unfold pow2 at 2. rewrite Qpower_opp. fold (pow2 (b + 1)).
    apply Qle_shift_div_l; [exact HD |].
    assert (E : (pow2 a * / pow2 (b + 1) * inject_Z (Zpos d)
                 == pow2 a * (inject_Z (Zpos d) / pow2 (b + 1)))%Q).
    { field. intro H0. rewrite H0 in Pb1. apply (Qlt_irrefl _ Pb1). }
    rewrite E.
    assert (H1 : (inject_Z (Zpos d) / pow2 (b + 1) <= 1)%Q).
    { apply Qle_shift_div_r; [exact Pb1 | lra]. }
    assert (H0 : (0 <= inject_Z (Zpos d) / pow2 (b + 1))%Q).
    { apply Qle_shift_div_l; [exact Pb1 | lra]. }
    set (t := (inject_Z (Zpos d) / pow2 (b + 1))%Q) in *. clearbody t.
    nra. }
  destruct (Qle_bool (pow2 (a - b)) (n # d)) eqn:E.
  - apply Qle_bool_iff in E. split; [exact E | exact Hup].
  - split.
    + exact Hlow.
    + replace (a - b - 1 + 1)%Z with (a - b)%Z by lia.
      apply Qnot_le_lt. intro H. apply Qle_bool_iff in H. congruence.
Qed.

(** Rounding to the nearest integer. *)

Lemma py_round_cases (x : Q) :
  py_round x = Qfloor x \/ py_round x = (Qfloor x + 1)%Z.
Proof.
  unfold py_round. destruct (_ ?= _)%Q; [destruct (Z.even _) | |]; auto.
Qed.

Lemma py_round_low (x : Q) :
  py_round x = Qfloor x -> (x - inject_Z (Qfloor x) <= 1 # 2)%Q.
Proof.
  unfold py_round. intro H.
  destruct (x - inject_Z (Qfloor x) ?= 1 # 2)%Q eqn:E.
  - apply Qeq_alt in E. rewrite E. apply Qle_refl.
  - apply Qlt_alt in E. apply Qlt_le_weak. exact E.
  - lia.
Qed.

Lemma py_round_high (x : Q) :
  py_round x = (Qfloor x + 1)%Z -> (1 # 2 <= x - inject_Z (Qfloor x))%Q.
Proof.
  unfold py_round. intro H.
  destruct (x - inject_Z (Qfloor x) ?= 1 # 2)%Q eqn:E.
  - apply Qeq_alt in E. rewrite E. apply Qle_refl.
  - lia.
  - apply Qgt_alt in E. apply Qlt_le_weak. exact E.
Qed.

Lemma py_round_tie (x : Q) :
  (x - inject_Z (Qfloor x) == 1 # 2)%Q ->
  py_round x = if Z.even (Qfloor x) then Qfloor x else (Qfloor x + 1)%Z.
Proof.
  intro H. unfold py_round. apply Qeq_alt in H. rewrite H. reflexivity.
Qed.

Lemma py_round_Z (n : Z) : py_round (inject_Z n) = n.
Proof.
  unfold py_round. rewrite Qfloor_Z.
  assert (E : (inject_Z n - inject_Z n ?= 1 # 2)%Q = Lt).
  { apply Qlt_alt. set (q := inject_Z n). clearbody q.
    setoid_replace (q - q)%Q with 0%Q by ring. reflexivity. }
  rewrite E. reflexivity.
Qed.

Lemma py_round_mono (x y : Q) : (x <= y)%Q -> (py_round x <= py_round y)%Z.
Proof.
  intro H. pose proof (Qfloor_resp_le x y H) as Hf.
  destruct (Z.eq_dec (Qfloor x) (Qfloor y)) as [Heq | Hne].
  - destruct (py_round_cases x) as [Hx | Hx];
      destruct (py_round_cases y) as [Hy | Hy]; try lia.
    pose proof (py_round_high x Hx) as H1. pose proof (py_round_low y Hy) as H2.
    rewrite Heq in H1.
    assert (Ty : (y - inject_Z (Qfloor y) == 1 # 2)%Q) by lra.
    assert (Tx : (x - inject_Z (Qfloor x) == 1 # 2)%Q) by (rewrite Heq; lra).
    rewrite (py_round_tie x Tx), (py_round_tie y Ty), Heq.
    destruct (Z.even (Qfloor y)); lia.
  - destruct (py_round_cases x) as [Hx | Hx];
      destruct (py_round_cases y) as [Hy | Hy]; lia.
Qed.

Lemma py_round_ge (x : Q) (n : Z) : (inject_Z n <= x)%Q -> (n <= py_round x)%Z.
Proof. intro H. rewrite <- (py_round_Z n). apply py_round_mono. exact H. Qed.

Lemma py_round_le (x : Q) (n : Z) : (x <= inject_Z n)%Q -> (py_round x <= n)%Z.
Proof. intro H. rewrite <- (py_round_Z n). apply py_round_mono. exact H. Qed.

(** Rounding to 53 bits. *)

Lemma scaled_bounds (x : Q) : (0 < x)%Q ->
  (pow2 52 <= x / pow2 (ilog2 x - 52) < pow2 53)%Q.
Proof.
  intro Hx. pose proof (ilog2_spec x Hx) as [L U].
  set (k := ilog2 x) in *.
  pose proof (pow2_pos (k - 52)) as Pe.
  assert (E1 : (pow2 k == pow2 52 * pow2 (k - 52))%Q).
  { rewrite <- pow2_add. replace (52 + (k - 52))%Z with k by lia. reflexivity. }
  assert (E2 : (pow2 (k + 1) == pow2 53 * pow2 (k - 52))%Q).
  { rewrite <- pow2_add. replace (53 + (k - 52))%Z with (k + 1)%Z by lia.
    reflexivity. }
  split.
  - apply Qle_shift_div_l; [exact Pe | rewrite <- E1; exact L].
  - apply Qlt_shift_div_r; [exact Pe | rewrite <- E2; exact U].
Qed.

Lemma fl_pos_bounds (x : Q) : (0 < x)%Q ->
  (pow2 (ilog2 x) <= fl_pos x <= pow2 (ilog2 x + 1))%Q.
Proof.
  intro Hx. pose proof (scaled_bounds x Hx) as [L U].
  unfold fl_pos. set (k := ilog2 x) in *. set (e := (k - 52)%Z) in *.
  pose proof (pow2_pos e) as Pe.
  assert (L' : (2 ^ 52 <= py_round (x / pow2 e))%Z).
  { apply py_round_ge. rewrite <- (pow2_nonneg_exp 52) by lia. exact L. }
  assert (U' : (py_round (x / pow2 e) <= 2 ^ 53)%Z).
  { apply py_round_le. rewrite <- (pow2_nonneg_exp 53) by lia.
    apply Qlt_le_weak. exact U. }
  rewrite Zle_Qle in L', U'.
  rewrite <- (pow2_nonneg_exp 52) in L' by lia.
  rewrite <- (pow2_nonneg_exp 53) in U' by lia.
  assert (E1 : (pow2 k == pow2 52 * pow2 e)%Q).
  { rewrite <- pow2_add. unfold e. replace (52 + (k - 52))%Z with k by lia.
    reflexivity. }
  assert (E2 : (pow2 (k + 1) == pow2 53 * pow2 e)%Q).
  { rewrite <- pow2_add. unfold e. replace (53 + (k - 52))%Z with (k + 1)%Z by lia.
    reflexivity. }
  rewrite E1, E2.
  set (m := inject_Z (py_round (x / pow2 e))) in *. clearbody m.
  set (p := pow2 e) in *. clearbody p.
  split; nra.
Qed.

Lemma ilog2_mono (x y : Q) : (0 < x)%Q -> (x <= y)%Q -> (ilog2 x <= ilog2 y)%Z.
Proof.
  intros Hx Hxy. assert (Hy : (0 < y)%Q) by lra.
  pose proof (ilog2_spec x Hx) as [Lx _].
  pose proof (ilog2_spec y Hy) as [_ Uy].
  destruct (Z_le_gt_dec (ilog2 x) (ilog2 y)) as [H | H]; [exact H |].
  exfalso.
  pose proof (pow2_le (ilog2 y + 1) (ilog2 x) ltac:(lia)). lra.
Qed.

Lemma fl_pos_mono (x y : Q) : (0 < x)%Q -> (x <= y)%Q -> (fl_pos x <= fl_pos y)%Q.
Proof.
  intros Hx Hxy. assert (Hy : (0 < y)%Q) by lra.
  pose proof (ilog2_mono x y Hx Hxy) as Hk.
  destruct (Z.eq_dec (ilog2 x) (ilog2 y)) as [Heq | Hne].
  - unfold fl_pos. rewrite Heq.
    set (e := (ilog2 y - 52)%Z). pose proof (pow2_pos e) as Pe.
    assert (Hs : (x / pow2 e <= y / pow2 e)%Q).
    { apply Qle_shift_div_l; [exact Pe |].
      assert (E : (x / pow2 e * pow2 e == x)%Q).
      { field. intro H0. rewrite H0 in Pe. apply (Qlt_irrefl _ Pe). }
      rewrite E. exact Hxy. }
    pose proof (py_round_mono _ _ Hs) as Hr. rewrite Zle_Qle in Hr.
    set (mx := inject_Z (py_round (x / pow2 e))) in *. clearbody mx.
    set (my := inject_Z (py_round (y / pow2 e))) in *. clearbody my.
    set (p := pow2 e) in *. clearbody p. nra.
  - pose proof (fl_pos_bounds x Hx) as [_ Ux].
    pose proof (fl_pos_bounds y Hy) as [Ly _].
    pose proof (pow2_le (ilog2 x + 1) (ilog2 y) ltac:(lia)). lra.
Qed.

Lemma fl_pos_positive (x : Q) : (0 < x)%Q -> (0 < fl_pos x)%Q.
Proof.
  intro Hx. pose proof (fl_pos_bounds x Hx) as [L _].
  pose proof (pow2_pos (ilog2 x)). lra.
Qed.

Lemma Qred_num_sign (x : Q) :
  match Qnum (Qred x) with
  | Z0 => (x == 0)%Q
  | Zpos _ => (0 < x)%Q
  | Zneg _ => (x < 0)%Q
  end.
Proof.
  pose proof (Qred_correct x) as H.
  destruct (Qred x) as [n d] eqn:E. cbn [Qnum].
  destruct n; rewrite <- H; unfold Qeq, Qlt; cbn; lia.
Qed.

(** [fl] reads the value of its argument, not the fraction that stands for
    it. *)
Lemma fl_eq (x y : Q) : (x == y)%Q -> fl x = fl y.
Proof.
  intro H. unfold fl. rewrite (Qred_complete x y H). reflexivity.
Qed.

Lemma fl_zero (x : Q) : (x == 0)%Q -> fl x = 0%Q.
Proof. intro H. rewrite (fl_eq x 0 H). reflexivity. Qed.

Lemma fl_of_pos (x : Q) : (0 < x)%Q -> (fl x == fl_pos (Qred x))%Q.
Proof.
  intro H. unfold fl. pose proof (Qred_num_sign x) as S.
  destruct (Qnum (Qred x)).
  - rewrite S in H. exfalso. apply (Qlt_irrefl _ H).
  - apply Qred_correct.
  - exfalso. lra.
Qed.

Lemma fl_of_neg (x : Q) : (x < 0)%Q -> (fl x == - fl_pos (- Qred x))%Q.
Proof.
  intro H. unfold fl. pose proof (Qred_num_sign x) as S.
  destruct (Qnum (Qred x)).
  - rewrite S in H. exfalso. apply (Qlt_irrefl _ H).
  - exfalso. lra.
  - apply Qred_correct.
Qed.

Lemma fl_positive (x : Q) : (0 < x)%Q -> (0 < fl x)%Q.
Proof.
  intro H. rewrite (fl_of_pos x H). apply fl_pos_positive.
  rewrite Qred_correct. exact H.
Qed.

Lemma fl_negative (x : Q) : (x < 0)%Q -> (fl x < 0)%Q.
Proof.
  intro H. rewrite (fl_of_neg x H).
  assert (Hp : (0 < - Qred x)%Q) by (rewrite Qred_correct; lra).
  pose proof (fl_pos_positive _ Hp). lra.
Qed.

(** Rounding keeps the order. *)
Lemma fl_mono (x y : Q) : (x <= y)%Q -> (fl x <= fl y)%Q.
Proof.
  intro H.
  destruct (Q_dec x 0) as [[Nx | Px] | Zx]; destruct (Q_dec y 0) as [[Ny | Py] | Zy].
  - rewrite (fl_of_neg x Nx), (fl_of_neg y Ny).
    assert (H1 : (0 < - Qred y)%Q) by (rewrite Qred_correct; lra).
    assert (H2 : (- Qred y <= - Qred x)%Q) by (rewrite !Qred_correct; lra).
    pose proof (fl_pos_mono _ _ H1 H2). lra.
  - pose proof (fl_negative x Nx). pose proof (fl_positive y Py). lra.
  - pose proof (fl_negative x Nx). rewrite (fl_zero y Zy). lra.
  - exfalso. lra.
  - rewrite (fl_of_pos x Px), (fl_of_pos y Py).
    apply fl_pos_mono; rewrite !Qred_correct; assumption.
  - exfalso. lra.
  - exfalso. lra.
  - rewrite (fl_zero x Zx). pose proof (fl_positive y Py). lra.
  - rewrite (fl_zero x Zx), (fl_zero y Zy). lra.
Qed.

Lemma fl_nonneg (x : Q) : (0 <= x)%Q -> (0 <= fl x)%Q.
Proof. intro H. change 0%Q with (fl 0) at 1. apply fl_mono. exact H. Qed.

(** The sign of a rounded difference is the sign of the difference. *)
Lemma fl_sub_pos (x y : Q) : (0 < fl (y - x))%Q <-> (x < y)%Q.
Proof.
  split; intro H.
  - destruct (Qlt_le_dec x y) as [L | G]; [exact L |].
    exfalso. assert (Hd : (y - x <= 0)%Q) by lra.
    pose proof (fl_mono _ _ Hd) as Hm. change (fl 0) with 0%Q in Hm. lra.
  - apply fl_positive. lra.
Qed.

End Rounding.

(** On the rates of up to 40 bullets and on the weighted scores, the
    rounded operations are those of the binary64 floats of the kernel. *)
Lemma rates_are_binary64 : Binary64.rates_agree 40 = true.
Proof. vm_compute. reflexivity. Qed.

Lemma weights_are_binary64 :
  forallb Binary64.weights_agree [2; 3; 5; 7; 8; 10; 15; 20; 25; 30; 40; 60]%Z
  = true.
Proof. vm_compute. reflexivity. Qed.

(** ** Floats, rates and truncation *)

Lemma Qlt_bool_iff (x y : Q) : Num.Qlt_bool x y = true <-> (x < y)%Q.
Proof.
  unfold Num.Qlt_bool. rewrite negb_true_iff.
  split; intro H.
  - apply Qnot_le_lt. intro Hle. apply Qle_bool_iff in Hle. congruence.
  - destruct (Qle_bool y x) eqn:E; [| reflexivity].
    apply Qle_bool_iff in E. exfalso. exact (Qlt_not_le _ _ H E).
Qed.

Lemma Qlt_bool_irrefl (x : Q) : Num.Qlt_bool x x = false.
Proof.
  destruct (Num.Qlt_bool x x) eqn:E; [| reflexivity].
  apply Qlt_bool_iff in E. exfalso. exact (Qlt_irrefl _ E).
Qed.

(** A rounded difference is positive exactly when the difference is. *)
Lemma Qlt_bool_fsub (x y : Q) : Num.Qlt_bool 0 (y [-] x) = Num.Qlt_bool x y.
Proof.
  apply eq_true_iff_eq. rewrite !Qlt_bool_iff. apply fl_sub_pos.
Qed.

Lemma fsub_diag (x : Q) : x [-] x = 0%Q.
Proof. unfold Num.fsub. apply fl_zero. ring. Qed.

Lemma fl_range (lo hi x : Q) : Num.fl lo = lo -> Num.fl hi = hi ->
  (lo <= x <= hi)%Q -> (lo <= Num.fl x <= hi)%Q.
Proof.
  intros El Eh [L U]. split.
  - rewrite <- El. apply fl_mono. exact L.
  - rewrite <- Eh. apply fl_mono. exact U.
Qed.

Lemma fl_percent (x : Q) : (0 <= x <= 100)%Q -> (0 <= Num.fl x <= 100)%Q.
Proof. apply fl_range; reflexivity. Qed.

Lemma fl_unit (x : Q) : (0 <= x <= 1)%Q -> (0 <= Num.fl x <= 1)%Q.
Proof. apply fl_range; reflexivity. Qed.

Lemma inject_Z_range (z : Z) : (0 <= z <= 100)%Z -> (0 <= inject_Z z <= 100)%Q.
Proof.
  intros [H0 H1]. split.
  - change 0%Q with (inject_Z 0). rewrite <- Zle_Qle. exact H0.
  - change 100%Q with (inject_Z 100). rewrite <- Zle_Qle. exact H1.
Qed.

Lemma of_Z_range (z : Z) : (0 <= z <= 100)%Z -> (0 <= Num.of_Z z <= 100)%Q.
Proof. intro H. apply fl_percent, inject_Z_range, H. Qed.

Lemma of_Z_mono (a b : Z) : (a <= b)%Z -> (Num.of_Z a <= Num.of_Z b)%Q.
Proof. intro H. apply fl_mono. rewrite <- Zle_Qle. exact H. Qed.

Lemma of_Z_nonneg (z : Z) : (0 <= z)%Z -> (0 <= Num.of_Z z)%Q.
Proof. intro H. apply fl_nonneg. change 0%Q with (inject_Z 0). rewrite <- Zle_Qle. exact H. Qed.

Lemma int_pos (n : nat) : 0 < n -> (0 < Num.int n)%Q.
Proof.
  intro H. unfold Num.int. change 0%Q with (inject_Z 0).
  rewrite <- Zlt_Qlt. lia.
Qed.

Lemma int_nonneg (n : nat) : (0 <= Num.int n)%Q.
Proof.
  unfold Num.int. change 0%Q with (inject_Z 0). rewrite <- Zle_Qle. lia.
Qed.

Lemma int_le (m n : nat) : m <= n -> (Num.int m <= Num.int n)%Q.
Proof.
  intro H. unfold Num.int. rewrite <- Zle_Qle. lia.
Qed.

(** The rounded operations keep the order of their operands. *)
Lemma fadd_mono (x x' y y' : Q) : (x <= x')%Q -> (y <= y')%Q ->
  (x [+] y <= x' [+] y')%Q.
Proof. intros Hx Hy. apply fl_mono. lra. Qed.

Lemma fmul_mono (x x' w : Q) : (0 <= w)%Q -> (x <= x')%Q ->
  (x [*] w <= x' [*] w)%Q.
Proof. intros Hw Hx. apply fl_mono. nra. Qed.

Lemma fmul_nonneg (x w : Q) : (0 <= x)%Q -> (0 <= w)%Q -> (0 <= x [*] w)%Q.
Proof. intros Hx Hw. apply fl_nonneg. nra. Qed.

Lemma fadd_nonneg (x y : Q) : (0 <= x)%Q -> (0 <= y)%Q -> (0 <= x [+] y)%Q.
Proof. intros Hx Hy. apply fl_nonneg. lra. Qed.

Lemma fmul_comm (x y : Q) : x [*] y = y [*] x.
Proof. apply fl_eq. ring. Qed.

Lemma fadd_comm (x y : Q) : x [+] y = y [+] x.
Proof. apply fl_eq. ring. Qed.

(** A part of a whole is a fraction between 0 and 1. *)
Lemma div_nat_unit (a b : nat) : a <= b -> 0 < b ->
  (0 <= Num.div_nat a b <= 1)%Q.
Proof.
  intros Hab Hb. apply fl_unit.
  pose proof (int_pos b Hb) as Hpos.
  pose proof (int_nonneg a) as Ha.
  pose proof (int_le a b Hab) as Hle.
  unfold Num.int in *. split.
  - apply Qle_shift_div_l; [exact Hpos | lra].
  - apply Qle_shift_div_r; [exact Hpos | lra].
Qed.

Lemma div_nat_nonneg (a b : nat) : (0 <= Num.div_nat a b)%Q.
Proof.
  apply fl_nonneg. pose proof (int_nonneg a) as Ha.
  pose proof (int_nonneg b) as Hb. unfold Num.int in *.
  destruct (Qeq_dec (inject_Z (Z.of_nat b)) 0) as [E | E].
  - unfold Qdiv. rewrite E. change (/ 0)%Q with 0%Q. lra.
  - apply Qle_shift_div_l; lra.
Qed.

(** As a percentage, it lies between 0 and 100. *)
Lemma percent_range (a b : nat) : a <= b -> 0 < b ->
  (0 <= Num.percent a b <= 100)%Q.
Proof.
  intros Hab Hb. pose proof (div_nat_unit a b Hab Hb) as H.
  unfold Num.percent. apply fl_percent. lra.
Qed.

Lemma percent_zero (b : nat) : Num.percent 0 b = 0%Q.
Proof.
  unfold Num.percent, Num.div_nat, Num.div_Z, Num.fmul. cbn [Z.of_nat].
  rewrite (fl_zero (inject_Z 0 / inject_Z (Z.of_nat b))).
  - reflexivity.
  - unfold Qdiv. change (inject_Z 0) with 0%Q. ring.
Qed.

(** The percentage is the product in either order: rounding reads the
    value of the product. *)
Lemma percent_comm (a b : nat) : Num.percent a b = 100 [*] Num.div_nat a b.
Proof. apply fmul_comm. Qed.

Lemma length_filter_le {A} (f : A -> bool) (l : list A) :
  List.length (filter f l) <= List.length l.
Proof.
  induction l as [| x l IH]; cbn [filter List.length]; [lia |].
  destruct (f x); cbn [List.length]; lia.
Qed.

Lemma py_int_floor (x : Q) : (0 <= x)%Q -> Num.py_int x = Qfloor x.
Proof.
  intro H. destruct x as [n d]. unfold Num.py_int, Qfloor. cbn [Qnum Qden].
  apply Z.quot_div_nonneg; [| lia].
  unfold Qle in H. cbn in H. lia.
Qed.

Lemma py_int_bounds (x : Q) : (0 <= x)%Q ->
  (inject_Z (Num.py_int x) <= x < inject_Z (Num.py_int x + 1))%Q.
Proof.
  intro H. rewrite (py_int_floor x H). split.
  - apply Qfloor_le.
  - apply Qlt_floor.
Qed.

Lemma py_int_nonneg (x : Q) : (0 <= x)%Q -> (0 <= Num.py_int x)%Z.
Proof.
  intro H. rewrite (py_int_floor x H).
  rewrite <- (Qfloor_Z 0). apply Qfloor_resp_le. exact H.
Qed.

Lemma py_int_le (x : Q) (n : Z) : (0 <= n)%Z -> (x <= inject_Z n)%Q ->
  (Num.py_int x <= n)%Z.
Proof.
  intros Hn Hx. destruct (Qlt_le_dec x 0) as [Hneg | Hpos].
  - destruct x as [a d]. unfold Num.py_int. cbn [Qnum Qden].
    unfold Qlt in Hneg. cbn in Hneg.
    assert (a <= 0)%Z by lia.
    pose proof (Z.quot_opp_l a (Zpos d) ltac:(lia)) as Ho.
    assert (0 <= Z.quot (- a) (Zpos d))%Z by (apply Z.quot_pos; lia).
    lia.
  - rewrite (py_int_floor x Hpos).
    rewrite <- (Qfloor_Z n). apply Qfloor_resp_le. exact Hx.
Qed.

(** The weights of the scores are not negative. *)
Lemma lit_nonneg (q : Q) : (0 <= q)%Q -> (0 <= Num.lit q)%Q.
Proof. apply fl_nonneg. Qed.

Ltac weights :=
  match goal with
  | |- (0 <= Num.lit _)%Q => apply lit_nonneg; vm_compute; discriminate
  | |- (0 <= Num.of_Z _)%Q => apply of_Z_nonneg; lia
  end.

(** An upper bound of a score, from upper bounds of what it reads: the
    rounded sums and products keep the order. *)
Ltac bound_above :=
  repeat first
    [ apply fadd_mono
    | apply fmul_mono; [weights |]
    | apply of_Z_mono ].

(** A score is not negative when what it reads is not. *)
Ltac bound_below :=
  repeat first
    [ apply fadd_nonneg
    | apply fmul_nonneg; [| weights] ].

(** ** Strings *)

Lemma append_nonempty_l (s t : string) : s <> "" -> (s ++ t)%string <> "".
Proof. destruct s; [congruence | discriminate]. Qed.

Lemma append_nonempty_r (s t : string) : t <> "" -> (s ++ t)%string <> "".
Proof. destruct s; [trivial | discriminate]. Qed.

Lemma lower_nonempty (s : string) : s <> "" -> Py.lower s <> "".
Proof. destruct s; [congruence | discriminate]. Qed.

Lemma replace_nonempty (old new s : string) :
  new <> "" -> s <> "" -> Py.replace old new s <> "".
Proof.
  intros Hnew Hs. destruct s as [| c s']; [congruence |].
  unfold Py.replace. cbn [Py.replace_from].
  destruct (prefix old (String c s')).
  - apply append_nonempty_l. exact Hnew.
  - discriminate.
Qed.

Lemma split_on_nonempty (sep : ascii) (s : string) : Py.split_on sep s <> [].
Proof.
  destruct s as [| c s']; cbn [Py.split_on]; [discriminate |].
  destruct (Ascii.eqb c sep); [discriminate |].
  destruct (Py.split_on sep s'); discriminate.
Qed.

(** Splitting on a character and joining on it gives the text back. *)
Lemma join_split_on (sep : ascii) (s : string) :
  Py.join (Py.chr sep) (Py.split_on sep s) = s.
Proof.
  induction s as [| c s' IH]; [reflexivity |].
  cbn [Py.split_on].
  pose proof (split_on_nonempty sep s') as Hne.
  destruct (Py.split_on sep s') as [| h t]; [congruence |].
  destruct (Ascii.eqb c sep) eqn:E.
  - apply Ascii.eqb_eq in E. subst c.
    cbn [Py.join] in *. rewrite IH. reflexivity.
  - destruct t as [| h' t'].
    + cbn [Py.join] in *. congruence.
    + cbn [Py.join] in *. cbn [append]. congruence.
Qed.

Lemma join_two_nonempty (sep x y : string) (l : list string) :
  sep <> "" -> Py.join sep (x :: y :: l) <> "".
Proof.
  intro Hsep. cbn [Py.join].
  apply append_nonempty_r, append_nonempty_l. exact Hsep.
Qed.

(** ** The quantification rate of the base scan *)

(** C1, as amended.  For every document text the quantification analysis
    counts the bullet lines of the text and, among them, those that match
    the quantification pattern, and returns the rate
    [quantified / max(total, 1) * 100] over these two counts in the
    arithmetic of floats: the rate is 0 for a text without bullet lines,
    and is [100 * (quantified / total)] otherwise, the quotient and the
    product being the binary64 ones, each rounded to the nearest float;
    nothing rounds it to an integer or to display digits, and the score of
    the section is the rate itself. *)
Theorem C1_quantification_rate (cv_text : string) :
  let r := Scanner._analyze_quantification cv_text in
  let bullets := Re.findall Scanner.bullet_line_re cv_text in
  let total := Scanner.total_bullets r in
  let quantified := Scanner.quantified_bullets r in
  total = List.length bullets
  /\ quantified
     = List.length
         (filter (fun bullet => Re.matches Scanner.quantified_re bullet) bullets)
  /\ quantified <= total
  /\ Scanner.quantification_rate r
     = Num.fl (Num.fl (inject_Z (Z.of_nat quantified)
                       / inject_Z (Z.of_nat (Nat.max total 1))) * 100)
  /\ (total = 0 -> Scanner.quantification_rate r = 0%Q)
  /\ (0 < total ->
      Scanner.quantification_rate r = 100 [*] Num.div_nat quantified total)
  /\ Scanner.q_score r = Scanner.quantification_rate r.
Proof.
  cbv zeta. unfold Scanner._analyze_quantification.
  cbn [Scanner.total_bullets Scanner.quantified_bullets
       Scanner.quantification_rate Scanner.q_score].
  rewrite length_map.
  set (bullets := Re.findall Scanner.bullet_line_re cv_text).
  set (q := List.length (filter _ bullets)).
  assert (Hq : q <= List.length bullets) by apply length_filter_le.
  split; [reflexivity |]. split; [reflexivity |]. split; [exact Hq |].
  split; [reflexivity |]. split; [| split; [| reflexivity]].
  - intro H0. rewrite H0 in *. assert (q = 0) as -> by lia. apply percent_zero.
  - intro Hpos.
    replace (Nat.max (List.length bullets) 1) with (List.length bullets) by lia.
    apply percent_comm.
Qed.

(** C1, counterexample.  A hundred bullets, twenty-nine of them with a
    numeral: the rate is the float 28.999999999999996, not 29, the exact
    value of 100 * 29 / 100; the quotient 29 / 100 is rounded before the
    product is. *)
Lemma C1_counterexample_rate_is_rounded :
  let r := Scanner._analyze_quantification twenty_nine_of_hundred in
  Scanner.total_bullets r = 100
  /\ Scanner.quantified_bullets r = 29
  /\ Scanner.quantification_rate r = Num.lit 28.999999999999996
  /\ (Scanner.quantification_rate r < 100 * (29 # 100))%Q
  /\ ~ (Scanner.quantification_rate r == 100 * (29 # 100))%Q.
Proof.
  cbv zeta.
  assert (H : Scanner.quantification_rate
                (Scanner._analyze_quantification twenty_nine_of_hundred)
              = Num.lit 28.999999999999996) by (vm_compute; reflexivity).
  split; [vm_compute; reflexivity |]. split; [vm_compute; reflexivity |].
  split; [exact H |]. rewrite H.
  split; [vm_compute; reflexivity |].
  intro E. vm_compute in E. discriminate E.
Qed.

(** ** The validation of a rewrite *)

Section ValidationProperties.

Import CVOptimizer.

(** C2.  The improvement score of a validation is the sum of four bonuses:
    30 if the quantification rate went strictly up, 25 if the count of power
    verbs went strictly up, 20 if the change of the word count lies in
    [-50, 200], 25 if the count of bullets did not go down.  The validation
    passes exactly when the score is at least 50.  A text validated against
    itself scores 45 and does not pass. *)
Theorem C2_improvement_score_is_sum_of_bonuses (original optimized : string) :
  let a := _analyze_current_cv original in
  let b := _analyze_current_cv optimized in
  let v := _validate_improvements original optimized in
  improvement_score v =
    (bonus (Num.Qlt_bool (quantification_rate a) (quantification_rate b)) 30
     + bonus (Nat.ltb (power_verb_count a) (power_verb_count b)) 25
     + bonus ((-50 <=? Z.of_nat (word_count b) - Z.of_nat (word_count a))
              && (Z.of_nat (word_count b) - Z.of_nat (word_count a) <=? 200)) 20
     + bonus (Nat.leb (total_bullets a) (total_bullets b)) 25)%Z
  /\ (validation_passed v = true <-> (50 <= improvement_score v)%Z)
  /\ improvement_score (_validate_improvements original original) = 45%Z
  /\ validation_passed (_validate_improvements original original) = false.
Proof.
  cbv zeta. repeat split.
  - unfold _validate_improvements; cbn [improvement_score improvements
      quantification_improvement power_verb_improvement length_change
      bullet_count_change].
    rewrite Qlt_bool_fsub.
    replace (0 <? Z.of_nat (power_verb_count (_analyze_current_cv optimized))
                  - Z.of_nat (power_verb_count (_analyze_current_cv original)))%Z
      with (power_verb_count (_analyze_current_cv original)
            <? power_verb_count (_analyze_current_cv optimized)).
    2:{ apply eq_true_iff_eq. rewrite Nat.ltb_lt, Z.ltb_lt. lia. }
    replace (0 <=? Z.of_nat (total_bullets (_analyze_current_cv optimized))
                   - Z.of_nat (total_bullets (_analyze_current_cv original)))%Z
      with (total_bullets (_analyze_current_cv original)
            <=? total_bullets (_analyze_current_cv optimized)).
    2:{ apply eq_true_iff_eq. rewrite Nat.leb_le, Z.leb_le. lia. }
    unfold bonus.
    change (word_count (_analyze_current_cv optimized))
      with (List.length (Py.words optimized)).
    change (word_count (_analyze_current_cv original))
      with (List.length (Py.words original)).
    destruct (Num.Qlt_bool _ _), (_ <? _), (_ && _), (_ <=? _); reflexivity.
  - unfold _validate_improvements; cbn [validation_passed improvement_score].
    intro H. apply Z.leb_le in H. exact H.
  - unfold _validate_improvements; cbn [validation_passed improvement_score].
    intro H. apply Z.leb_le. exact H.
  - unfold _validate_improvements; cbn [improvement_score improvements
      quantification_improvement power_verb_improvement length_change
      bullet_count_change].
    rewrite Qlt_bool_fsub, Qlt_bool_irrefl, !Z.sub_diag. reflexivity.
  - unfold _validate_improvements; cbn [validation_passed improvement_score improvements
      quantification_improvement power_verb_improvement length_change
      bullet_count_change].
    rewrite Qlt_bool_fsub, Qlt_bool_irrefl, !Z.sub_diag. reflexivity.
Qed.

End ValidationProperties.

(** ** The standards *)

Section StandardsProperties.

Import EnhancedScanner.

Lemma action_verb_score_tiers (Standard : Type) (cv_text : string) (standard : Standard) :
  fst (_check_action_verb_compliance Standard cv_text standard)
  = if 5 <=? tier1_count_of cv_text then 90%Z
    else if 3 <=? tier1_count_of cv_text then 75%Z else 50%Z.
Proof.
  unfold _check_action_verb_compliance, tier1_count_of, _analyze_verb_hierarchy.
  cbn [tier1_count].
  destruct (5 <=? _); [reflexivity |].
  destruct (3 <=? _); reflexivity.
Qed.

(** C7.  The score of the action-verb standard follows the tiers: 90 for
    a text with five tier-1 verbs or more, 75 with three or four, 50
    otherwise, the count being that of the tier-1 verbs that occur in the
    lower-cased text.  So the score does not decrease with the count: a
    text with at most as many tier-1 verbs as another scores at most as
    much; at the counts 0, 1, ..., 6 the scores are 50, 50, 50, 75, 75, 90
    and 90. *)
Theorem C7_action_verb_score_monotone (Standard : Type) (cv1 cv2 : string)
    (standard : Standard) :
  let score cv := fst (_check_action_verb_compliance Standard cv standard) in
  (forall cv,
     tier1_count_of cv
     = Py.count (fun verb => Py.contains verb (Py.lower cv)) tier1_verbs
     /\ score cv = if 5 <=? tier1_count_of cv then 90%Z
                   else if 3 <=? tier1_count_of cv then 75%Z else 50%Z)
  /\ (tier1_count_of cv1 <= tier1_count_of cv2 -> (score cv1 <= score cv2)%Z)
  /\ map tier1_count_of tier1_docs = [0; 1; 2; 3; 4; 5; 6]
  /\ map score tier1_docs = [50; 50; 50; 75; 75; 90; 90]%Z.
Proof.
  cbv zeta. split; [| split; [| split]].
  - intro cv. split; [reflexivity | apply action_verb_score_tiers].
  - intro Hle. rewrite !action_verb_score_tiers.
    destruct (5 <=? tier1_count_of cv1) eqn:E1, (5 <=? tier1_count_of cv2) eqn:E2,
             (3 <=? tier1_count_of cv1) eqn:E3, (3 <=? tier1_count_of cv2) eqn:E4;
      try lia;
      repeat match goal with
             | H : (_ <=? _) = true |- _ => apply Nat.leb_le in H
             | H : (_ <=? _) = false |- _ => apply Nat.leb_gt in H
             end; lia.
  - vm_compute. reflexivity.
  - assert (H : map (fun cv => if 5 <=? tier1_count_of cv then 90%Z
                               else if 3 <=? tier1_count_of cv then 75%Z else 50%Z)
                    tier1_docs = [50; 50; 50; 75; 75; 90; 90]%Z)
      by (vm_compute; reflexivity).
    rewrite <- H. clear H. apply map_ext. intro cv. apply action_verb_score_tiers.
Qed.

(** C7 at two texts with two and three tier-1 verbs. *)
Lemma C7_witness :
  tier1_count_of "Automated and scaled the build" <= tier1_count_of "Architected, automated and scaled it"
  /\ (fst (_check_action_verb_compliance unit "Automated and scaled the build" tt)
      <= fst (_check_action_verb_compliance unit "Architected, automated and scaled it" tt))%Z.
Proof.
  assert (H : tier1_count_of "Automated and scaled the build"
              <= tier1_count_of "Architected, automated and scaled it")
    by (vm_compute; lia).
  split; [exact H |].
  exact (proj1 (proj2 (C7_action_verb_score_monotone unit
                         "Automated and scaled the build"
                         "Architected, automated and scaled it" tt)) H).
Defined.

Lemma compliance_rate_range (cv_text : string) :
  compliance_bullets cv_text <> [] ->
  (0 <= compliance_rate cv_text <= 100)%Q.
Proof.
  intro Hne. unfold compliance_rate. apply percent_range.
  - apply length_filter_le.
  - destruct (compliance_bullets cv_text); [congruence | cbn; lia].
Qed.

(** C4, as amended.  The quantification standard scores 0 with the finding
    "No bullet points found" for a text without bullet lines; otherwise 95
    when the rate is at least 80, 80 when the rate is at least 60 and below
    80, and below 60 the rate truncated toward zero: the integer [n] with
    [n <= rate < n + 1]. *)
Theorem C4_quantification_standard_tiers (Standard : Type) (cv_text : string)
    (standard : Standard) :
  let result := _check_quantification_compliance Standard cv_text standard in
  let rate := compliance_rate cv_text in
  (compliance_bullets cv_text = [] ->
   result = (0%Z, [Msg "No bullet points found"]))
  /\ (compliance_bullets cv_text <> [] -> (80 <= rate)%Q -> fst result = 95%Z)
  /\ (compliance_bullets cv_text <> [] -> (60 <= rate)%Q -> (rate < 80)%Q ->
      fst result = 80%Z)
  /\ (compliance_bullets cv_text <> [] -> (rate < 60)%Q ->
      fst result = Num.py_int rate
      /\ (inject_Z (fst result) <= rate < inject_Z (fst result + 1))%Q).
Proof.
  cbv zeta. unfold _check_quantification_compliance, compliance_rate.
  fold (compliance_bullets cv_text).
  pose proof (compliance_rate_range cv_text) as Hrange.
  unfold compliance_rate in Hrange.
  destruct (compliance_bullets cv_text) as [| b bs] eqn:Eb.
  - split; [reflexivity |].
    split; [| split]; intro H; congruence.
  - set (rate := Num.percent _ _) in *.
    specialize (Hrange ltac:(discriminate)).
    destruct (Qle_bool 80 rate) eqn:E80; [| destruct (Qle_bool 60 rate) eqn:E60].
    + apply Qle_bool_iff in E80.
      split; [intro H; discriminate H |].
      split; [reflexivity |].
      split; [intros _ _ Hlt | intros _ Hlt]; exfalso; lra.
    + apply Qle_bool_iff in E60.
      assert (Hlt80 : ~ (80 <= rate)%Q).
      { intro H. apply Qle_bool_iff in H. congruence. }
      split; [intro H; discriminate H |].
      split; [intros _ H; contradiction |].
      split; [reflexivity | intros _ Hlt; exfalso; lra].
    + assert (Hlt80 : ~ (80 <= rate)%Q).
      { intro H. apply Qle_bool_iff in H. congruence. }
      assert (Hlt60 : ~ (60 <= rate)%Q).
      { intro H. apply Qle_bool_iff in H. congruence. }
      split; [intro H; discriminate H |].
      split; [intros _ H; contradiction |].
      split; [intros _ H; contradiction |].
      intros _ _. cbn [fst]. split; [reflexivity |].
      apply py_int_bounds. lra.
Qed.

Lemma eight_of_ten_top_tier :
  List.length (compliance_bullets eight_of_ten) = 10
  /\ compliance_rate eight_of_ten = 80%Q
  /\ _check_quantification_compliance unit eight_of_ten tt
     = (95%Z, [Msg "Excellent quantification rate"]).
Proof.
  repeat split; vm_compute; reflexivity.
Qed.

(** C4, counterexample.  Nine bullets, five of them with a numeral: the rate
    is the float 55.55555555555556, below 60; the standard scores 55, and the
    rate rounded to the nearest integer is 56. *)
Lemma C4_counterexample_truncated_not_rounded :
  List.length (compliance_bullets five_of_nine) = 9
  /\ compliance_rate five_of_nine = Num.lit 55.55555555555556
  /\ fst (_check_quantification_compliance unit five_of_nine tt) = 55%Z
  /\ Num.py_round (compliance_rate five_of_nine) = 56%Z.
Proof.
  repeat split; vm_compute; reflexivity.
Qed.

(** C8, counterexample.  With no target role (the standards are checked
    without one), the role-alignment standard scores 70, not 50. *)
Lemma C8_counterexample_standard_scores_70 :
  _analyze_role_alignment "python developer" "" = NoTargetRole 50 "No target role specified"
  /\ fst (_check_alignment_compliance unit "python developer" tt) = 70%Z
  /\ fst (_check_alignment_compliance unit "python developer" tt) <> 50%Z.
Proof.
  repeat split; try reflexivity. vm_compute. discriminate.
Qed.

(** C8, as amended.  The role-alignment standard scores a fixed 70 for every
    document.  The separate role-alignment analysis returns the score 50
    when no target role is given; otherwise its alignment score is the share
    of the relevant keywords found in the text, times 100, the relevant
    keywords being the lists of the role types named in the target role
    (with repetitions) or, when it names none, the generic vocabulary. *)
Theorem C8_role_alignment_as_coded (Standard : Type) (cv_text target_role : string)
    (standard : Standard) :
  _check_alignment_compliance Standard cv_text standard
  = (70%Z, [Msg "Role alignment requires specific target role"])
  /\ _analyze_role_alignment cv_text ""
     = NoTargetRole 50 "No target role specified"
  /\ (target_role <> "" ->
      let relevant := relevant_keywords_for (Py.lower target_role) in
      let matched :=
        filter (fun kw => Py.contains kw (Py.lower cv_text)) relevant in
      let ratio :=
        Num.div_nat (List.length matched) (Nat.max (List.length relevant) 1)
        [*] 100 in
      _analyze_role_alignment cv_text target_role
      = Aligned target_role (firstn 20 relevant) (firstn 15 matched) ratio
                (_get_alignment_recommendation ratio)
      /\ 0 < List.length relevant
      /\ (0 <= ratio <= 100)%Q).
Proof.
  split; [reflexivity |]. split; [reflexivity |].
  intros Hne. cbv zeta.
  unfold _analyze_role_alignment.
  destruct (String.eqb target_role "") eqn:E.
  - apply String.eqb_eq in E. contradiction.
  - split; [reflexivity |].
    assert (Hpos : 0 < List.length (relevant_keywords_for (Py.lower target_role))).
    { unfold relevant_keywords_for.
      destruct (flat_map _ role_keywords); cbn; lia. }
    split; [exact Hpos |].
    replace (Nat.max (List.length (relevant_keywords_for (Py.lower target_role))) 1)
      with (List.length (relevant_keywords_for (Py.lower target_role))) by lia.
    apply (percent_range _ _ (length_filter_le _ _) Hpos).
Qed.

(** With sub-scores of at most 100 each the enhanced score is at most the
    one of sub-scores of 100 each, which is 52. *)
Lemma enhanced_score_le_52 (Standard : Type)
    (base : Scanner.Sections) (enhanced : EnhancedAnalysis Standard) :
  sub_scores_in_range Standard base enhanced ->
  (_calculate_enhanced_score Standard base enhanced <= 52)%Z.
Proof.
  intros (Hpv & Htech & Hfmt & Hats & Hcomp & Htier & Hlead & Himp & Hdepth & Hpres).
  unfold _calculate_enhanced_score. apply py_int_le; [lia |].
  unfold Num.sum. cbn [fold_left].
  eapply Qle_trans.
  - bound_above;
      first [ apply Hpv | apply Htech | apply Hfmt | apply Hats | apply Hcomp
            | apply Htier | apply Hlead | apply Himp | apply Hdepth | apply Hpres ].
  - vm_compute. discriminate.
Qed.

Lemma enhanced_score_nonneg (Standard : Type)
    (base : Scanner.Sections) (enhanced : EnhancedAnalysis Standard) :
  sub_scores_in_range Standard base enhanced ->
  (0 <= _calculate_enhanced_score Standard base enhanced)%Z.
Proof.
  intros (Hpv & Htech & Hfmt & Hats & Hcomp & Htier & Hlead & Himp & Hdepth & Hpres).
  unfold _calculate_enhanced_score. apply py_int_nonneg.
  unfold Num.sum. cbn [fold_left].
  bound_below;
    first [ apply of_Z_nonneg; lia | apply Hfmt | apply Hcomp | apply Htier
          | apply Hdepth ].
Qed.

(** C10.  When each of the ten sub-scores lies in [0, 100], the enhanced
    score is at most 52; so the grade is neither A+ nor A, and no benchmark
    with a threshold of 80 or more is met. *)
Theorem C10_enhanced_score_at_most_52 (Standard : Type)
    (base : Scanner.Sections) (enhanced : EnhancedAnalysis Standard) :
  sub_scores_in_range Standard base enhanced ->
  let s := _calculate_enhanced_score Standard base enhanced in
  (s <= 52)%Z
  /\ fst (Report.grade s) <> "A+" /\ fst (Report.grade s) <> "A"
  /\ (forall name c, In (name, c) (Report._create_benchmark_comparison s) ->
      (80 <= Report.threshold c)%Z -> Report.meets_benchmark c = false).
Proof.
  intro Hrange. cbv zeta.
  pose proof (enhanced_score_le_52 Standard base enhanced Hrange) as Hs.
  split; [exact Hs |].
  set (s := _calculate_enhanced_score Standard base enhanced) in *.
  assert (Hgrade : Report.grade s = ("D", "Significant Improvements Required")).
  { unfold Report.grade.
    destruct (90 <=? s)%Z eqn:E1; [apply Z.leb_le in E1; lia |].
    destruct (80 <=? s)%Z eqn:E2; [apply Z.leb_le in E2; lia |].
    destruct (70 <=? s)%Z eqn:E3; [apply Z.leb_le in E3; lia |].
    destruct (60 <=? s)%Z eqn:E4; [apply Z.leb_le in E4; lia |].
    reflexivity. }
  rewrite Hgrade. cbn [fst].
  split; [discriminate |]. split; [discriminate |].
  intros name c Hin Hth.
  unfold Report._create_benchmark_comparison in Hin.
  apply in_map_iff in Hin. destruct Hin as [[n t] [Heq _]].
  inversion Heq; subst; clear Heq. cbn [Report.meets_benchmark Report.threshold snd] in *.
  apply Z.leb_gt. lia.
Qed.

End StandardsProperties.

(** ** The optimization engine *)

Section EngineProperties.

Import CVOptimizer.

Lemma replace_weak_line (line : string) (st st' : string * list Improvement)
    (ws : string * string) :
  fst st = fst st' ->
  fst (replace_weak line st ws) = fst (replace_weak line st' ws).
Proof.
  intro H. unfold replace_weak. destruct ws as [weak strong].
  destruct (Py.contains weak (Py.lower line)); [| exact H].
  destruct (negb _); reflexivity.
Qed.

Lemma fold_replace_weak_line (line : string) (rs : list (string * string))
    (st st' : string * list Improvement) :
  fst st = fst st' ->
  fst (fold_left (replace_weak line) rs st)
  = fst (fold_left (replace_weak line) rs st').
Proof.
  revert st st'. induction rs as [| ws rs IH]; intros st st' H; [exact H |].
  cbn [fold_left]. apply IH. apply replace_weak_line. exact H.
Qed.

Lemma optimize_line_lines (st : list string * list Improvement) (line : string) :
  fst (optimize_line st line) = fst st ++ [optimized_line_of line].
Proof.
  unfold optimize_line, optimized_line_of.
  pose proof (fold_replace_weak_line line verb_replacements
                (line, snd st) (line, []) eq_refl) as H.
  destruct (fold_left (replace_weak line) verb_replacements (line, snd st)).
  cbn [fst] in *. rewrite H. reflexivity.
Qed.

Lemma fold_optimize_line_lines (ls : list string)
    (st : list string * list Improvement) :
  fst (fold_left optimize_line ls st) = fst st ++ map optimized_line_of ls.
Proof.
  revert st. induction ls as [| l ls IH]; intro st; cbn [fold_left map].
  - rewrite app_nil_r. reflexivity.
  - rewrite IH, optimize_line_lines, <- app_assoc. reflexivity.
Qed.

Lemma fallback_content (cv_text : string) :
  optimized_content (_fallback_optimization_on cv_text)
  = Some (JStr (Py.join (Py.chr Py.newline)
                        (map optimized_line_of (Py.lines cv_text)))).
Proof.
  unfold _fallback_optimization_on.
  pose proof (fold_optimize_line_lines (Py.lines cv_text) ([], [])) as H.
  destruct (fold_left optimize_line (Py.lines cv_text) ([], [])) as [ols imps].
  cbn [fst app] in H. subst ols. reflexivity.
Qed.

Lemma fallback_flag (cv_text : string) :
  fallback_used (_fallback_optimization_on cv_text) = true.
Proof.
  unfold _fallback_optimization_on.
  destruct (fold_left optimize_line (Py.lines cv_text) ([], [])).
  reflexivity.
Qed.

Lemma optimized_line_nonempty (line : string) :
  line <> "" -> optimized_line_of line <> "".
Proof.
  intro Hne. unfold optimized_line_of, verb_replacements.
  cbn [fold_left]. unfold replace_weak.
  pose proof (lower_nonempty line Hne) as Hl.
  repeat match goal with
         | |- context [if Py.contains ?w (Py.lower line) then _ else _] =>
             destruct (Py.contains w (Py.lower line))
         | |- context [if negb ?b then _ else _] => destruct (negb b)
         end;
    cbn [fst]; try exact Hne; apply replace_nonempty; try exact Hl; discriminate.
Qed.

Lemma fallback_content_nonempty (cv_text : string) :
  cv_text <> "" ->
  optimized_content (_fallback_optimization_on cv_text) <> Some (JStr "").
Proof.
  intros Hne Heq. rewrite fallback_content in Heq.
  injection Heq as Heq. revert Heq.
  pose proof (join_split_on Py.newline cv_text) as Hjoin.
  unfold Py.lines in *.
  destruct (Py.split_on Py.newline cv_text) as [| l1 [| l2 ls]] eqn:E.
  - exfalso. exact (split_on_nonempty _ _ E).
  - cbn [Py.join] in Hjoin. subst l1. cbn [map Py.join].
    apply optimized_line_nonempty. exact Hne.
  - cbn [map]. apply join_two_nonempty. discriminate.
Qed.

(** C6.  The rule-based fallback on the two bullets "- worked on migrating
    servers" and "- helped with deployment" returns two lines, the first
    with "developed" and the second with "contributed to", and two distinct
    improvements, one per line, each with impact score 6. *)
Theorem C6_fallback_scenario :
  let context := _prepare_optimization_context weak_verbs_doc "" "balanced" in
  let r := _fallback_optimization context in
  exists line1 line2 imp1 imp2,
    optimized_content r = Some (JStr (line1 ++ nl ++ line2))
    /\ line1 = "- developed migrating servers"
    /\ line2 = "- contributed to deployment"
    /\ Py.lines (line1 ++ nl ++ line2) = [line1; line2]
    /\ Py.contains "developed" line1 = true
    /\ Py.contains "contributed to" line2 = true
    /\ improvements_of r = [imp1; imp2]
    /\ imp1 <> imp2
    /\ original imp1 = "- worked on migrating servers" /\ improved imp1 = line1
    /\ original imp2 = "- helped with deployment" /\ improved imp2 = line2
    /\ impact_score imp1 = 6%Z /\ impact_score imp2 = 6%Z
    /\ fallback_used r = true.
Proof.
  cbv zeta.
  exists "- developed migrating servers", "- contributed to deployment".
  eexists _, _.
  repeat match goal with |- _ /\ _ => split end.
  all: try (vm_compute; reflexivity).
  intro H. apply (f_equal original) in H. vm_compute in H. discriminate H.
Qed.

(** C9.  For every text and job description [get_optimization_suggestions]
    returns the empty list and does not raise: the list minus the set raises
    [TypeError], which the handler logs. *)
Theorem C9_suggestions_always_empty (cv_text job_description : string) (w : World) :
  get_optimization_suggestions cv_text job_description w
  = (inr [], mkWorld (net_calls w) (S (errors_logged w)) (clock w)).
Proof.
  reflexivity.
Qed.

Create HintDb sends.

Lemma sends_ret {A} (a : A) : sends_at_most 0 (ret a).
Proof. intro w. cbn. lia. Qed.

Lemma sends_raise {A} (e : Exn) : sends_at_most 0 (@raise A e).
Proof. intro w. cbn. lia. Qed.

Lemma sends_log_error : sends_at_most 0 log_error.
Proof. intro w. cbn. lia. Qed.

Lemma sends_bind {A B} (m : M A) (f : A -> M B) (n1 n2 : nat) :
  sends_at_most n1 m -> (forall a, sends_at_most n2 (f a)) ->
  sends_at_most (n1 + n2) (bind m f).
Proof.
  intros Hm Hf w. unfold bind. specialize (Hm w).
  destruct (m w) as [[e | a] w']; cbn [snd] in *.
  - lia.
  - specialize (Hf a w'). lia.
Qed.

Lemma sends_try_except {A} (body : M A) (handler : Exn -> M A) (n1 n2 : nat) :
  sends_at_most n1 body -> (forall e, sends_at_most n2 (handler e)) ->
  sends_at_most (n1 + n2) (try_except body handler).
Proof.
  intros Hb Hh w. unfold try_except. specialize (Hb w).
  destruct (body w) as [[e | a] w']; cbn [snd] in *.
  - specialize (Hh e w'). lia.
  - lia.
Qed.

Lemma sends_requests_post (svc : Services) (url : string) (payload : Payload) :
  sends_at_most 1 (requests_post svc url payload).
Proof.
  intro w. unfold requests_post. destruct (post svc url payload); cbn; lia.
Qed.

#[local] Hint Resolve sends_ret sends_raise sends_log_error sends_requests_post
  : sends.

Lemma sends_call_llm_api (cfg : LLMConfig) (svc : Services) (prompt : Prompt) :
  sends_at_most 1 (_call_llm_api cfg svc prompt).
Proof.
  unfold _call_llm_api.
  apply (sends_try_except _ _ 1 0).
  - destruct (String.eqb (provider cfg) "ollama").
    + apply (sends_bind _ _ 1 0); [auto with sends |]. intro response.
      apply (sends_bind _ _ 0 0).
      * unfold raise_for_status. destruct (_ && _)%bool; auto with sends.
      * intros _. apply (sends_bind _ _ 0 0).
        -- unfold response_json. destruct (json_body response); auto with sends.
        -- intro v. unfold get_response.
           destruct v; auto with sends.
           destruct (lookup "response" kv); auto with sends.
    + intro w. cbn. lia.
  - intro e. apply (sends_bind _ _ 0 0); auto with sends.
Qed.

Lemma sends_json_loads (svc : Services) (s : string) :
  sends_at_most 0 (json_loads svc s).
Proof.
  unfold json_loads. destruct s; auto with sends.
  destruct (decode_object svc _); auto with sends.
Qed.

Lemma sends_parse (svc : Services) (response : JValue) (original_cv : string) :
  sends_at_most 0 (_parse_optimization_response svc response original_cv).
Proof.
  unfold _parse_optimization_response, try_except_only.
  apply (sends_try_except _ _ 0 0).
  - destruct response; auto with sends.
    apply (sends_bind _ _ 0 0).
    + destruct (_ && _)%bool; auto with sends.
      apply (sends_bind _ _ 0 0); [apply sends_json_loads |].
      intro result. destruct (_ && _)%bool; auto with sends.
    + intros [r |]; auto with sends.
  - intro e. destruct (is_JSONDecodeError e).
    + apply (sends_bind _ _ 0 0); auto with sends.
    + auto with sends.
Qed.

(** The engine sends one request at most: a failure is not retried. *)
Lemma generate_sends_at_most_one (cfg : LLMConfig) (svc : Services) (ctx : Context) :
  sends_at_most 1 (_generate_optimizations cfg svc ctx).
Proof.
  unfold _generate_optimizations.
  apply (sends_try_except _ _ 1 0).
  - unfold llm_optimization. apply (sends_bind _ _ 1 0).
    + apply sends_call_llm_api.
    + intro response. apply sends_parse.
  - intro e. apply (sends_bind _ _ 0 0); auto with sends.
Qed.

Lemma escaping_exception_falls_back (cfg : LLMConfig) (svc : Services)
    (ctx : Context) (w : World) (e : Exn) :
  fst (llm_optimization cfg svc ctx w) = inl e ->
  fst (_generate_optimizations cfg svc ctx w) = inr (_fallback_optimization ctx).
Proof.
  intro H. unfold _generate_optimizations, try_except.
  destruct (llm_optimization cfg svc ctx w) as [[e' | r] w']; cbn [fst] in H.
  - reflexivity.
  - discriminate H.
Qed.

Lemma decode_error_keeps_original (cfg : LLMConfig) (svc : Services)
    (ctx : Context) (w : World) :
  decode_error cfg svc ctx w ->
  fst (_generate_optimizations cfg svc ctx w)
  = inr (_create_fallback_response (cv_text ctx)).
Proof.
  intros (response & w1 & Hcall & Hstart & Hend & Hloads).
  unfold _generate_optimizations, llm_optimization, try_except, bind.
  cbv zeta. rewrite Hcall.
  unfold _parse_optimization_response, try_except_only, try_except, bind.
  apply Z.eqb_neq in Hstart, Hend. rewrite Hstart, Hend. cbn [negb andb].
  destruct (json_loads svc _ w1) as [[e | obj] w2]; cbn [fst] in Hloads.
  - injection Hloads as ->. reflexivity.
  - discriminate Hloads.
Qed.

(** An exception of the decoder other than [json.JSONDecodeError] passes
    the handler of the parser and leaves the [try] of the engine. *)
Lemma other_decode_exception_escapes (cfg : LLMConfig) (svc : Services)
    (ctx : Context) (w : World) (e : Exn) :
  e <> JSONDecodeError -> decode_raises e cfg svc ctx w ->
  fst (llm_optimization cfg svc ctx w) = inl e.
Proof.
  intros Hne (response & w1 & Hcall & Hstart & Hend & Hloads).
  unfold llm_optimization, bind. cbv zeta. rewrite Hcall.
  unfold _parse_optimization_response, try_except_only, try_except, bind.
  apply Z.eqb_neq in Hstart, Hend. rewrite Hstart, Hend. cbn [negb andb].
  destruct (json_loads svc _ w1) as [[e' | obj] w2]; cbn [fst] in Hloads.
  - injection Hloads as ->.
    destruct e; try reflexivity. contradiction Hne. reflexivity.
  - discriminate Hloads.
Qed.

(** C5, as amended.  When the call of the LLM or the parsing of its reply
    raises an exception that leaves the [try] of [_generate_optimizations],
    the engine returns the rule-based fallback; so it does when the decoder
    of the reply raises another exception than [json.JSONDecodeError]
    ([RecursionError], say).  When the decoder raises
    [json.JSONDecodeError], the parser catches the error itself and the
    engine returns the original text unchanged with no improvement.  In all
    these cases the result carries [fallback_used = true], its content is
    not empty for a text that is not empty, and one request at most was
    sent: nothing is retried. *)
Theorem C5_llm_failure_degrades (cfg : LLMConfig) (svc : Services)
    (ctx : Context) (w : World) :
  let out := _generate_optimizations cfg svc ctx w in
  ((exists e, fst (llm_optimization cfg svc ctx w) = inl e) ->
   fst out = inr (_fallback_optimization ctx))
  /\ (forall e, e <> JSONDecodeError -> decode_raises e cfg svc ctx w ->
      fst (llm_optimization cfg svc ctx w) = inl e
      /\ fst out = inr (_fallback_optimization ctx))
  /\ (decode_error cfg svc ctx w ->
      fst out = inr (_create_fallback_response (cv_text ctx)))
  /\ ((exists e, fst (llm_optimization cfg svc ctx w) = inl e)
      \/ decode_error cfg svc ctx w ->
      exists r,
        fst out = inr r
        /\ fallback_used r = true
        /\ (cv_text ctx <> "" -> optimized_content r <> Some (JStr ""))
        /\ net_calls (snd out) <= net_calls w + 1).
Proof.
  cbv zeta. split; [| split; [| split]].
  - intros [e He]. exact (escaping_exception_falls_back cfg svc ctx w e He).
  - intros e Hne Hd.
    pose proof (other_decode_exception_escapes cfg svc ctx w e Hne Hd) as He.
    split; [exact He |].
    exact (escaping_exception_falls_back cfg svc ctx w e He).
  - apply decode_error_keeps_original.
  - intros [[e He] | Hd].
    + exists (_fallback_optimization ctx).
      split; [exact (escaping_exception_falls_back cfg svc ctx w e He) |].
      split; [apply fallback_flag |].
      split; [apply fallback_content_nonempty |].
      apply generate_sends_at_most_one.
    + exists (_create_fallback_response (cv_text ctx)).
      split; [apply decode_error_keeps_original; exact Hd |].
      split; [reflexivity |].
      split; [intros Hne Heq; injection Heq as Heq; contradiction |].
      apply generate_sends_at_most_one.
Qed.

Lemma unreachable_endpoint_example :
  let ctx := _prepare_optimization_context weak_verbs_doc "" "balanced" in
  let out := _generate_optimizations default_llm_config unreachable ctx w0 in
  fst (llm_optimization default_llm_config unreachable ctx w0) = inl ConnectionError
  /\ fst out = inr (_fallback_optimization ctx)
  /\ net_calls (snd out) = 1.
Proof.
  cbv zeta. repeat split; vm_compute; reflexivity.
Qed.

(** The reply is nested too deep: the decoder raises [RecursionError], the
    parser does not catch it, and the engine logs it once and returns the
    rule-based fallback. *)
Lemma nested_reply_example :
  let ctx := _prepare_optimization_context weak_verbs_doc "" "balanced" in
  let out := _generate_optimizations default_llm_config nested_reply ctx w0 in
  fst (json_loads nested_reply "{deep}" w0) = inl RecursionError
  /\ fst out = inr (_fallback_optimization ctx)
  /\ net_calls (snd out) = 1
  /\ errors_logged (snd out) = 1.
Proof.
  cbv zeta. repeat split; vm_compute; reflexivity.
Qed.

(** C5, counterexample.  The LLM answers "sure {oops}": decoding the slice
    "{oops}" raises [JSONDecodeError], and the engine returns the original
    text unchanged, which is not the rule-based fallback (that one rewrites
    both bullets). *)
Lemma C5_counterexample_decode_error :
  let ctx := _prepare_optimization_context weak_verbs_doc "" "balanced" in
  let out := _generate_optimizations default_llm_config malformed_reply ctx w0 in
  fst (json_loads malformed_reply "{oops}" w0) = inl JSONDecodeError
  /\ fst out = inr (_create_fallback_response weak_verbs_doc)
  /\ fst out <> inr (_fallback_optimization ctx)
  /\ optimized_content (_create_fallback_response weak_verbs_doc)
     = Some (JStr weak_verbs_doc)
  /\ optimized_content (_fallback_optimization ctx)
     = Some (JStr ("- developed migrating servers" ++ nl
                   ++ "- contributed to deployment")).
Proof.
  cbv zeta. split; [reflexivity |]. split; [vm_compute; reflexivity |].
  split; [| split; vm_compute; reflexivity].
  vm_compute. intro H. discriminate H.
Qed.

End EngineProperties.

(** ** Determinism of the scores *)

Lemma Permutation_filter_length {A} (f : A -> bool) (l l' : list A) :
  Permutation l l' -> List.length (filter f l) = List.length (filter f l').
Proof.
  intro H. induction H as [| x l l' _ IH | x y l | l l' l'' _ IH1 _ IH2].
  - reflexivity.
  - cbn [filter]. destruct (f x); cbn [List.length]; congruence.
  - cbn [filter]. destruct (f x), (f y); reflexivity.
  - congruence.
Qed.

Lemma enumerations_agree (e1 e2 : list string -> list string) (l : list string) :
  Scanner.valid_enumeration e1 -> Scanner.valid_enumeration e2 ->
  Permutation (e1 l) (e2 l).
Proof.
  intros H1 H2. destruct (H1 l) as [N1 I1]. destruct (H2 l) as [N2 I2].
  apply NoDup_Permutation; [exact N1 | exact N2 |].
  intro x. rewrite I1, I2. reflexivity.
Qed.

Lemma first_seen_valid : Scanner.valid_enumeration Scanner.first_seen.
Proof.
  intro l. unfold Scanner.first_seen. split.
  - apply NoDup_rev, NoDup_nodup.
  - intro x. rewrite <- in_rev, nodup_In, <- in_rev. reflexivity.
Qed.

Lemma nodup_valid : Scanner.valid_enumeration (nodup string_dec).
Proof.
  intro l. split; [apply NoDup_nodup | intro x; apply nodup_In].
Qed.

Lemma analyze_keywords_enumeration (e1 e2 : list string -> list string)
    (cv_text job_description : string) :
  Scanner.valid_enumeration e1 -> Scanner.valid_enumeration e2 ->
  Scanner._analyze_keywords e1 cv_text job_description
  = Scanner._analyze_keywords e2 cv_text job_description.
Proof.
  intros H1 H2. unfold Scanner._analyze_keywords, Scanner._extract_jd_keywords.
  cbv zeta.
  destruct (String.eqb job_description ""); [reflexivity |].
  match goal with |- context [e1 ?l] =>
    pose proof (enumerations_agree e1 e2 l H1 H2) as HP end.
  rewrite (Permutation_length HP).
  rewrite (Permutation_filter_length _ _ _ HP).
  reflexivity.
Qed.

Lemma analyze_enumeration (e1 e2 : list string -> list string)
    (cv_text job_description : string) :
  Scanner.valid_enumeration e1 -> Scanner.valid_enumeration e2 ->
  Scanner.analyze e1 cv_text job_description
  = Scanner.analyze e2 cv_text job_description.
Proof.
  intros H1 H2. unfold Scanner.analyze.
  rewrite (analyze_keywords_enumeration e1 e2 _ _ H1 H2). reflexivity.
Qed.

Lemma extract_text_spec (read : Scanner.Path -> Exn + string)
    (cv_path : Scanner.Path) (w : World) :
  exists w', Scanner._extract_text read cv_path w = (inr (extracted read cv_path), w')
             /\ same_but_log w w'.
Proof.
  unfold Scanner._extract_text, extracted, try_except, same_but_log.
  destruct (String.eqb _ ".docx"); [| destruct (String.eqb _ ".pdf")];
    try destruct (read cv_path); cbn; eexists; (split; [reflexivity |]); cbn; auto.
Qed.

(** The overall score of a scan is a function of the text read and of the
    job description. *)
Lemma scan_cv_spec (e : list string -> list string)
    (read : Scanner.Path -> Exn + string) (cv_path : Scanner.Path)
    (job_description : string) (w : World) :
  overall_of (fst (Scanner.scan_cv e read cv_path job_description w))
  = Some (Scanner._calculate_overall_score
            (Scanner.analyze e (extracted read cv_path) job_description))
  /\ same_but_log w (snd (Scanner.scan_cv e read cv_path job_description w)).
Proof.
  destruct (extract_text_spec read cv_path w) as (w' & He & Hw).
  unfold Scanner.scan_cv, try_except, bind. rewrite He.
  cbn. split; [reflexivity | exact Hw].
Qed.

Lemma same_but_log_refl (w : World) : same_but_log w w.
Proof. split; reflexivity. Qed.

Lemma same_but_log_trans (w1 w2 w3 : World) :
  same_but_log w1 w2 -> same_but_log w2 w3 -> same_but_log w1 w3.
Proof. intros [A B] [C D]. split; congruence. Qed.

Lemma same_but_log_error (w : World) : same_but_log w (snd (log_error w)).
Proof. split; reflexivity. Qed.

Lemma scan_cv_full (e : list string -> list string)
    (read : Scanner.Path -> Exn + string) (cv_path : Scanner.Path)
    (job_description : string) (w : World) :
  exists w',
    Scanner.scan_cv e read cv_path job_description w
    = (inr (Scanner.Scanned
              (let sections :=
                 Scanner.analyze e (extracted read cv_path) job_description in
               {| Scanner.timestamp := clock w;
                  Scanner.cv_path := Scanner.path_str cv_path;
                  Scanner.overall_score := Scanner._calculate_overall_score sections;
                  Scanner.sections := sections;
                  Scanner.recommendations :=
                    Scanner._generate_recommendations sections |})), w')
    /\ same_but_log w w'.
Proof.
  destruct (extract_text_spec read cv_path w) as (w' & He & Hw).
  exists w'. unfold Scanner.scan_cv, try_except, bind. rewrite He.
  unfold now_isoformat, ret. destruct Hw as [Hn Hc]. rewrite Hc.
  split; [reflexivity | split; assumption].
Qed.

Lemma enhanced_analyze_pure (Standard : Type)
    (all_standards : list (string * Standard)) (cv_text target_role : string)
    (w : World) :
  EnhancedScanner.analyze Standard all_standards cv_text target_role w
  = (enhanced_features Standard all_standards cv_text target_role, w).
Proof.
  unfold enhanced_features, EnhancedScanner.analyze, bind,
    EnhancedScanner._analyze_industry_standards.
  destruct (map _ all_standards); reflexivity.
Qed.

Lemma enhanced_scan_spec (Standard : Type)
    (all_standards : list (string * Standard))
    (e : list string -> list string) (read : Scanner.Path -> Exn + string)
    (cv_path : Scanner.Path) (job_description target_role : string) (w : World) :
  let out := EnhancedScanner.enhanced_scan Standard all_standards e read cv_path
               job_description target_role w in
  let text := extracted read cv_path in
  let sections := Scanner.analyze e text job_description in
  scores_of (fst out)
  = match enhanced_features Standard all_standards text target_role with
    | inl _ => None
    | inr enhanced =>
        Some (Scanner._calculate_overall_score sections,
              EnhancedScanner._calculate_enhanced_score Standard sections enhanced)
    end
  /\ same_but_log w (snd out).
Proof.
  cbv zeta.
  destruct (scan_cv_full e read cv_path job_description w) as (w1 & Hs & Hw1).
  destruct (extract_text_spec read cv_path w1) as (w2 & He & Hw2).
  unfold EnhancedScanner.enhanced_scan, try_except, bind.
  rewrite Hs. cbv zeta. rewrite He. rewrite enhanced_analyze_pure.
  destruct (enhanced_features Standard all_standards _ target_role) as [ex | enh].
  - cbn. split; [reflexivity |].
    unfold same_but_log in *. cbn. destruct Hw1, Hw2. split; congruence.
  - cbn. split; [reflexivity |]. exact (same_but_log_trans _ _ _ Hw1 Hw2).
Qed.

(** C3.  Two runs on the same document, job description and target role give
    the same overall score and the same enhanced score, whatever the clock,
    the error log and the order in which each run enumerates its sets; the
    scores exist (for a catalog that is not empty), and no request is sent
    to the LLM during a scan. *)
Theorem C3_scores_are_deterministic (Standard : Type)
    (all_standards : list (string * Standard))
    (e1 e2 : list string -> list string) (read : Scanner.Path -> Exn + string)
    (cv_path : Scanner.Path) (job_description target_role : string)
    (w1 w2 : World) :
  Scanner.valid_enumeration e1 -> Scanner.valid_enumeration e2 ->
  let base1 := Scanner.scan_cv e1 read cv_path job_description w1 in
  let base2 := Scanner.scan_cv e2 read cv_path job_description w2 in
  let enh1 := EnhancedScanner.enhanced_scan Standard all_standards e1 read cv_path
                job_description target_role w1 in
  let enh2 := EnhancedScanner.enhanced_scan Standard all_standards e2 read cv_path
                job_description target_role w2 in
  overall_of (fst base1) = overall_of (fst base2)
  /\ overall_of (fst base1) <> None
  /\ scores_of (fst enh1) = scores_of (fst enh2)
  /\ (all_standards <> [] -> scores_of (fst enh1) <> None)
  /\ net_calls (snd enh1) = net_calls w1
  /\ net_calls (snd enh2) = net_calls w2.
Proof.
  intros H1 H2. cbv zeta.
  destruct (scan_cv_spec e1 read cv_path job_description w1) as [Hb1 _].
  destruct (scan_cv_spec e2 read cv_path job_description w2) as [Hb2 _].
  destruct (enhanced_scan_spec Standard all_standards e1 read cv_path
              job_description target_role w1) as [Hs1 [Hn1 _]].
  destruct (enhanced_scan_spec Standard all_standards e2 read cv_path
              job_description target_role w2) as [Hs2 [Hn2 _]].
  rewrite Hb1, Hb2, Hs1, Hs2.
  rewrite (analyze_enumeration e1 e2 _ _ H1 H2).
  split; [reflexivity |]. split; [discriminate |]. split; [reflexivity |].
  split; [| split; assumption].
  intro Hne. unfold enhanced_features, EnhancedScanner.analyze, bind,
    EnhancedScanner._analyze_industry_standards.
  destruct all_standards as [| s ss]; [congruence |]. cbn. discriminate.
Qed.

(** ** The ranges of the sub-scores *)

Lemma capped_range (n k : Z) : (0 <= n)%Z -> (0 <= k)%Z ->
  (0 <= Z.min (n * k) 100 <= 100)%Z.
Proof. intros. split; [apply Z.min_glb; nia | apply Z.le_min_r]. Qed.

Lemma penalise_le (cond : bool) (issue : string) (points : Z)
    (st : list string * Z) :
  (0 <= points)%Z -> (snd (Scanner.penalise cond issue points st) <= snd st)%Z.
Proof.
  intro H. unfold Scanner.penalise. destruct cond; cbn [snd]; lia.
Qed.

Lemma Qmin_max_range (x : Q) : (0 <= Num.max (Num.min x 100) 0 <= 100)%Q.
Proof.
  unfold Num.max, Num.min.
  destruct (Num.Qlt_bool 100 x) eqn:E1.
  - destruct (Num.Qlt_bool 100 0) eqn:E2.
    + apply Qlt_bool_iff in E2. lra.
    + lra.
  - assert (Hx : (x <= 100)%Q).
    { apply Qnot_lt_le. intro H. apply Qlt_bool_iff in H. congruence. }
    destruct (Num.Qlt_bool x 0) eqn:E2.
    + lra.
    + assert (0 <= x)%Q.
      { apply Qnot_lt_le. intro H. apply Qlt_bool_iff in H. congruence. }
      lra.
Qed.

Lemma of_Z_2 : Num.of_Z 2 = 2%Q.
Proof. vm_compute. reflexivity. Qed.

Lemma keywords_range (e : list string -> list string) (cv jd : string) :
  let k := Scanner._analyze_keywords e cv jd in
  (0 <= Scanner.pv_score (Scanner.kw_power_verbs k) <= 100)%Z
  /\ (0 <= Scanner.score (Scanner.kw_technical_skills k) <= 100)%Z.
Proof.
  cbv zeta. unfold Scanner._analyze_keywords. cbv zeta.
  cbn [Scanner.pv_score Scanner.kw_power_verbs Scanner.score
       Scanner.kw_technical_skills].
  split; apply capped_range; lia.
Qed.

Lemma formatting_range (cv : string) :
  (0 <= Scanner.overall_formatting_score (Scanner._analyze_formatting cv) <= 100)%Q.
Proof.
  unfold Scanner._analyze_formatting. cbv zeta.
  cbn [Scanner.overall_formatting_score].
  match goal with |- context [Num.percent ?a ?b] =>
    pose proof (percent_range a b) as Hp end.
  specialize (Hp ltac:(apply length_filter_le) ltac:(cbn; lia)).
  match goal with |- context [Num.of_Z (Z.min ?a ?b)] =>
    pose proof (of_Z_range (Z.min a b)) as Hb end.
  specialize (Hb ltac:(apply capped_range; lia)).
  set (p := Num.percent _ _) in *. set (b := Num.of_Z (Z.min _ _)) in *.
  clearbody p b. rewrite of_Z_2.
  assert (Hs : (0 <= p [+] b <= 200)%Q).
  { apply fl_range; [reflexivity | reflexivity | lra]. }
  set (t := p [+] b) in *. clearbody t.
  apply fl_percent. unfold Qdiv. change (/ 2)%Q with (1 # 2)%Q. lra.
Qed.

Lemma ats_range (cv : string) :
  (0 <= Scanner.ats_score (Scanner._analyze_ats_compatibility cv) <= 100)%Z.
Proof.
  unfold Scanner._analyze_ats_compatibility. cbv zeta. cbn [Scanner.ats_score].
  split; [lia |].
  apply Z.max_lub; [| lia].
  repeat (etransitivity; [apply penalise_le; lia |]). cbn. lia.
Qed.

Lemma presentation_range (cv : string) :
  (0 <= EnhancedScanner.presentation_score (EnhancedScanner._analyze_presentation cv)
   <= 100)%Z.
Proof.
  unfold EnhancedScanner._analyze_presentation. cbv zeta.
  cbn [EnhancedScanner.presentation_score].
  split; [lia |].
  apply Z.max_lub; [| lia].
  repeat (etransitivity; [apply penalise_le; lia |]). cbn. lia.
Qed.

Lemma impact_range (cv : string) :
  (0 <= EnhancedScanner.impact_score (EnhancedScanner._analyze_impact_statements cv)
   <= 100)%Z.
Proof.
  unfold EnhancedScanner._analyze_impact_statements. cbv zeta.
  cbn [EnhancedScanner.impact_score].
  split; [apply Z.min_glb; lia | apply Z.le_min_r].
Qed.

Lemma leadership_range (cv : string) :
  (0 <= EnhancedScanner.leadership_score
          (EnhancedScanner._analyze_leadership_indicators cv) <= 100)%Z.
Proof.
  unfold EnhancedScanner._analyze_leadership_indicators. cbv zeta.
  cbn [EnhancedScanner.leadership_score].
  split; [apply Z.min_glb; lia | apply Z.le_min_r].
Qed.

Lemma tier_range (cv : string) :
  (0 <= EnhancedScanner.tier_distribution_score
          (EnhancedScanner._analyze_verb_hierarchy cv) <= 100)%Q.
Proof.
  unfold EnhancedScanner._analyze_verb_hierarchy. cbv zeta.
  cbn [EnhancedScanner.tier_distribution_score].
  destruct (0 <? _) eqn:E.
  - apply Nat.ltb_lt in E. apply percent_range; lia.
  - lra.
Qed.

Lemma depth_range (cv : string) :
  (0 <= EnhancedScanner.depth_score (EnhancedScanner._analyze_content_depth cv)
   <= 100)%Q.
Proof.
  unfold EnhancedScanner._analyze_content_depth. cbv zeta.
  cbn [EnhancedScanner.depth_score]. apply Qmin_max_range.
Qed.

Lemma quantification_compliance_range (Standard : Type) (cv : string)
    (standard : Standard) :
  (0 <= fst (EnhancedScanner._check_quantification_compliance Standard cv standard)
   <= 100)%Z.
Proof.
  unfold EnhancedScanner._check_quantification_compliance.
  pose proof (compliance_rate_range cv) as Hr.
  unfold compliance_rate, compliance_bullets in Hr.
  destruct (Re.findall Scanner.bullet_line_re cv) as [| b bs]; [cbn; lia |].
  specialize (Hr ltac:(discriminate)).
  set (rate := Num.percent _ _) in *. clearbody rate.
  destruct (Qle_bool 80 rate); [cbn; lia |].
  destruct (Qle_bool 60 rate); [cbn; lia |].
  cbn [fst]. split.
  - apply py_int_nonneg. lra.
  - apply py_int_le; [lia | change (inject_Z 100) with 100%Q; lra].
Qed.

Lemma ats_formatting_compliance_range (Standard : Type) (cv : string)
    (standard : Standard) :
  (0 <= fst (EnhancedScanner._check_ats_formatting_compliance Standard cv standard)
   <= 100)%Z.
Proof.
  unfold EnhancedScanner._check_ats_formatting_compliance. cbv zeta. cbn [fst].
  split; [lia |].
  apply Z.max_lub; [| lia].
  repeat (etransitivity; [apply penalise_le; lia |]). cbn. lia.
Qed.

Lemma check_standard_range (Standard : Type) (cv name : string)
    (standard : Standard) :
  (0 <= fst (EnhancedScanner.check_standard Standard cv name standard) <= 100)%Z.
Proof.
  unfold EnhancedScanner.check_standard.
  repeat match goal with
         | |- context [if String.eqb name ?s then _ else _] =>
             destruct (String.eqb name s)
         end.
  - rewrite action_verb_score_tiers.
    destruct (5 <=? _); [lia |]. destruct (3 <=? _); lia.
  - apply quantification_compliance_range.
  - apply ats_formatting_compliance_range.
  - unfold EnhancedScanner._check_keyword_compliance. cbv zeta.
    destruct (12 <=? _); [cbn; lia |]. destruct (8 <=? _); cbn; lia.
  - apply presentation_range.
  - apply impact_range.
  - cbn. lia.
  - cbn. lia.
Qed.

Lemma sum_range (l : list Z) (acc : Z) :
  Forall (fun z => 0 <= z <= 100)%Z l ->
  (acc <= fold_left Z.add l acc <= acc + 100 * Z.of_nat (List.length l))%Z.
Proof.
  intro H. revert acc. induction H as [| z l Hz _ IH]; intro acc.
  - cbn. lia.
  - cbn [fold_left List.length]. specialize (IH (acc + z)%Z). lia.
Qed.

(** The mean of scores between 0 and 100 lies between 0 and 100. *)
Lemma mean_range (l : list Z) (n : nat) :
  n = List.length l -> 0 < n -> Forall (fun z => 0 <= z <= 100)%Z l ->
  (0 <= Num.div_Z (fold_left Z.add l 0%Z) (Z.of_nat n) <= 100)%Q.
Proof.
  intros -> Hn Hall. pose proof (sum_range l 0%Z Hall) as Hs.
  set (s := fold_left Z.add l 0%Z) in *. clearbody s.
  set (n := List.length l) in *. clearbody n.
  pose proof (int_pos n Hn) as Hpos. unfold Num.int in Hpos.
  assert (Hs0 : (0 <= inject_Z s)%Q).
  { change 0%Q with (inject_Z 0). rewrite <- Zle_Qle. lia. }
  assert (Hs1 : (inject_Z s <= 100 * inject_Z (Z.of_nat n))%Q).
  { change 100%Q with (inject_Z 100).
    rewrite <- inject_Z_mult, <- Zle_Qle. lia. }
  apply fl_percent. split.
  - apply Qle_shift_div_l; [exact Hpos | lra].
  - apply Qle_shift_div_r; [exact Hpos | lra].
Qed.

Lemma compliance_range (Standard : Type)
    (all_standards : list (string * Standard)) (cv : string) (w w' : World)
    (c : EnhancedScanner.IndustryStandards Standard) :
  EnhancedScanner._analyze_industry_standards Standard all_standards cv w
  = (inr c, w') ->
  (0 <= EnhancedScanner.overall_compliance_score Standard c <= 100)%Q.
Proof.
  unfold EnhancedScanner._analyze_industry_standards.
  set (results := map _ all_standards).
  assert (Hall : Forall (fun z => 0 <= z <= 100)%Z
                   (map (fun r => EnhancedScanner.sr_score Standard (snd r)) results)).
  { unfold results. rewrite map_map. apply Forall_forall. intros z Hz.
    apply in_map_iff in Hz. destruct Hz as [[name std] [Hz _]]. subst z.
    cbn [fst snd].
    pose proof (check_standard_range Standard cv name std) as Hc.
    destruct (EnhancedScanner.check_standard Standard cv name std). exact Hc. }
  destruct results as [| r rs] eqn:E; [discriminate |].
  intro H. injection H as <- _. cbn [EnhancedScanner.overall_compliance_score].
  apply (mean_range
           (map (fun r => EnhancedScanner.sr_score Standard (snd r)) (r :: rs))
           (S (List.length rs))).
  - cbn [List.length map]. rewrite length_map. reflexivity.
  - lia.
  - exact Hall.
Qed.

(** The features of a scan lie in the range that bounds the enhanced
    score. *)
Lemma scan_sub_scores_in_range (Standard : Type)
    (all_standards : list (string * Standard)) (e : list string -> list string)
    (cv jd role : string) (enhanced : EnhancedScanner.EnhancedAnalysis Standard) :
  enhanced_features Standard all_standards cv role = inr enhanced ->
  sub_scores_in_range Standard (Scanner.analyze e cv jd) enhanced.
Proof.
  unfold enhanced_features, EnhancedScanner.analyze, bind.
  destruct (EnhancedScanner._analyze_industry_standards Standard all_standards cv _)
    as [[ex | c] w'] eqn:Ec; [discriminate |].
  cbn. intro H. injection H as <-.
  pose proof (compliance_range _ _ _ _ _ _ Ec) as Hc.
  unfold sub_scores_in_range, Scanner.analyze.
  cbn [Scanner.keywords Scanner.formatting Scanner.ats_compatibility
       EnhancedScanner.industry_standards EnhancedScanner.verb_hierarchy
       EnhancedScanner.leadership_analysis EnhancedScanner.impact_analysis
       EnhancedScanner.content_depth EnhancedScanner.professional_presentation].
  pose proof (keywords_range e cv jd) as [Hpv Htech].
  repeat split; try apply Hpv; try apply Htech; try apply Hc;
    first [ apply formatting_range | apply ats_range | apply tier_range
          | apply leadership_range | apply impact_range | apply depth_range
          | apply presentation_range ].
Qed.

(** The overall score of a scan lies between 0 and 100. *)
Lemma overall_score_range (e : list string -> list string) (cv jd : string) :
  (0 <= Scanner._calculate_overall_score (Scanner.analyze e cv jd) <= 100)%Z.
Proof.
  unfold Scanner._calculate_overall_score, Scanner.analyze. cbv zeta.
  cbn [Scanner.keywords Scanner.formatting Scanner.content_quality
       Scanner.ats_compatibility Scanner.quantification].
  pose proof (keywords_range e cv jd) as [Hpv Htech]. cbv zeta in Hpv, Htech.
  pose proof (formatting_range cv) as Hfmt.
  pose proof (ats_range cv) as Hats.
  assert (Hsoft : (0 <= Scanner.score (Scanner.kw_soft_skills
                                          (Scanner._analyze_keywords e cv jd))
                   <= 100)%Z).
  { unfold Scanner._analyze_keywords. cbv zeta.
    cbn [Scanner.score Scanner.kw_soft_skills]. apply capped_range; lia. }
  assert (Hjm : (0 <= Scanner.jm_score (Scanner.job_match
                                           (Scanner._analyze_keywords e cv jd))
                 <= 100)%Q).
  { unfold Scanner._analyze_keywords. cbv zeta. cbn [Scanner.job_match].
    destruct (String.eqb jd ""); cbn [Scanner.jm_score]; [lra |].
    apply percent_range; [| lia].
    etransitivity; [apply length_filter_le | lia]. }
  assert (Hq : (0 <= Scanner.quality_score (Scanner._analyze_content_quality cv)
                <= 100)%Z).
  { unfold Scanner._analyze_content_quality. cbv zeta.
    cbn [Scanner.quality_score]. split; [apply Z.min_glb; lia | apply Z.le_min_r]. }
  assert (Hr : (0 <= Scanner.q_score (Scanner._analyze_quantification cv) <= 100)%Q).
  { unfold Scanner._analyze_quantification. cbv zeta. cbn [Scanner.q_score].
    apply percent_range; [| lia]. rewrite length_map.
    etransitivity; [apply length_filter_le | lia]. }
  set (k := Scanner._analyze_keywords e cv jd) in *.
  cbn [app]. unfold Num.sum. cbn [fold_left].
  split.
  - apply py_int_nonneg. bound_below;
      first [ apply of_Z_nonneg; lia | apply Hjm | apply Hfmt | apply Hr ].
  - apply py_int_le; [lia |].
    eapply Qle_trans.
    + bound_above;
        first [ apply Hpv | apply Htech | apply Hsoft | apply Hjm | apply Hfmt
              | apply Hq | apply Hats | apply Hr ].
    + vm_compute. discriminate.
Qed.

(** X1.  The scores of every enhanced scan that returns them lie in their
    ranges, whatever the catalog of standards, the reader and the inputs:
    the overall score between 0 and 100, the enhanced score between 0 and
    52. *)
Theorem X1_scan_scores_in_range (Standard : Type)
    (all_standards : list (string * Standard))
    (e : list string -> list string) (read : Scanner.Path -> Exn + string)
    (cv_path : Scanner.Path) (job_description target_role : string) (w : World)
    (overall enhanced : Z) :
  scores_of (fst (EnhancedScanner.enhanced_scan Standard all_standards e read
                    cv_path job_description target_role w))
  = Some (overall, enhanced) ->
  (0 <= overall <= 100)%Z /\ (0 <= enhanced <= 52)%Z.
Proof.
  destruct (enhanced_scan_spec Standard all_standards e read cv_path
              job_description target_role w) as [Hs _].
  cbv zeta in Hs. rewrite Hs.
  destruct (enhanced_features Standard all_standards _ target_role)
    as [ex | enh] eqn:Ef; [discriminate |].
  intro H. injection H as <- <-.
  pose proof (scan_sub_scores_in_range Standard all_standards e _
                job_description target_role enh Ef) as Hrange.
  split; [apply overall_score_range |].
  split; [apply enhanced_score_nonneg | apply enhanced_score_le_52]; exact Hrange.
Qed.

(** ** Further properties of the scans and of the engine *)

(** *** Substrings *)

Lemma prefix_iff (p s : string) :
  prefix p s = true <-> exists q, s = (p ++ q)%string.
Proof.
  revert s. induction p as [| a p IH]; intro s.
  - split; [intros _; exists s; reflexivity | intros _; destruct s; reflexivity].
  - destruct s as [| b s]; cbn.
    + split; [discriminate | intros [q H]; discriminate H].
    + destruct (Ascii.ascii_dec a b) as [-> | Hne].
      * rewrite IH. split; intros [q H]; exists q; [rewrite H; reflexivity |].
        injection H as H. exact H.
      * split; [discriminate | intros [q H]; injection H as H1 _; congruence].
Qed.

Lemma contains_iff (n h : string) :
  Py.contains n h = true <-> exists p q, h = (p ++ n ++ q)%string.
Proof.
  induction h as [| a h IH].
  - cbn [Py.contains]. rewrite orb_false_r. rewrite prefix_iff. split.
    + intros [q H]. exists "", q. exact H.
    + intros [p [q H]]. destruct p; [exists q; exact H | discriminate H].
  - cbn [Py.contains]. rewrite orb_true_iff, IH, prefix_iff. split.
    + intros [[q H] | [p [q H]]].
      * exists "", q. exact H.
      * exists (String a p), q. rewrite H. reflexivity.
    + intros [p [q H]]. destruct p as [| b p].
      * left. exists q. exact H.
      * right. injection H as _ H. exists p, q. exact H.
Qed.

Lemma append_assoc (a b c : string) : ((a ++ b) ++ c = a ++ (b ++ c))%string.
Proof. induction a; cbn; congruence. Qed.

Lemma contains_trans (a b s : string) :
  Py.contains a b = true -> Py.contains b s = true -> Py.contains a s = true.
Proof.
  rewrite !contains_iff. intros [p [q ->]] [p' [q' ->]].
  exists (p' ++ p)%string, (q ++ q')%string.
  rewrite !append_assoc. reflexivity.
Qed.

(** *** The job match *)

Lemma vocabulary_nodup : NoDup (Scanner.technical_skills ++ Scanner.soft_skills).
Proof.
  assert (H : nodup string_dec (Scanner.technical_skills ++ Scanner.soft_skills)
              = Scanner.technical_skills ++ Scanner.soft_skills)
    by (vm_compute; reflexivity).
  rewrite <- H. apply NoDup_nodup.
Qed.

Lemma mem_In (x : string) (l : list string) : mem x l = true <-> In x l.
Proof.
  unfold mem. rewrite existsb_exists. split.
  - intros [y [Hy He]]. apply String.eqb_eq in He. subst y. exact Hy.
  - intro H. exists x. split; [exact H | apply String.eqb_refl].
Qed.

(** Whatever the job description says, the keywords extracted from it are
    the vocabulary: the five terms looked for in the description belong to
    it already. *)
Lemma jd_keywords_are_the_vocabulary (e : list string -> list string)
    (job_description : string) :
  Scanner.valid_enumeration e ->
  Permutation (Scanner._extract_jd_keywords e job_description)
              (Scanner.technical_skills ++ Scanner.soft_skills).
Proof.
  intro H. unfold Scanner._extract_jd_keywords. cbv zeta.
  set (terms := filter _ _).
  destruct (H ((Scanner.technical_skills ++ Scanner.soft_skills) ++ terms))
    as [N I].
  apply NoDup_Permutation; [exact N | exact vocabulary_nodup |].
  intro x. rewrite I, (in_app_iff _ terms). split; [| auto].
  intros [Hx | Hx]; [exact Hx |].
  unfold terms in Hx. apply filter_In in Hx. destruct Hx as [_ Hm].
  apply mem_In in Hm. cbn in Hm.
  repeat destruct Hm as [<- | Hm]; try contradiction;
    apply mem_In; vm_compute; reflexivity.
Qed.

(** The job description reaches the job match only. *)
Lemma analyze_keywords_eta (e : list string -> list string)
    (cv_text job_description : string) :
  Scanner._analyze_keywords e cv_text job_description
  = {| Scanner.kw_power_verbs :=
         Scanner.kw_power_verbs (Scanner._analyze_keywords e cv_text "");
       Scanner.kw_technical_skills :=
         Scanner.kw_technical_skills (Scanner._analyze_keywords e cv_text "");
       Scanner.kw_soft_skills :=
         Scanner.kw_soft_skills (Scanner._analyze_keywords e cv_text "");
       Scanner.job_match :=
         Scanner.job_match (Scanner._analyze_keywords e cv_text job_description) |}.
Proof. reflexivity. Qed.

(** The job match against a description that is not empty. *)
Lemma job_match_formula (e : list string -> list string)
    (cv_text job_description : string) :
  Scanner.valid_enumeration e -> job_description <> "" ->
  Scanner.job_match (Scanner._analyze_keywords e cv_text job_description)
  = {| Scanner.jm_score :=
         Num.percent (List.length (vocabulary_found cv_text)) 39;
       Scanner.matched_count := List.length (vocabulary_found cv_text) |}.
Proof.
  intros He Hne. unfold Scanner._analyze_keywords. cbv zeta.
  cbn [Scanner.job_match].
  destruct (String.eqb job_description "") eqn:E;
    [apply String.eqb_eq in E; contradiction |].
  pose proof (jd_keywords_are_the_vocabulary e job_description He) as HP.
  rewrite (Permutation_length HP).
  rewrite (Permutation_filter_length _ _ _ HP).
  change (Nat.max (List.length (Scanner.technical_skills ++ Scanner.soft_skills)) 1)
    with 39.
  unfold vocabulary_found. reflexivity.
Qed.

(** X2.  The job match of a scan does not read the job description beyond
    its being empty or not: the keywords taken from a description are always
    the 39 words of the vocabulary, so the score is the share of these words
    found in the document, and two descriptions that are not empty give the
    same keyword analysis. *)
Theorem X2_job_match_ignores_the_job_description
    (e : list string -> list string) (cv_text job_description : string) :
  Scanner.valid_enumeration e -> job_description <> "" ->
  Scanner.job_match (Scanner._analyze_keywords e cv_text job_description)
  = {| Scanner.jm_score :=
         Num.percent (List.length (vocabulary_found cv_text)) 39;
       Scanner.matched_count := List.length (vocabulary_found cv_text) |}
  /\ forall other, other <> "" ->
       Scanner._analyze_keywords e cv_text other
       = Scanner._analyze_keywords e cv_text job_description.
Proof.
  intros He Hjd.
  pose proof (fun jd => job_match_formula e cv_text jd He) as Hm.
  split; [exact (Hm _ Hjd) |].
  intros other Hother.
  rewrite (analyze_keywords_eta e cv_text other),
          (analyze_keywords_eta e cv_text job_description).
  rewrite (Hm _ Hjd), (Hm _ Hother). reflexivity.
Qed.

Lemma X2_witness :
  Scanner.valid_enumeration Scanner.first_seen /\ sample_job <> ""
  /\ Scanner.job_match (Scanner._analyze_keywords Scanner.first_seen sample_cv sample_job)
     = {| Scanner.jm_score := Num.percent (List.length (vocabulary_found sample_cv)) 39;
          Scanner.matched_count := List.length (vocabulary_found sample_cv) |}.
Proof.
  split; [exact first_seen_valid |].
  split; [discriminate |].
  exact (proj1 (X2_job_match_ignores_the_job_description Scanner.first_seen
                  sample_cv sample_job first_seen_valid
                  (fun H : sample_job = "" => ltac:(discriminate H)))).
Defined.

(** *** Documents without text *)


Lemma analyze_empty_text (e : list string -> list string)
    (job_description : string) :
  Scanner.valid_enumeration e ->
  Scanner.analyze e "" job_description = Scanner.analyze Scanner.first_seen "" "".
Proof.
  intro He. unfold Scanner.analyze. f_equal.
  rewrite (analyze_keywords_eta e "" job_description).
  rewrite (analyze_keywords_eta Scanner.first_seen "" "").
  f_equal.
  destruct (String.eqb job_description "") eqn:E.
  - apply String.eqb_eq in E. subst. reflexivity.
  - rewrite job_match_formula; [| exact He |].
    + change (vocabulary_found "") with (@nil string).
      cbn [List.length]. rewrite percent_zero. reflexivity.
    + intro H. subst. discriminate E.
Qed.

Lemma extracted_pdf (read : Scanner.Path -> Exn + string) (p : Scanner.Path) :
  String.eqb (Py.lower (Scanner.suffix p)) ".pdf" = true -> extracted read p = "".
Proof.
  intro H. unfold extracted. apply String.eqb_eq in H. rewrite H. reflexivity.
Qed.

Lemma extracted_unreadable (read : Scanner.Path -> Exn + string)
    (p : Scanner.Path) (ex : Exn) :
  read p = inl ex -> extracted read p = "".
Proof.
  intro H. unfold extracted. rewrite H.
  destruct (String.eqb _ ".docx"); [reflexivity |].
  destruct (String.eqb _ ".pdf"); reflexivity.
Qed.

Lemma scan_recommendations_spec (e : list string -> list string)
    (read : Scanner.Path -> Exn + string) (cv_path : Scanner.Path)
    (job_description : string) (w : World) :
  recommendations_of (fst (Scanner.scan_cv e read cv_path job_description w))
  = Some (Scanner._generate_recommendations
            (Scanner.analyze e (extracted read cv_path) job_description)).
Proof.
  destruct (scan_cv_full e read cv_path job_description w) as (w' & Hs & _).
  rewrite Hs. reflexivity.
Qed.

(** X3.  A document whose text is not extracted, a PDF whatever it holds or
    a file the reader fails on, is scanned as the empty text and no error is
    reported: the scan succeeds with the overall score 10 and the same eight
    recommendations, for every job description. *)
Theorem X3_document_without_text_scores_10 (e : list string -> list string)
    (read : Scanner.Path -> Exn + string) (cv_path : Scanner.Path)
    (job_description : string) (w : World) :
  Scanner.valid_enumeration e ->
  String.eqb (Py.lower (Scanner.suffix cv_path)) ".pdf" = true
  \/ (exists ex, read cv_path = inl ex) ->
  let out := fst (Scanner.scan_cv e read cv_path job_description w) in
  overall_of out = Some 10%Z
  /\ recommendations_of out
     = Some ["Add more power verbs to strengthen impact statements";
             "Include more relevant technical skills from your experience";
             "Add a professional summary or objective section";
             "Use more bullet points to improve readability";
             "Add more quantified achievements with specific numbers and results";
             "Fix ATS issue: No email address found";
             "Fix ATS issue: No phone number found";
             "Quantify more of your achievements with specific metrics and numbers"].
Proof.
  intros He Hdoc. cbv zeta.
  assert (Ht : extracted read cv_path = "").
  { destruct Hdoc as [H | [ex H]];
      [apply extracted_pdf; exact H | apply (extracted_unreadable _ _ ex); exact H]. }
  destruct (scan_cv_spec e read cv_path job_description w) as [Ho _].
  rewrite Ho, scan_recommendations_spec, Ht, (analyze_empty_text e _ He).
  split; vm_compute; reflexivity.
Qed.

Lemma X3_witness :
  Scanner.valid_enumeration Scanner.first_seen
  /\ overall_of (fst (Scanner.scan_cv Scanner.first_seen sample_read
                        (Scanner.mkPath "cv.PDF" ".PDF") sample_job w0))
     = Some 10%Z.
Proof.
  split; [exact first_seen_valid |].
  exact (proj1 (X3_document_without_text_scores_10 Scanner.first_seen sample_read
                  (Scanner.mkPath "cv.PDF" ".PDF") sample_job w0
                  first_seen_valid (or_introl eq_refl))).
Defined.

(** *** The compatibility check *)

(** X4.  The compatibility score is 100 less the penalties of the issues
    listed, 10 for tabs, 15 for special characters, 20 for a missing email
    address and 10 for a missing phone number: it is never below 45 (the
    floor at 0 is never reached), it is 100 exactly when no issue is listed,
    and an issue about the email address or the phone number is listed
    exactly when the check did not find one. *)
Theorem X4_compatibility_score_and_issues (cv_text : string) :
  let a := Scanner._analyze_ats_compatibility cv_text in
  Scanner.ats_score a
  = (100 - fold_right Z.add 0 (map ats_penalty (Scanner.issues a)))%Z
  /\ (45 <= Scanner.ats_score a <= 100)%Z
  /\ (Scanner.ats_score a = 100%Z <-> Scanner.issues a = [])
  /\ List.length (Scanner.issues a) <= 4
  /\ (In "No email address found" (Scanner.issues a)
      <-> Scanner.email_found a = false)
  /\ (In "No phone number found" (Scanner.issues a)
      <-> Scanner.phone_found a = false).
Proof.
  cbv zeta. unfold Scanner._analyze_ats_compatibility. cbv zeta.
  cbn [Scanner.ats_score Scanner.issues Scanner.email_found Scanner.phone_found].
  destruct (Py.contains (Py.chr Py.tab) cv_text),
           (50 <? List.length (Re.findall Scanner.special_re cv_text)),
           (Re.matches Scanner.email_re cv_text),
           (Re.matches Scanner.phone_re cv_text);
    cbn; repeat split; try lia; try discriminate; try reflexivity;
    intros; repeat match goal with
                   | H : _ \/ _ |- _ => destruct H
                   | H : False |- _ => contradiction
                   | H : _ = _ |- _ => discriminate H
                   end; auto.
Qed.

Lemma ats_issues_le_4 (cv_text : string) :
  List.length (Scanner.issues (Scanner._analyze_ats_compatibility cv_text)) <= 4.
Proof.
  unfold Scanner._analyze_ats_compatibility. cbv zeta. cbn [Scanner.issues].
  destruct (Py.contains _ _), (50 <? _), (Re.matches Scanner.email_re cv_text),
           (Re.matches Scanner.phone_re cv_text); cbn; lia.
Qed.

(** *** The recommendations of the base scan *)

Lemma recommend_length (c : bool) (t : string) (l : list string) :
  List.length (Scanner.recommend c t l) <= S (List.length l).
Proof. unfold Scanner.recommend. destruct c; [rewrite length_app; cbn |]; lia. Qed.

Lemma recommend_keeps (c : bool) (t x : string) (l : list string) :
  In x l -> In x (Scanner.recommend c t l).
Proof.
  unfold Scanner.recommend. destruct c; [| auto].
  intro H. apply in_or_app. left. exact H.
Qed.

Lemma recommend_adds (t : string) (l : list string) :
  In t (Scanner.recommend true t l).
Proof. unfold Scanner.recommend. apply in_or_app. right. left. reflexivity. Qed.

Lemma firstn_all_le {A} (n : nat) (l : list A) :
  List.length l <= n -> firstn n l = l.
Proof. intro H. apply firstn_all2. exact H. Qed.

(** X5.  The recommendations of a scan are never cut by the limit of ten: at
    most ten are ever made, so each condition that holds has its text in the
    list, and each compatibility issue has its own. *)
Theorem X5_scan_recommendations_are_complete (e : list string -> list string)
    (cv_text job_description : string) :
  let s := Scanner.analyze e cv_text job_description in
  let recs := Scanner._generate_recommendations s in
  (Scanner.pv_count (Scanner.kw_power_verbs (Scanner.keywords s)) < 5 ->
   In "Add more power verbs to strengthen impact statements" recs)
  /\ (Scanner.count (Scanner.kw_technical_skills (Scanner.keywords s)) < 8 ->
      In "Include more relevant technical skills from your experience" recs)
  /\ (Scanner.summary (Scanner.fmt_sections (Scanner.formatting s)) = false ->
      In "Add a professional summary or objective section" recs)
  /\ (Scanner.bullet_points (Scanner.formatting s) < 10 ->
      In "Use more bullet points to improve readability" recs)
  /\ (Scanner.quantified_achievements (Scanner.content_quality s) < 5 ->
      In "Add more quantified achievements with specific numbers and results" recs)
  /\ (forall issue, In issue (Scanner.issues (Scanner.ats_compatibility s)) ->
      In ("Fix ATS issue: " ++ issue)%string recs)
  /\ ((Scanner.quantification_rate (Scanner.quantification s) < 60)%Q ->
      In "Quantify more of your achievements with specific metrics and numbers" recs).
Proof.
  cbv zeta. unfold Scanner._generate_recommendations. cbv zeta.
  set (s := Scanner.analyze e cv_text job_description).
  pose proof (ats_issues_le_4 cv_text) as H4.
  change (Scanner._analyze_ats_compatibility cv_text)
    with (Scanner.ats_compatibility s) in H4.
  set (c1 := Scanner.pv_count _ <? 5).
  set (c2 := Scanner.count _ <? 8).
  set (c3 := negb _).
  set (c4 := Scanner.bullet_points _ <? 10).
  set (c5 := Scanner.quantified_achievements _ <? 5).
  set (c7 := Num.Qlt_bool _ 60).
  set (l5 := Scanner.recommend c5 _ (Scanner.recommend c4 _
               (Scanner.recommend c3 _ (Scanner.recommend c2 _
                  (Scanner.recommend c1 _ []))))).
  set (fixes := map _ (Scanner.issues (Scanner.ats_compatibility s))).
  assert (Hlen : List.length (Scanner.recommend c7
                   "Quantify more of your achievements with specific metrics and numbers"
                   (l5 ++ fixes)) <= 10).
  { etransitivity; [apply recommend_length |].
    rewrite length_app. unfold fixes. rewrite length_map.
    assert (List.length l5 <= 5).
    { unfold l5.
      repeat (etransitivity; [apply recommend_length |]; apply le_n_S).
      cbn. lia. }
    lia. }
  rewrite (firstn_all_le _ _ Hlen).
  assert (Hin5 : forall x, In x l5 ->
            In x (Scanner.recommend c7
                    "Quantify more of your achievements with specific metrics and numbers"
                    (l5 ++ fixes))).
  { intros x Hx. apply recommend_keeps, in_or_app. left. exact Hx. }
  split; [| split; [| split; [| split; [| split; [| split]]]]].
  - intro H. apply Hin5. unfold l5. do 4 apply recommend_keeps.
    replace c1 with true by (symmetry; apply Nat.ltb_lt; exact H).
    apply recommend_adds.
  - intro H. apply Hin5. unfold l5. do 3 apply recommend_keeps.
    replace c2 with true by (symmetry; apply Nat.ltb_lt; exact H).
    apply recommend_adds.
  - intro H. apply Hin5. unfold l5. do 2 apply recommend_keeps.
    replace c3 with true by (unfold c3; rewrite H; reflexivity).
    apply recommend_adds.
  - intro H. apply Hin5. unfold l5. apply recommend_keeps.
    replace c4 with true by (symmetry; apply Nat.ltb_lt; exact H).
    apply recommend_adds.
  - intro H. apply Hin5. unfold l5.
    replace c5 with true by (symmetry; apply Nat.ltb_lt; exact H).
    apply recommend_adds.
  - intros issue H. apply recommend_keeps, in_or_app. right.
    unfold fixes. apply in_map_iff. exists issue. split; [reflexivity | exact H].
  - intro H. replace c7 with true by (symmetry; apply Qlt_bool_iff; exact H).
    apply recommend_adds.
Qed.

(** *** Quantified bullets *)

Section DigitPatterns.

Import Re.

(** A star hands on to its continuation whenever its iterations fail. *)
Lemma star_total (r : re) (c : Cursor) (k : Cursor -> option Cursor) :
  (forall c', k c' <> None) -> run (Star r) c k <> None.
Proof.
  intro Hk. cbn [run]. generalize (String.length (rest c)). intro fuel.
  destruct fuel as [| fuel]; [apply Hk |].
  destruct (run r c _); [discriminate | apply Hk].
Qed.

Lemma opt_total (r : re) (c : Cursor) : run (Opt r) c (fun c' => Some c') <> None.
Proof.
  unfold Opt. cbn [run]. destruct (run r c _); discriminate.
Qed.

(** A pattern that starts a match at every digit and nowhere in a text
    without digits finds a match exactly in the texts that hold a digit. *)
Lemma scan_finds_digit (r : re)
    (Hyes : forall c a s, rest c = String a s -> Py.isdigit a = true ->
                          match_at r c <> None)
    (Hno : forall c, has_digit (rest c) = false -> match_at r c = None)
    (fuel : nat) (c : Cursor) :
  String.length (rest c) <= fuel ->
  (if has_digit (rest c) then scan fuel r c <> None else scan fuel r c = None).
Proof.
  revert c. induction fuel as [| fuel IH]; intros c Hlen.
  - destruct (rest c) as [| a s] eqn:Er; [| cbn in Hlen; lia].
    cbn [has_digit]. cbn [scan]. rewrite (Hno c); [| rewrite Er; reflexivity].
    reflexivity.
  - cbn [scan]. destruct (rest c) as [| a s] eqn:Er.
    + cbn [has_digit]. rewrite (Hno c); [reflexivity | rewrite Er; reflexivity].
    + cbn [has_digit]. destruct (Py.isdigit a) eqn:Ed.
      * cbn [orb]. pose proof (Hyes c a s Er Ed) as Hm.
        destruct (match_at r c) as [[m c'] |]; [discriminate | contradiction].
      * cbn [orb]. specialize (IH (step c)).
        assert (Es : rest (step c) = s) by (unfold step; rewrite Er; reflexivity).
        rewrite Es in IH. cbn in Hlen. specialize (IH ltac:(lia)).
        destruct (match_at r c) as [[m c'] |] eqn:Em.
        -- destruct (has_digit s) eqn:Eh; [discriminate |].
           rewrite (Hno c) in Em; [discriminate Em |].
           rewrite Er. cbn [has_digit]. rewrite Ed, Eh. reflexivity.
        -- exact IH.
Qed.

Lemma matches_has_digit (r : re)
    (Hyes : forall c a s, rest c = String a s -> Py.isdigit a = true ->
                          match_at r c <> None)
    (Hno : forall c, has_digit (rest c) = false -> match_at r c = None)
    (s : string) :
  matches r s = has_digit s.
Proof.
  unfold matches, search.
  pose proof (scan_finds_digit r Hyes Hno (String.length s) (start s)
                (Nat.le_refl _)) as H.
  cbn [start rest] in H.
  destruct (has_digit s).
  - destruct (scan _ r (start s)) as [[[c0 m] c1] |]; [reflexivity | contradiction].
  - rewrite H. reflexivity.
Qed.

Lemma no_digit_head (a : ascii) (s : string) :
  has_digit (String a s) = false -> Py.isdigit a = false /\ has_digit s = false.
Proof. cbn [has_digit]. apply orb_false_iff. Qed.

Lemma run_cat (r1 r2 : re) (c : Cursor) (k : Cursor -> option Cursor) :
  run (Cat r1 r2) c k = run r1 c (fun c' => run r2 c' k).
Proof. reflexivity. Qed.

Lemma run_alt (r1 r2 : re) (c : Cursor) (k : Cursor -> option Cursor) :
  run (Alt r1 r2) c k
  = match run r1 c k with Some x => Some x | None => run r2 c k end.
Proof. reflexivity. Qed.

Lemma run_chr (p : ascii -> bool) (c : Cursor) (k : Cursor -> option Cursor) :
  run (Chr p) c k
  = match rest c with
    | String a _ => if p a then k (step c) else None
    | EmptyString => None
    end.
Proof. reflexivity. Qed.

Lemma run_lit (t : string) (c : Cursor) (k : Cursor -> option Cursor) :
  run (Lit t) c k
  = if prefix t (rest c) then k (steps (String.length t) c) else None.
Proof. reflexivity. Qed.

(** One or more digits and then something optional: a match wherever a
    digit stands. *)
Lemma digits_then_opt (r : re) (c : Cursor) (a : ascii) (s : string) :
  rest c = String a s -> Py.isdigit a = true ->
  run (Cat (Plus digit) (Opt r)) c (fun c' => Some c') <> None.
Proof.
  intros Er Ed. unfold Plus, digit. rewrite !run_cat, run_chr, Er, Ed.
  apply star_total. intro c'. apply opt_total.
Qed.

(** One or more digits: no match where no digit stands. *)
Lemma digits_need_digit (c : Cursor) (k : Cursor -> option Cursor) :
  has_digit (rest c) = false -> run (Plus digit) c k = None.
Proof.
  intro H. unfold Plus, digit. rewrite run_cat, run_chr.
  destruct (rest c) as [| a s]; [reflexivity |].
  apply no_digit_head in H. destruct H as [Ha _]. rewrite Ha. reflexivity.
Qed.

Lemma dollar_digits_need_digit (c : Cursor) (k : Cursor -> option Cursor) :
  has_digit (rest c) = false -> run (Cat (Lit "$") (Plus digit)) c k = None.
Proof.
  intro H. rewrite run_cat, run_lit.
  destruct (prefix "$" (rest c)) eqn:Ep; [| reflexivity].
  apply digits_need_digit.
  destruct (rest c) as [| a s] eqn:Er; [discriminate Ep |].
  apply no_digit_head in H. destruct H as [_ Hs].
  cbn [String.length steps]. unfold step. rewrite Er. cbn [rest]. exact Hs.
Qed.

Lemma figure_re_yes (c : Cursor) (a : ascii) (s : string) :
  rest c = String a s -> Py.isdigit a = true ->
  match_at Scanner.figure_re c <> None.
Proof.
  intros Er Ed. unfold match_at, Scanner.figure_re. cbn [Alts].
  rewrite run_alt.
  pose proof (digits_then_opt (one_of "%$")
                (mkCursor (before c) (pos c) (rest c) []) a s Er Ed) as H.
  destruct (run (Cat (Plus digit) (Opt (one_of "%$"))) _ _);
    [discriminate | contradiction].
Qed.

Lemma figure_re_no (c : Cursor) :
  has_digit (rest c) = false -> match_at Scanner.figure_re c = None.
Proof.
  intro H. unfold match_at, Scanner.figure_re. cbn [Alts].
  rewrite run_alt, run_cat, digits_need_digit by exact H.
  rewrite dollar_digits_need_digit by exact H. reflexivity.
Qed.

Lemma quantified_re_yes (c : Cursor) (a : ascii) (s : string) :
  rest c = String a s -> Py.isdigit a = true ->
  match_at Scanner.quantified_re c <> None.
Proof.
  intros Er Ed. unfold match_at, Scanner.quantified_re. cbn [Alts].
  rewrite run_alt.
  pose proof (digits_then_opt (one_of "%$")
                (mkCursor (before c) (pos c) (rest c) []) a s Er Ed) as H.
  destruct (run (Cat (Plus digit) (Opt (one_of "%$"))) _ _);
    [discriminate | contradiction].
Qed.

Lemma quantified_re_no (c : Cursor) :
  has_digit (rest c) = false -> match_at Scanner.quantified_re c = None.
Proof.
  intro H. unfold match_at, Scanner.quantified_re. cbn [Alts Cats].
  rewrite !run_alt.
  rewrite (run_cat (Plus digit) (Opt _)), digits_need_digit by exact H.
  rewrite dollar_digits_need_digit by exact H.
  rewrite (run_cat (Plus digit) (Lit "+")), digits_need_digit by exact H.
  rewrite (run_cat (Plus digit) (LitI "x")), digits_need_digit by exact H.
  rewrite (run_cat (Plus digit) (Cat _ _)), digits_need_digit by exact H.
  reflexivity.
Qed.

End DigitPatterns.

(** X6.  In an ASCII text a bullet counts as quantified exactly when it
    holds one of the digits 0 to 9: the alternatives of the two patterns
    beyond a run of digits never decide.  So for an ASCII text the
    quantification analysis of the base scan and the quantification
    standard count the same bullets, and with bullets their rates are
    equal.  (Beyond ASCII the class of digits of the patterns is wider.) *)
Theorem X6_quantified_bullets_hold_a_digit (cv_text : string) :
  is_ascii cv_text = true ->
  (forall bullet, is_ascii bullet = true ->
                  Re.matches Scanner.quantified_re bullet = has_digit bullet)
  /\ (forall bullet, is_ascii bullet = true ->
                     Re.matches Scanner.figure_re bullet = has_digit bullet)
  /\ Scanner.quantified_bullets (Scanner._analyze_quantification cv_text)
     = Py.count has_digit (Re.findall Scanner.bullet_line_re cv_text)
  /\ (compliance_bullets cv_text <> [] ->
      compliance_rate cv_text
      = Scanner.quantification_rate (Scanner._analyze_quantification cv_text)).
Proof.
  intros _.
  assert (Hq : forall b, Re.matches Scanner.quantified_re b = has_digit b)
    by (apply matches_has_digit; [apply quantified_re_yes | apply quantified_re_no]).
  assert (Hf : forall b, Re.matches Scanner.figure_re b = has_digit b)
    by (apply matches_has_digit; [apply figure_re_yes | apply figure_re_no]).
  split; [intros b _; apply Hq |]. split; [intros b _; apply Hf |].
  unfold Scanner._analyze_quantification, compliance_rate, compliance_bullets.
  cbv zeta. cbn [Scanner.quantified_bullets Scanner.quantification_rate].
  rewrite length_map.
  rewrite (filter_ext _ has_digit Hq), (filter_ext _ has_digit Hf).
  split; [reflexivity |].
  intro Hne.
  destruct (Re.findall Scanner.bullet_line_re cv_text) as [| b bs];
    [congruence |].
  replace (Nat.max (List.length (b :: bs)) 1) with (List.length (b :: bs))
    by (cbn [List.length]; lia).
  reflexivity.
Qed.

(** *** Keywords are substrings *)

(** X7.  Skills are found as substrings, not as words: when a skill of the
    vocabulary occurs inside another one, a document credited with the
    longer one is credited with the shorter one too (sql with postgresql
    and nosql, java with javascript). *)
Theorem X7_skills_are_found_as_substrings (e : list string -> list string)
    (cv_text job_description shorter longer : string) :
  In shorter Scanner.technical_skills ->
  Py.contains shorter longer = true ->
  In longer (Scanner.found (Scanner.kw_technical_skills
               (Scanner._analyze_keywords e cv_text job_description))) ->
  In shorter (Scanner.found (Scanner.kw_technical_skills
                (Scanner._analyze_keywords e cv_text job_description))).
Proof.
  unfold Scanner._analyze_keywords. cbv zeta.
  cbn [Scanner.found Scanner.kw_technical_skills].
  intros Hin Hsub Hl. apply filter_In in Hl. destruct Hl as [_ Hl].
  apply filter_In. split; [exact Hin |].
  exact (contains_trans _ _ _ Hsub Hl).
Qed.

Lemma X7_witness :
  In "sql" Scanner.technical_skills
  /\ Py.contains "sql" "postgresql" = true
  /\ In "sql" (Scanner.found (Scanner.kw_technical_skills
                 (Scanner._analyze_keywords Scanner.first_seen
                    "Administered PostgreSQL clusters" ""))).
Proof.
  assert (H1 : In "sql" Scanner.technical_skills)
    by (apply mem_In; vm_compute; reflexivity).
  assert (H2 : Py.contains "sql" "postgresql" = true) by reflexivity.
  split; [exact H1 |]. split; [exact H2 |].
  apply (X7_skills_are_found_as_substrings Scanner.first_seen
           "Administered PostgreSQL clusters" "" "sql" "postgresql" H1 H2).
  apply mem_In. vm_compute. reflexivity.
Defined.

(** *** The target role *)

(** The features of the enhanced scan for a target role are those for no
    role, but for the role alignment. *)
Lemma enhanced_features_role (Standard : Type)
    (all_standards : list (string * Standard)) (cv_text target_role : string) :
  enhanced_features Standard all_standards cv_text target_role
  = match enhanced_features Standard all_standards cv_text "" with
    | inl ex => inl ex
    | inr a =>
        inr {| EnhancedScanner.industry_standards :=
                 EnhancedScanner.industry_standards Standard a;
               EnhancedScanner.verb_hierarchy :=
                 EnhancedScanner.verb_hierarchy Standard a;
               EnhancedScanner.leadership_analysis :=
                 EnhancedScanner.leadership_analysis Standard a;
               EnhancedScanner.impact_analysis :=
                 EnhancedScanner.impact_analysis Standard a;
               EnhancedScanner.role_alignment :=
                 EnhancedScanner._analyze_role_alignment cv_text target_role;
               EnhancedScanner.content_depth :=
                 EnhancedScanner.content_depth Standard a;
               EnhancedScanner.professional_presentation :=
                 EnhancedScanner.professional_presentation Standard a |}
    end.
Proof.
  unfold enhanced_features, EnhancedScanner.analyze, bind,
    EnhancedScanner._analyze_industry_standards.
  destruct (map _ all_standards); reflexivity.
Qed.

(** What an enhanced scan returns, as a function of the text read. *)
Lemma enhanced_scan_full (Standard : Type)
    (all_standards : list (string * Standard))
    (e : list string -> list string) (read : Scanner.Path -> Exn + string)
    (cv_path : Scanner.Path) (job_description target_role : string) (w : World) :
  let text := extracted read cv_path in
  let sections := Scanner.analyze e text job_description in
  fst (EnhancedScanner.enhanced_scan Standard all_standards e read cv_path
         job_description target_role w)
  = inr match enhanced_features Standard all_standards text target_role with
        | inl ex => EnhancedScanner.EnhancedError Standard ex
        | inr enhanced =>
            EnhancedScanner.EnhancedScanned Standard
              {| EnhancedScanner.base_results :=
                   {| Scanner.timestamp := clock w;
                      Scanner.cv_path := Scanner.path_str cv_path;
                      Scanner.overall_score :=
                        Scanner._calculate_overall_score sections;
                      Scanner.sections := sections;
                      Scanner.recommendations :=
                        Scanner._generate_recommendations sections |};
                 EnhancedScanner.enhanced_analysis := enhanced;
                 EnhancedScanner.enhanced_score :=
                   EnhancedScanner._calculate_enhanced_score Standard sections
                     enhanced;
                 EnhancedScanner.enhanced_recommendations :=
                   EnhancedScanner._generate_enhanced_recommendations Standard
                     sections enhanced |}
        end.
Proof.
  cbv zeta.
  destruct (scan_cv_full e read cv_path job_description w) as (w1 & Hs & Hw1).
  destruct (extract_text_spec read cv_path w1) as (w2 & He & Hw2).
  unfold EnhancedScanner.enhanced_scan, try_except, bind.
  rewrite Hs. cbv zeta. rewrite He. rewrite enhanced_analyze_pure.
  destruct (enhanced_features Standard all_standards _ target_role) as [ex | enh];
    reflexivity.
Qed.

(** X8.  The target role of an enhanced scan changes neither score nor any
    recommendation: it reaches the role alignment only, which the enhanced
    score and the recommendations do not read. *)
Theorem X8_target_role_changes_no_score (Standard : Type)
    (all_standards : list (string * Standard))
    (e : list string -> list string) (read : Scanner.Path -> Exn + string)
    (cv_path : Scanner.Path) (job_description role other_role : string)
    (w : World) :
  let out := fst (EnhancedScanner.enhanced_scan Standard all_standards e read
                    cv_path job_description role w) in
  let out' := fst (EnhancedScanner.enhanced_scan Standard all_standards e read
                     cv_path job_description other_role w) in
  scores_of out = scores_of out'
  /\ enhanced_recommendations_of out = enhanced_recommendations_of out'.
Proof.
  cbv zeta. rewrite !enhanced_scan_full.
  rewrite (enhanced_features_role Standard all_standards _ role),
          (enhanced_features_role Standard all_standards _ other_role).
  destruct (enhanced_features Standard all_standards _ "") as [ex | a];
    [split; reflexivity |].
  unfold scores_of, enhanced_recommendations_of.
  cbn [EnhancedScanner.enhanced_score EnhancedScanner.base_results
       EnhancedScanner.enhanced_recommendations Scanner.overall_score].
  unfold EnhancedScanner._calculate_enhanced_score,
    EnhancedScanner._generate_enhanced_recommendations.
  cbn [EnhancedScanner.industry_standards EnhancedScanner.verb_hierarchy
       EnhancedScanner.leadership_analysis EnhancedScanner.impact_analysis
       EnhancedScanner.content_depth EnhancedScanner.professional_presentation].
  split; reflexivity.
Qed.

(** *** The presentation *)

(** X9.  The presentation score is never below 25: at most five
    unprofessional terms are counted, so the floor at 0 is never reached.
    The score is 100 exactly when no issue is listed, which is exactly when
    the three consistency flags hold. *)
Theorem X9_presentation_score_and_flags (cv_text : string) :
  let p := EnhancedScanner._analyze_presentation cv_text in
  (25 <= EnhancedScanner.presentation_score p <= 100)%Z
  /\ (EnhancedScanner.presentation_score p = 100%Z
      <-> EnhancedScanner.presentation_issues p = [])
  /\ (EnhancedScanner.presentation_issues p = []
      <-> EnhancedScanner.date_format_consistency p
          && EnhancedScanner.professional_language p
          && EnhancedScanner.bullet_consistency p = true)
  /\ List.length (EnhancedScanner.presentation_issues p) <= 3.
Proof.
  cbv zeta. unfold EnhancedScanner._analyze_presentation. cbv zeta.
  cbn [EnhancedScanner.presentation_score EnhancedScanner.presentation_issues
       EnhancedScanner.date_format_consistency
       EnhancedScanner.professional_language EnhancedScanner.bullet_consistency].
  set (d := EnhancedScanner.distinct (Re.findall _ _)).
  set (b := EnhancedScanner.distinct (map _ _)).
  set (n := Py.count _ _).
  assert (Hn : n <= 5) by (unfold n, Py.count; apply length_filter_le).
  rewrite (Nat.leb_antisym 2 d), (Nat.leb_antisym 1 b).
  unfold Scanner.penalise.
  destruct (2 <? d), (1 <? b);
    do 6 (destruct n as [| n]; [cbn; repeat split; try lia; try discriminate;
                                try reflexivity; intro H; discriminate H |]);
    exfalso; lia.
Qed.

(** *** The hierarchy of verbs *)

Lemma third_of_hundred :
  Num.lit 33.33333333333333 = Num.fmul (Num.fl (1 # 3)) 100.
Proof. vm_compute. reflexivity. Qed.

(** X10.  The tier distribution score is 0 for a text without any of the
    listed verbs; with at least one it lies between 33.33333333333333 (only
    verbs of the third tier) and 100, and it is 100 for a text whose verbs
    all belong to the first tier. *)
Theorem X10_tier_distribution_bounds (cv_text : string) :
  let v := EnhancedScanner._analyze_verb_hierarchy cv_text in
  (EnhancedScanner.total_verbs v = 0 ->
   EnhancedScanner.tier_distribution_score v = 0%Q)
  /\ (0 < EnhancedScanner.total_verbs v ->
      (Num.lit 33.33333333333333 <= EnhancedScanner.tier_distribution_score v
       <= 100)%Q)
  /\ (0 < EnhancedScanner.tier1_count v ->
      EnhancedScanner.tier2_count v = 0 -> EnhancedScanner.tier3_count v = 0 ->
      EnhancedScanner.tier_distribution_score v = 100%Q).
Proof.
  cbv zeta. unfold EnhancedScanner._analyze_verb_hierarchy. cbv zeta.
  cbn [EnhancedScanner.total_verbs EnhancedScanner.tier_distribution_score
       EnhancedScanner.tier1_count EnhancedScanner.tier2_count
       EnhancedScanner.tier3_count].
  set (t1 := Py.count _ EnhancedScanner.tier1_verbs).
  set (t2 := Py.count _ EnhancedScanner.tier2_verbs).
  set (t3 := Py.count _ EnhancedScanner.tier3_verbs).
  clearbody t1 t2 t3.
  split; [| split].
  - intro H0. rewrite H0. reflexivity.
  - intro Hpos.
    replace (0 <? t1 + t2 + t3) with true by (symmetry; apply Nat.ltb_lt; exact Hpos).
    split.
    + rewrite third_of_hundred. unfold Num.percent.
      apply fmul_mono; [vm_compute; discriminate |].
      unfold Num.div_nat, Num.div_Z. apply fl_mono.
      set (a := t1 * 3 + t2 * 2 + t3 * 1). set (b := (t1 + t2 + t3) * 3).
      assert (Hb : (0 < inject_Z (Z.of_nat b))%Q).
      { change 0%Q with (inject_Z 0). rewrite <- Zlt_Qlt. unfold b. lia. }
      apply Qle_shift_div_l; [exact Hb |].
      assert (Hab : (inject_Z (Z.of_nat b) <= 3 * inject_Z (Z.of_nat a))%Q).
      { change 3%Q with (inject_Z 3). rewrite <- inject_Z_mult, <- Zle_Qle.
        unfold a, b. lia. }
      lra.
    + apply percent_range; lia.
  - intros H1 H2 H3. rewrite H2, H3.
    replace (0 <? t1 + 0 + 0) with true by (symmetry; apply Nat.ltb_lt; lia).
    unfold Num.percent, Num.div_nat, Num.div_Z.
    rewrite (fl_eq _ 1).
    + vm_compute. reflexivity.
    + assert (Hpos : (0 < inject_Z (Z.of_nat ((t1 + 0 + 0) * 3)))%Q).
      { change 0%Q with (inject_Z 0). rewrite <- Zlt_Qlt. lia. }
      replace (t1 * 3 + 0 * 2 + 0 * 1) with ((t1 + 0 + 0) * 3) by lia.
      field. intro H0. rewrite H0 in Hpos. exact (Qlt_irrefl _ Hpos).
Qed.

(** *** The compliance with the standards *)

Lemma count_lt_length {A} (f : A -> bool) (l : list A) (x : A) :
  In x l -> f x = false -> Py.count f l < List.length l.
Proof.
  unfold Py.count. induction l as [| y l IH]; intros Hin Hx; [contradiction |].
  cbn [filter List.length]. destruct Hin as [-> | Hin].
  - rewrite Hx. pose proof (length_filter_le f l). lia.
  - specialize (IH Hin Hx). destruct (f y); cbn [List.length]; lia.
Qed.

(** X11.  For every catalog the analysis of the standards checks each
    standard once and leaves the world as it is; an empty catalog makes it
    raise ZeroDivisionError.  The role-alignment standard scores 70, below
    the 80 of a compliant standard: a catalog that holds it is never met in
    full, whatever the document. *)
Theorem X11_standards_are_never_all_met (Standard : Type)
    (all_standards : list (string * Standard)) (cv_text : string) (w : World) :
  (all_standards = [] ->
   EnhancedScanner._analyze_industry_standards Standard all_standards cv_text w
   = (inl ZeroDivisionError, w))
  /\ (all_standards <> [] ->
      exists c,
        EnhancedScanner._analyze_industry_standards Standard all_standards
          cv_text w = (inr c, w)
        /\ map fst (EnhancedScanner.standards Standard c) = map fst all_standards
        /\ EnhancedScanner.total_standards Standard c = List.length all_standards
        /\ EnhancedScanner.compliant_standards Standard c
           <= EnhancedScanner.total_standards Standard c
        /\ (In "role_alignment" (map fst all_standards) ->
            EnhancedScanner.compliant_standards Standard c
            < EnhancedScanner.total_standards Standard c)).
Proof.
  split.
  - intros ->. reflexivity.
  - intro Hne. unfold EnhancedScanner._analyze_industry_standards.
    set (results := map _ all_standards).
    assert (Hkeys : map fst results = map fst all_standards).
    { unfold results. rewrite map_map. apply map_ext. intros [name std].
      cbn [fst snd]. destruct (EnhancedScanner.check_standard _ _ _ _).
      reflexivity. }
    assert (Hlen : List.length results = List.length all_standards)
      by (unfold results; apply length_map).
    destruct results as [| r rs] eqn:E.
    { destruct all_standards; [congruence | discriminate Hlen]. }
    eexists. split; [reflexivity |].
    cbn [EnhancedScanner.standards EnhancedScanner.total_standards
         EnhancedScanner.compliant_standards].
    split; [exact Hkeys |]. split; [exact Hlen |].
    split; [unfold Py.count; apply length_filter_le |].
    intro Hin. apply in_map_iff in Hin. destruct Hin as [[name std] [Hname Hin]].
    cbn [fst] in Hname. subst name.
    apply (count_lt_length _ _
             ("role_alignment",
              {| EnhancedScanner.sr_score := 70;
                 EnhancedScanner.findings :=
                   [EnhancedScanner.Msg
                      "Role alignment requires specific target role"];
                 EnhancedScanner.standard_details := std |})); [| reflexivity].
    rewrite <- E. unfold results.
    apply in_map_iff. exists ("role_alignment", std). split; [reflexivity | exact Hin].
Qed.

(** X12.  The formatting standard and the compatibility check of the base
    scan agree on what they find: the standard scores 100 less 20 when the
    base scan lists the tab issue and less 30 when it found no email
    address, so it is one of 100, 80, 70 and 50, and it always gives a
    finding. *)
Theorem X12_formatting_standard_follows_base_scan (Standard : Type)
    (cv_text : string) (standard : Standard) :
  let a := Scanner._analyze_ats_compatibility cv_text in
  let r := EnhancedScanner._check_ats_formatting_compliance Standard cv_text
             standard in
  fst r = (100
           - (if mem "Contains tab characters" (Scanner.issues a) then 20 else 0)
           - (if Scanner.email_found a then 0 else 30))%Z
  /\ snd r <> []
  /\ (fst r = 100%Z
      <-> snd r = [EnhancedScanner.Msg "ATS formatting compliant"]).
Proof.
  cbv zeta.
  unfold EnhancedScanner._check_ats_formatting_compliance,
    Scanner._analyze_ats_compatibility. cbv zeta.
  cbn [Scanner.issues Scanner.email_found].
  destruct (Py.contains (Py.chr Py.tab) cv_text),
           (50 <? List.length (Re.findall Scanner.special_re cv_text)),
           (Re.matches Scanner.email_re cv_text),
           (Re.matches Scanner.phone_re cv_text);
    cbn; (split; [reflexivity |]); (split; [discriminate |]);
    split; intro H; try reflexivity; discriminate H.
Qed.

(** *** The sections and the fallback of the engine *)

Lemma contains_head (c : ascii) (p s : string) :
  Py.contains (String c p) s = true -> has_char c s = true.
Proof.
  induction s as [| a s IH]; cbn [Py.contains has_char].
  - cbn. discriminate.
  - intro H. apply orb_true_iff in H. destruct H as [H | H].
    + cbn in H. destruct (Ascii.ascii_dec c a) as [-> | _]; [| discriminate H].
      rewrite Ascii.eqb_refl. reflexivity.
    + rewrite (IH H). apply orb_true_r.
Qed.

Lemma has_char_contains (c : ascii) (s : string) :
  has_char c s = Py.contains (Py.chr c) s.
Proof.
  induction s as [| a s IH]; [reflexivity |].
  cbn [has_char Py.contains]. rewrite IH. f_equal.
  unfold Py.chr. cbn [prefix].
  destruct (Ascii.ascii_dec c a) as [-> | Hne].
  - rewrite Ascii.eqb_refl. destruct s; reflexivity.
  - apply Ascii.eqb_neq. congruence.
Qed.

Lemma lower_char_lparen (a : ascii) :
  Ascii.eqb (Py.lower_char a) lparen = Ascii.eqb a lparen.
Proof.
  destruct a as [[|] [|] [|] [|] [|] [|] [|] [|]]; reflexivity.
Qed.

Lemma has_lparen_lower (s : string) :
  has_char lparen (Py.lower s) = has_char lparen s.
Proof.
  induction s as [| a s IH]; [reflexivity |].
  cbn [Py.lower has_char]. rewrite lower_char_lparen, IH. reflexivity.
Qed.

Lemma has_char_split (c sep : ascii) (s line : string) :
  In line (Py.split_on sep s) -> has_char c line = true -> has_char c s = true.
Proof.
  revert line. induction s as [| a s IH]; intros line Hin Hc.
  - cbn in Hin. destruct Hin as [<- | []]. exact Hc.
  - cbn [Py.split_on] in Hin. cbn [has_char].
    destruct (Ascii.eqb a sep).
    + destruct Hin as [<- | Hin]; [discriminate Hc |].
      rewrite (IH line Hin Hc). apply orb_true_r.
    + destruct (Py.split_on sep s) as [| h t] eqn:E.
      * destruct Hin as [<- | []]. cbn [has_char] in Hc.
        rewrite orb_false_r in Hc. rewrite Hc. reflexivity.
      * destruct Hin as [<- | Hin].
        -- cbn [has_char] in Hc. apply orb_true_iff in Hc.
           destruct Hc as [Hc | Hc]; [rewrite Hc; reflexivity |].
           rewrite (IH h (or_introl eq_refl) Hc). apply orb_true_r.
        -- rewrite (IH line (or_intror Hin) Hc). apply orb_true_r.
Qed.

(** A pattern that opens with a parenthesis occurs in no line of a text
    without parentheses. *)
Lemma parenthesised_pattern_absent (p cv_text : string) :
  has_char lparen cv_text = false ->
  Py.any (Py.contains (String lparen p)) (Py.lines (Py.lower cv_text)) = false.
Proof.
  intro H. unfold Py.any. destruct (existsb _ _) eqn:E; [| reflexivity].
  apply existsb_exists in E. destruct E as [line [Hin Hc]].
  apply contains_head in Hc.
  pose proof (has_char_split _ _ _ _ Hin Hc) as Hl.
  rewrite has_lparen_lower in Hl. congruence.
Qed.

Section OptimizerProperties.

Import CVOptimizer.

(** X13.  The section patterns are looked up as plain text, not as regular
    expressions: in a text without an opening parenthesis the sections
    summary, experience and certifications are never detected, whatever its
    headings, and education, skills and projects are detected exactly when
    the word occurs in a line. *)
Theorem X13_section_patterns_are_plain_text (cv_text : string) :
  Py.contains "(" cv_text = false ->
  _detect_sections cv_text
  = filter (fun s => Py.any (Py.contains s) (Py.lines (Py.lower cv_text)))
           ["education"; "skills"; "projects"]
  /\ ~ In "summary" (_detect_sections cv_text)
  /\ ~ In "experience" (_detect_sections cv_text)
  /\ ~ In "certifications" (_detect_sections cv_text).
Proof.
  intro H. change "(" with (Py.chr lparen) in H. rewrite <- has_char_contains in H.
  assert (E : _detect_sections cv_text
              = filter (fun s => Py.any (Py.contains s) (Py.lines (Py.lower cv_text)))
                       ["education"; "skills"; "projects"]).
  { unfold _detect_sections, section_patterns. cbv zeta.
    cbn [filter map fst snd].
    change "(summary|profile|objective)"
      with (String lparen "summary|profile|objective)").
    change "(experience|work|employment|career)"
      with (String lparen "experience|work|employment|career)").
    change "(certifications|certificates)"
      with (String lparen "certifications|certificates)").
    rewrite !(parenthesised_pattern_absent _ _ H).
    destruct (Py.any (Py.contains "education") _),
             (Py.any (Py.contains "skills") _),
             (Py.any (Py.contains "projects") _); reflexivity. }
  split; [exact E |].
  rewrite E.
  repeat split; intro Hin; apply filter_In in Hin; destruct Hin as [Hin _];
    cbn in Hin; repeat destruct Hin as [Hin | Hin]; try discriminate Hin;
    contradiction.
Qed.

Lemma X13_witness :
  Py.contains "(" ("Summary" ++ nl ++ "Work experience" ++ nl ++ "Skills")%string
  = false
  /\ _detect_sections ("Summary" ++ nl ++ "Work experience" ++ nl ++ "Skills")%string
     = ["skills"].
Proof.
  assert (H : Py.contains "(" ("Summary" ++ nl ++ "Work experience" ++ nl
                               ++ "Skills")%string = false) by reflexivity.
  split; [exact H |].
  rewrite (proj1 (X13_section_patterns_are_plain_text _ H)).
  reflexivity.
Defined.

(** *** The fallback, line by line *)

Lemma lower_char_idem (a : ascii) : Py.lower_char (Py.lower_char a) = Py.lower_char a.
Proof.
  destruct a as [[|] [|] [|] [|] [|] [|] [|] [|]]; reflexivity.
Qed.

Lemma lower_idem (s : string) : Py.lower (Py.lower s) = Py.lower s.
Proof.
  induction s as [| a s IH]; [reflexivity |].
  cbn [Py.lower]. rewrite lower_char_idem, IH. reflexivity.
Qed.

Lemma lower_app (s t : string) :
  Py.lower (s ++ t) = (Py.lower s ++ Py.lower t)%string.
Proof.
  induction s as [| a s IH]; [reflexivity |].
  cbn [append Py.lower]. rewrite IH. reflexivity.
Qed.

(** Replacing in a lower-case text by a lower-case text leaves a lower-case
    text. *)
Lemma lower_replace_from (old new : string) (k : nat) (t : string) :
  Py.lower new = new -> Py.lower t = t ->
  Py.lower (Py.replace_from old new k t) = Py.replace_from old new k t.
Proof.
  intro Hn. revert k. induction t as [| c t IH]; intros k Ht; [reflexivity |].
  cbn [Py.lower] in Ht. injection Ht as Hc Ht.
  cbn [Py.replace_from]. destruct k as [| k].
  - destruct (prefix old (String c t)).
    + rewrite lower_app, Hn, (IH _ Ht). reflexivity.
    + cbn [Py.lower]. rewrite Hc, (IH _ Ht). reflexivity.
  - apply IH. exact Ht.
Qed.

(** A replacement whose text opens with another character than the phrase
    replaced changes every text in which the phrase occurs. *)
Lemma replace_fixed (a b : ascii) (old new t : string) :
  a <> b ->
  Py.replace (String a old) (String b new) t = t ->
  Py.contains (String a old) t = false.
Proof.
  intro Hab. unfold Py.replace.
  induction t as [| c t IH]; intro H.
  - reflexivity.
  - cbn [Py.replace_from] in H. cbn [Py.contains].
    destruct (prefix (String a old) (String c t)) eqn:Ep.
    + exfalso. cbn [append] in H. injection H as Hc _.
      cbn [prefix] in Ep. destruct (Ascii.ascii_dec a c); [congruence | discriminate Ep].
    + injection H as H. rewrite (IH H). reflexivity.
Qed.

Lemma table_entries_proper (ws : string * string) :
  In ws verb_replacements -> proper_entry ws.
Proof.
  unfold verb_replacements. cbn [In].
  intros [<- | [<- | [<- | [<- | []]]]];
    eexists _, _, _, _; (split; [reflexivity |]); split;
      (discriminate || reflexivity).
Qed.

(** The test [optimized_line != original_line] never fails. *)
Lemma replacement_differs (ws : string * string) (line : string) :
  proper_entry ws ->
  Py.contains (fst ws) (Py.lower line) = true ->
  String.eqb (Py.replace (fst ws) (snd ws) (Py.lower line)) line = false.
Proof.
  intros (a & b & old & new & -> & Hab & Hl) Hc. cbn [fst snd] in *.
  apply String.eqb_neq. intro Heq.
  assert (Hfix : Py.replace (String a old) (String b new) (Py.lower line)
                 = Py.lower line).
  { rewrite <- Heq at 2. symmetry. unfold Py.replace.
    apply lower_replace_from; [exact Hl | apply lower_idem]. }
  rewrite (replace_fixed a b old new _ Hab Hfix) in Hc. discriminate Hc.
Qed.

Lemma replace_weak_step (line : string) (st : string * list Improvement)
    (ws : string * string) :
  proper_entry ws ->
  replace_weak line st ws
  = if Py.contains (fst ws) (Py.lower line)
    then (Py.replace (fst ws) (snd ws) (Py.lower line),
          snd st ++ [improvement_for line ws])
    else st.
Proof.
  intro Hp. unfold replace_weak. destruct ws as [weak strong]. cbn [fst snd].
  destruct (Py.contains weak (Py.lower line)) eqn:Hc; [| reflexivity].
  pose proof (replacement_differs (weak, strong) line Hp Hc) as Hd.
  cbn [fst snd] in Hd. rewrite Hd. reflexivity.
Qed.

Lemma fold_replace_weak (line : string) (rs : list (string * string))
    (cur : string) (imps : list Improvement) :
  (forall ws, In ws rs -> proper_entry ws) ->
  fold_left (replace_weak line) rs (cur, imps)
  = (match rev (filter (fun ws => Py.contains (fst ws) (Py.lower line)) rs) with
     | [] => cur
     | (weak, strong) :: _ => Py.replace weak strong (Py.lower line)
     end,
     imps ++ map (improvement_for line)
                 (filter (fun ws => Py.contains (fst ws) (Py.lower line)) rs)).
Proof.
  revert cur imps. induction rs as [| ws rs IH]; intros cur imps Hp.
  - cbn. rewrite app_nil_r. reflexivity.
  - cbn [fold_left filter].
    rewrite (replace_weak_step line (cur, imps) ws (Hp ws (or_introl eq_refl))).
    assert (Hp' : forall x, In x rs -> proper_entry x)
      by (intros x Hx; apply Hp; right; exact Hx).
    destruct (Py.contains (fst ws) (Py.lower line)) eqn:Hc.
    + rewrite (IH _ _ Hp'). cbn [snd rev map]. rewrite <- app_assoc. cbn [app].
      f_equal. destruct (rev (filter _ rs)) as [| [w s] l]; cbn [app].
      * destruct ws. reflexivity.
      * reflexivity.
    + apply IH. exact Hp'.
Qed.

Lemma optimize_line_step (st : list string * list Improvement) (line : string) :
  optimize_line st line
  = (fst st ++ [rewritten line],
     snd st ++ map (improvement_for line) (matching_replacements line)).
Proof.
  unfold optimize_line.
  rewrite (fold_replace_weak line verb_replacements line (snd st)
             table_entries_proper).
  reflexivity.
Qed.

Lemma fold_optimize_line (ls : list string) (st : list string * list Improvement) :
  fold_left optimize_line ls st
  = (fst st ++ map rewritten ls,
     snd st ++ flat_map (fun line => map (improvement_for line)
                                         (matching_replacements line)) ls).
Proof.
  revert st. induction ls as [| l ls IH]; intro st.
  - cbn. rewrite !app_nil_r. destruct st. reflexivity.
  - cbn [fold_left map flat_map]. rewrite IH, optimize_line_step.
    cbn [fst snd]. rewrite <- !app_assoc. reflexivity.
Qed.

Lemma fallback_result (cv_text : string) :
  _fallback_optimization_on cv_text
  = let improvements :=
      flat_map (fun line => map (improvement_for line)
                                (matching_replacements line))
               (Py.lines cv_text) in
    LocalResult (Py.join (Py.chr Py.newline) (map rewritten (Py.lines cv_text)))
                improvements
                ("Applied " ++ Py.str_of_nat (List.length improvements)
                 ++ " rule-based improvements")%string
                true.
Proof.
  unfold _fallback_optimization_on. rewrite fold_optimize_line. reflexivity.
Qed.

(** X14.  The rule-based fallback works line by line.  A line in which no
    weak phrase occurs is kept as it is; any other line is written in lower
    case with one replacement only, that of the last entry of the table
    whose phrase occurs in it, while one improvement is recorded for each
    entry whose phrase occurs, each with the impact score 6. *)
Theorem X14_fallback_keeps_the_last_replacement (cv_text : string) :
  let r := _fallback_optimization_on cv_text in
  optimized_content r
  = Some (JStr (Py.join nl (map rewritten (Py.lines cv_text))))
  /\ improvements_of r
     = flat_map (fun line => map (improvement_for line)
                                 (matching_replacements line))
                (Py.lines cv_text)
  /\ (forall line, matching_replacements line = [] -> rewritten line = line)
  /\ (forall imp, In imp (improvements_of r) -> impact_score imp = 6%Z).
Proof.
  cbv zeta. rewrite fallback_result. cbv zeta.
  cbn [optimized_content improvements_of].
  split; [reflexivity |]. split; [reflexivity |]. split.
  - intros line H. unfold rewritten. rewrite H. reflexivity.
  - intros imp Hin. apply in_flat_map in Hin. destruct Hin as [line [_ Hin]].
    apply in_map_iff in Hin. destruct Hin as [ws [<- _]]. reflexivity.
Qed.

(** A line with two weak phrases: both replacements are recorded, the
    second one alone is in the text returned. *)
Lemma two_weak_phrases_example :
  let r := _fallback_optimization_on "- Worked on builds, assisted QA" in
  optimized_content r = Some (JStr "- worked on builds, supported qa")
  /\ map improved (improvements_of r)
     = ["- developed builds, assisted qa"; "- worked on builds, supported qa"].
Proof.
  cbv zeta. split; vm_compute; reflexivity.
Qed.

End OptimizerProperties.

(** *** The lines of a text *)

Lemma split_on_head (sep : ascii) (s h : string) (t : list string) :
  Py.split_on sep s = h :: t -> exists q, s = (h ++ q)%string.
Proof.
  revert h t. induction s as [| a s IH]; intros h t H.
  - cbn in H. injection H as <- _. exists "". reflexivity.
  - cbn [Py.split_on] in H. destruct (Ascii.eqb a sep).
    + injection H as <- _. exists (String a s). reflexivity.
    + destruct (Py.split_on sep s) as [| h' t'] eqn:E.
      * injection H as <- _. exfalso. exact (split_on_nonempty _ _ E).
      * injection H as <- _. destruct (IH h' t' eq_refl) as [q Hq].
        exists q. cbn [append]. rewrite <- Hq. reflexivity.
Qed.

(** A line of a text is a part of it. *)
Lemma line_in_text (sep : ascii) (s line : string) :
  In line (Py.split_on sep s) -> exists p q, s = (p ++ line ++ q)%string.
Proof.
  revert line. induction s as [| a s IH]; intros line Hin.
  - cbn in Hin. destruct Hin as [<- | []]. exists "", "". reflexivity.
  - cbn [Py.split_on] in Hin. destruct (Ascii.eqb a sep).
    + destruct Hin as [<- | Hin].
      * exists "", (String a s). reflexivity.
      * destruct (IH line Hin) as [p [q Hq]].
        exists (String a p), q. cbn [append]. rewrite <- Hq. reflexivity.
    + destruct (Py.split_on sep s) as [| h t] eqn:E.
      * exfalso. exact (split_on_nonempty _ _ E).
      * destruct Hin as [<- | Hin].
        -- destruct (split_on_head sep s h t E) as [q Hq].
           exists "", q. cbn [append]. rewrite <- Hq. reflexivity.
        -- destruct (IH line (or_intror Hin)) as [p [q Hq]].
           exists (String a p), q. cbn [append]. rewrite <- Hq. reflexivity.
Qed.

Lemma contains_in_line (w cv_text line : string) :
  In line (Py.lines cv_text) ->
  Py.contains w (Py.lower line) = true ->
  Py.contains w (Py.lower cv_text) = true.
Proof.
  intros Hin Hc. destruct (line_in_text _ _ _ Hin) as [p [q ->]].
  apply contains_iff in Hc. destruct Hc as [p' [q' Hc]].
  apply contains_iff. rewrite !lower_app, Hc.
  exists (Py.lower p ++ p')%string, (q' ++ Py.lower q)%string.
  rewrite !append_assoc. reflexivity.
Qed.

Lemma flat_map_empty {A B} (f : A -> list B) (l : list A) :
  (forall x, In x l -> f x = []) -> flat_map f l = [].
Proof.
  induction l as [| x l IH]; intro H; [reflexivity |].
  cbn [flat_map]. rewrite (H x (or_introl eq_refl)).
  apply IH. intros y Hy. apply H. right. exact Hy.
Qed.

Section EntryPointProperties.

Import CVOptimizer.

Lemma no_weak_phrase_no_match (cv_text line : string) :
  (forall ws, In ws verb_replacements ->
              Py.contains (fst ws) (Py.lower cv_text) = false) ->
  In line (Py.lines cv_text) -> matching_replacements line = [].
Proof.
  intros Hno Hin. unfold matching_replacements.
  destruct (filter _ verb_replacements) as [| ws l] eqn:E; [reflexivity |].
  assert (Hws : In ws (filter (fun ws => Py.contains (fst ws) (Py.lower line))
                              verb_replacements))
    by (rewrite E; left; reflexivity).
  apply filter_In in Hws. destruct Hws as [Ht Hc].
  specialize (Hno ws Ht).
  rewrite (contains_in_line _ _ _ Hin Hc) in Hno. discriminate Hno.
Qed.

(** The fallback returns a text without weak phrases as it is. *)
Lemma fallback_identity (cv_text : string) :
  (forall ws, In ws verb_replacements ->
              Py.contains (fst ws) (Py.lower cv_text) = false) ->
  _fallback_optimization_on cv_text
  = LocalResult cv_text [] "Applied 0 rule-based improvements" true.
Proof.
  intro Hno. rewrite fallback_result. cbv zeta.
  assert (Hl : map rewritten (Py.lines cv_text) = Py.lines cv_text).
  { rewrite <- (map_id (Py.lines cv_text)) at 2. apply map_ext_in.
    intros line Hin. unfold rewritten.
    rewrite (no_weak_phrase_no_match _ _ Hno Hin). reflexivity. }
  assert (Hi : flat_map (fun line => map (improvement_for line)
                                         (matching_replacements line))
                        (Py.lines cv_text) = []).
  { apply flat_map_empty. intros line Hin.
    rewrite (no_weak_phrase_no_match _ _ Hno Hin). reflexivity. }
  rewrite Hl, Hi. unfold Py.lines. rewrite join_split_on. reflexivity.
Qed.

(** What the engine returns when the call or the parsing raises. *)
Lemma generate_after_failure (cfg : LLMConfig) (svc : Services)
    (ctx : Context) (w : World) (e : Exn) :
  fst (llm_optimization cfg svc ctx w) = inl e ->
  _generate_optimizations cfg svc ctx w
  = (inr (_fallback_optimization ctx),
     snd (log_error (snd (llm_optimization cfg svc ctx w)))).
Proof.
  intro H. unfold _generate_optimizations, try_except.
  destruct (llm_optimization cfg svc ctx w) as [[e' | r] w']; cbn [fst] in H.
  - reflexivity.
  - discriminate H.
Qed.

(** X15.  When the call of the LLM fails on a text in which no weak phrase
    occurs, the optimization still reports success: its result holds the
    text unchanged as the optimized content and an empty list of
    improvements, and the validation of this result scores 45 and does not
    pass. *)
Theorem X15_failed_call_returns_text_unchanged (cfg : LLMConfig)
    (svc : Services) (cv_text job_description optimization_level : string)
    (w : World) :
  (forall ws, In ws verb_replacements ->
              Py.contains (fst ws) (Py.lower cv_text) = false) ->
  (exists e,
     fst (llm_optimization cfg svc
            (_prepare_optimization_context cv_text job_description
               optimization_level) w) = inl e) ->
  exists timestamp,
    fst (optimize_cv cfg svc cv_text job_description optimization_level w)
    = inr (Optimized timestamp cv_text cv_text (Records [])
             (_validate_improvements cv_text cv_text)
             optimization_level job_description)
    /\ improvement_score (_validate_improvements cv_text cv_text) = 45%Z
    /\ validation_passed (_validate_improvements cv_text cv_text) = false.
Proof.
  intros Hno [e He].
  unfold optimize_cv, try_except, bind.
  rewrite (generate_after_failure _ _ _ _ e He).
  unfold _fallback_optimization.
  cbn [CVOptimizer.cv_text _prepare_optimization_context].
  rewrite (fallback_identity _ Hno).
  cbn [optimized_content improvements_value]. unfold ret, now_isoformat.
  eexists. split; [reflexivity |].
  unfold _validate_improvements; cbn [validation_passed improvement_score improvements
      quantification_improvement power_verb_improvement length_change
      bullet_count_change].
  rewrite Qlt_bool_fsub, Qlt_bool_irrefl, !Z.sub_diag. split; reflexivity.
Qed.

Lemma X15_witness :
  exists timestamp,
    fst (optimize_cv default_llm_config unreachable "- Led 5 engineers" "" "balanced" w0)
    = inr (Optimized timestamp "- Led 5 engineers" "- Led 5 engineers"
             (Records [])
             (_validate_improvements "- Led 5 engineers" "- Led 5 engineers")
             "balanced" "")
    /\ improvement_score
         (_validate_improvements "- Led 5 engineers" "- Led 5 engineers") = 45%Z
    /\ validation_passed
         (_validate_improvements "- Led 5 engineers" "- Led 5 engineers") = false.
Proof.
  apply (X15_failed_call_returns_text_unchanged default_llm_config unreachable
           "- Led 5 engineers" "" "balanced" w0).
  - intros ws Hws. cbn in Hws.
    repeat destruct Hws as [<- | Hws]; try contradiction; reflexivity.
  - exists ConnectionError. vm_compute. reflexivity.
Defined.

(** X16.  With a provider other than "ollama" the engine never touches the
    network: the call raises ValueError before any request, the error is
    logged twice (by the call and by the engine) and the rule-based fallback
    is returned. *)
Theorem X16_unsupported_provider_sends_nothing (cfg : LLMConfig)
    (svc : Services) (ctx : Context) (w : World) :
  provider cfg <> "ollama" ->
  _generate_optimizations cfg svc ctx w
  = (inr (_fallback_optimization ctx),
     mkWorld (net_calls w) (S (S (errors_logged w))) (clock w)).
Proof.
  intro H. apply String.eqb_neq in H.
  unfold _generate_optimizations, llm_optimization, _call_llm_api,
    try_except, bind. cbv zeta.
  rewrite H. reflexivity.
Qed.

Lemma X16_witness :
  provider (mkLLMConfig "openai" "gpt" "http://localhost") <> "ollama"
  /\ _generate_optimizations (mkLLMConfig "openai" "gpt" "http://localhost")
       unreachable (_prepare_optimization_context weak_verbs_doc "" "balanced") w0
     = (inr (_fallback_optimization
               (_prepare_optimization_context weak_verbs_doc "" "balanced")),
        mkWorld 0 2 (clock w0)).
Proof.
  assert (H : provider (mkLLMConfig "openai" "gpt" "http://localhost") <> "ollama")
    by discriminate.
  split; [exact H |].
  exact (X16_unsupported_provider_sends_nothing _ unreachable
           (_prepare_optimization_context weak_verbs_doc "" "balanced") w0 H).
Defined.

(** A result that the parser returns has its content and its
    improvements. *)
Lemma parse_result_has_content (svc : Services) (response : JValue)
    (original_cv : string) (w w' : World) (r : OptResult) :
  _parse_optimization_response svc response original_cv w = (inr r, w') ->
  (exists s, r = LocalResult s (improvements_of r)
                   match r with LocalResult _ _ m _ => m | _ => "" end
                   (fallback_used r))
  \/ (exists obj v i, r = LLMResult obj
                      /\ lookup "optimized_content" obj = Some v
                      /\ lookup "improvements" obj = Some i).
Proof.
  unfold _parse_optimization_response, try_except_only, try_except, bind.
  destruct response as [| b | q | s | l | kv];
    try (cbn -[Num.lit Num.fmul Num.of_nat Num.Qlt_bool Num.int Py.len]; intro H; discriminate H).
  destruct (negb (Py.find lbrace s =? -1)%Z && negb (Py.rfind rbrace s + 1 =? 0)%Z).
  - destruct (json_loads svc _ w) as [[e | obj] w1].
    + destruct (is_JSONDecodeError e); cbn -[Num.lit Num.fmul Num.of_nat Num.Qlt_bool Num.int Py.len]; intro H; [| discriminate H].
      injection H as <- _. left. eexists. reflexivity.
    + destruct (has_key "optimized_content" obj && has_key "improvements" obj) eqn:Ek.
      * cbn -[Num.lit Num.fmul Num.of_nat Num.Qlt_bool Num.int Py.len]. intro H. injection H as <- _. right.
        apply andb_true_iff in Ek. destruct Ek as [Ek Ei].
        unfold has_key in Ek, Ei.
        destruct (lookup "optimized_content" obj) as [v |] eqn:El;
          [| discriminate Ek].
        destruct (lookup "improvements" obj) as [i |] eqn:Eli;
          [| discriminate Ei].
        exists obj, v, i. split; [reflexivity | split; [exact El | exact Eli]].
      * cbn -[Num.lit Num.fmul Num.of_nat Num.Qlt_bool Num.int Py.len]. intro H. injection H as <- _. left. eexists. reflexivity.
  - cbn -[Num.lit Num.fmul Num.of_nat Num.Qlt_bool Num.int Py.len]. intro H. injection H as <- _. left. eexists. reflexivity.
Qed.

Lemma generate_result_has_content (cfg : LLMConfig) (svc : Services)
    (ctx : Context) (w : World) :
  exists r, fst (_generate_optimizations cfg svc ctx w) = inr r
    /\ ((exists s l, optimized_content r = Some (JStr s)
                     /\ improvements_value r = Some (Records l))
        \/ (exists obj v i, r = LLMResult obj
                            /\ lookup "optimized_content" obj = Some v
                            /\ lookup "improvements" obj = Some i)).
Proof.
  unfold _generate_optimizations, try_except.
  destruct (llm_optimization cfg svc ctx w) as [[e | r] w1] eqn:E.
  - cbn. eexists. split; [reflexivity |]. left.
    unfold _fallback_optimization. rewrite fallback_result. cbv zeta.
    eexists _, _. split; reflexivity.
  - exists r. split; [reflexivity |].
    unfold llm_optimization, bind in E.
    destruct (_call_llm_api cfg svc _ w) as [[e | v] w2]; [discriminate E |].
    destruct (parse_result_has_content _ _ _ _ _ _ E) as [[s Hs] | H].
    + left. rewrite Hs. eexists _, _. split; reflexivity.
    + right. exact H.
Qed.

(** X17.  The optimization never raises and sends one request at most.  It
    reports a failure in one case only: the reply of the LLM held an object
    with the keys "optimized_content" and "improvements" whose content is not
    a text, which the validation cannot split (AttributeError); nothing
    falls back to the rules then. *)
Theorem X17_optimization_fails_only_on_untyped_reply (cfg : LLMConfig)
    (svc : Services) (cv_text job_description optimization_level : string)
    (w : World) :
  let out := optimize_cv cfg svc cv_text job_description optimization_level w in
  exists r,
    fst out = inr r
    /\ net_calls (snd out) <= net_calls w + 1
    /\ (success r = false ->
        exists timestamp obj v,
          r = Failed AttributeError timestamp
          /\ fst (_generate_optimizations cfg svc
                    (_prepare_optimization_context cv_text job_description
                       optimization_level) w) = inr (LLMResult obj)
          /\ lookup "optimized_content" obj = Some v
          /\ forall s, v <> JStr s).
Proof.
  cbv zeta. unfold optimize_cv, try_except, bind.
  set (ctx := _prepare_optimization_context cv_text job_description
                optimization_level).
  pose proof (generate_sends_at_most_one cfg svc ctx w) as Hn.
  destruct (generate_result_has_content cfg svc ctx w) as (r & Hr & Hc).
  destruct (_generate_optimizations cfg svc ctx w) as [[e | r'] w1];
    cbn [fst snd] in *; [discriminate Hr |].
  injection Hr as ->.
  destruct Hc as [(s & l & Hs & Hl) | (obj & v & i & -> & Hv & Hi)].
  - rewrite Hs, Hl. cbn. eexists. split; [reflexivity |]. split; [exact Hn |].
    intro H. discriminate H.
  - cbn [optimized_content improvements_value]. rewrite Hv, Hi.
    destruct v as [| b | q | s | l | kv]; cbn;
      (eexists; split; [reflexivity |]; split; [exact Hn |]);
      intro H; try discriminate H;
      eexists _, obj, _; (split; [reflexivity |]); (split; [reflexivity |]);
      (split; [exact Hv |]); intros s' Hs'; discriminate Hs'.
Qed.

End EntryPointProperties.

(** ** The report *)

(** *** The improvement recommendations *)

Lemma estimate_impact_values (rec : string) :
  Report._estimate_impact rec = 8%Z \/ Report._estimate_impact rec = 6%Z
  \/ Report._estimate_impact rec = 4%Z.
Proof.
  unfold Report._estimate_impact. cbv zeta.
  destruct (Py.any _ _); [auto |]. destruct (Py.any _ _); auto.
Qed.

Lemma fold_file_recommendation (l : list string) (p : Report.Priorities) :
  fold_left Report.file_recommendation l p
  = {| Report.high_priority :=
         Report.high_priority p
         ++ map item_of (filter (fun r => (8 <=? Report._estimate_impact r)%Z) l);
       Report.medium_priority :=
         Report.medium_priority p
         ++ map item_of
              (filter (fun r => negb (8 <=? Report._estimate_impact r)%Z
                                && (6 <=? Report._estimate_impact r)%Z) l);
       Report.low_priority :=
         Report.low_priority p
         ++ map item_of
              (filter (fun r => negb (8 <=? Report._estimate_impact r)%Z
                                && negb (6 <=? Report._estimate_impact r)%Z) l);
       Report.quick_wins :=
         Report.quick_wins p
         ++ map item_of
              (filter (fun r => (7 <=? Report._estimate_impact r)%Z
                                && (Report._estimate_effort r <=? 3)%Z) l);
       Report.strategic_improvements :=
         Report.strategic_improvements p
         ++ map item_of
              (filter (fun r => (8 <=? Report._estimate_impact r)%Z
                                && (7 <=? Report._estimate_effort r)%Z) l) |}.
Proof.
  revert p. induction l as [| r l IH]; intro p.
  - cbn [fold_left filter map]. rewrite !app_nil_r. destruct p; reflexivity.
  - cbn [fold_left filter]. rewrite IH. clear IH.
    unfold Report.file_recommendation. cbv zeta.
    cbn [Report.estimated_impact Report.effort_level].
    fold (item_of r).
    destruct (8 <=? Report._estimate_impact r)%Z,
             (6 <=? Report._estimate_impact r)%Z,
             (7 <=? Report._estimate_impact r)%Z,
             (Report._estimate_effort r <=? 3)%Z,
             (7 <=? Report._estimate_effort r)%Z;
      cbn [negb andb map Report.high_priority Report.medium_priority
           Report.low_priority Report.quick_wins
           Report.strategic_improvements];
      rewrite <- ?app_assoc; reflexivity.
Qed.

Lemma filter_length_le {A} (f g : A -> bool) (l : list A) :
  (forall x, f x = true -> g x = true) ->
  List.length (filter f l) <= List.length (filter g l).
Proof.
  intro H. induction l as [| x l IH]; [apply le_n |].
  cbn [filter]. destruct (f x) eqn:Ef.
  - rewrite (H x Ef). cbn [List.length]. lia.
  - destruct (g x); cbn [List.length]; lia.
Qed.

Lemma filter_three_ways {A} (f g : A -> bool) (l : list A) :
  Permutation (filter f l ++ filter (fun x => negb (f x) && g x) l
               ++ filter (fun x => negb (f x) && negb (g x)) l) l.
Proof.
  induction l as [| x l IH]; [constructor |].
  cbn [filter]. destruct (f x); cbn [negb andb].
  - cbn [app]. constructor. exact IH.
  - destruct (g x); cbn [negb].
    + apply Permutation_sym.
      eapply Permutation_trans; [| apply Permutation_middle].
      constructor. apply Permutation_sym. exact IH.
    + apply Permutation_sym.
      rewrite app_assoc.
      eapply Permutation_trans; [| apply Permutation_middle].
      rewrite <- app_assoc.
      constructor. apply Permutation_sym. exact IH.
Qed.

Lemma map_recommendation_item_of (l : list string) :
  map Report.recommendation (map item_of l) = l.
Proof.
  induction l as [| x l IH]; [reflexivity |]. cbn [map]. rewrite IH. reflexivity.
Qed.

(** X18.  Every recommendation of the results is filed under exactly one
    of the three priorities.  The impact takes the values 8, 6 and 4 only,
    so a quick win (impact at least 7) always has the high priority, a
    strategic improvement has it too and is never a quick win, and the
    short term of the timeline, a difference of two lengths, is never
    negative. *)
Theorem X18_recommendations_have_one_priority (Standard : Type)
    (a : Report.AnalysisResults Standard) :
  let r := Report._create_improvement_recommendations Standard a in
  let p := Report.priorities r in
  let t := Report.implementation_timeline r in
  Permutation
    (map Report.recommendation
       (Report.high_priority p ++ Report.medium_priority p
        ++ Report.low_priority p))
    (all_recommendations a)
  /\ (forall i, In i (Report.quick_wins p) -> In i (Report.high_priority p))
  /\ (forall i, In i (Report.strategic_improvements p) ->
        In i (Report.high_priority p) /\ ~ In i (Report.quick_wins p))
  /\ (0 <= Report.short_term t)%Z
  /\ (Report.immediate t + Report.short_term t + Report.medium_term t
      + Z.of_nat (List.length (Report.low_priority p))
      = Z.of_nat (List.length (all_recommendations a)))%Z.
Proof.
  cbv zeta. unfold Report._create_improvement_recommendations. cbv zeta.
  fold (all_recommendations a).
  rewrite fold_file_recommendation.
  cbn [Report.priorities Report.implementation_timeline Report.high_priority
       Report.medium_priority Report.low_priority Report.quick_wins
       Report.strategic_improvements Report.immediate Report.short_term
       Report.medium_term app].
  set (l := all_recommendations a).
  assert (HP : Permutation
                 (map Report.recommendation
                    (map item_of (filter (fun r => (8 <=? Report._estimate_impact r)%Z) l)
                     ++ map item_of
                          (filter (fun r => negb (8 <=? Report._estimate_impact r)%Z
                                            && (6 <=? Report._estimate_impact r)%Z) l)
                     ++ map item_of
                          (filter (fun r => negb (8 <=? Report._estimate_impact r)%Z
                                            && negb (6 <=? Report._estimate_impact r)%Z) l)))
                 l).
  { rewrite <- !map_app, map_recommendation_item_of. apply filter_three_ways. }
  split; [exact HP |].
  split; [| split; [| split]].
  - intros i Hi. apply in_map_iff in Hi. destruct Hi as [r [<- Hr]].
    apply filter_In in Hr. destruct Hr as [Hr Hc].
    apply in_map, filter_In. split; [exact Hr |].
    apply andb_true_iff in Hc. destruct Hc as [Hc _].
    apply Z.leb_le in Hc. apply Z.leb_le.
    destruct (estimate_impact_values r) as [E | [E | E]]; rewrite E in *; lia.
  - intros i Hi. apply in_map_iff in Hi. destruct Hi as [r [<- Hr]].
    apply filter_In in Hr. destruct Hr as [Hr Hc].
    apply andb_true_iff in Hc. destruct Hc as [Hi He].
    split; [apply in_map, filter_In; split; assumption |].
    intro Hq. apply in_map_iff in Hq. destruct Hq as [r' [E Hr']].
    apply filter_In in Hr'. destruct Hr' as [_ Hc'].
    apply andb_true_iff in Hc'. destruct Hc' as [_ He'].
    apply (f_equal Report.effort_level) in E.
    cbn [item_of Report.effort_level] in E.
    apply Z.leb_le in He, He'. lia.
  - rewrite !length_map.
    assert (H : List.length (filter (fun r => (7 <=? Report._estimate_impact r)%Z
                                      && (Report._estimate_effort r <=? 3)%Z) l)
                <= List.length (filter (fun r => (8 <=? Report._estimate_impact r)%Z) l)).
    { apply filter_length_le. intros r Hc.
      apply andb_true_iff in Hc. destruct Hc as [Hc _].
      apply Z.leb_le in Hc. apply Z.leb_le.
      destruct (estimate_impact_values r) as [E | [E | E]]; rewrite E in *; lia. }
    lia.
  - apply Permutation_length in HP.
    rewrite length_map, !length_app, !length_map in HP.
    rewrite !length_map. lia.
Qed.

(** *** The categories *)

Ltac finish_category :=
  cbn [In]; repeat split; intros; try discriminate; auto 10.

(** X19.  A recommendation of high impact is never categorised
    [structure] or [general]: each keyword of high impact is or holds a
    keyword of the categories content, formatting or keywords.  The
    keyword [section] of the category structure is never reached, the
    category formatting holds it too: a recommendation that mentions a
    section is filed under content or formatting, and the category
    structure is given for the words [summary] and [experience] only. *)
Theorem X19_high_impact_is_never_structure (rec : string) :
  (Report._estimate_impact rec = 8%Z ->
   In (Report._categorize_recommendation rec)
      ["content"; "formatting"; "keywords"])
  /\ (Py.contains "section" (Py.lower rec) = true ->
      In (Report._categorize_recommendation rec) ["content"; "formatting"])
  /\ (Report._categorize_recommendation rec = "structure" ->
      Py.contains "summary" (Py.lower rec) = true
      \/ Py.contains "experience" (Py.lower rec) = true)
  /\ In (Report._categorize_recommendation rec)
        ["content"; "formatting"; "keywords"; "structure"; "general"].
Proof.
  assert (Hverb : Py.contains "action verb" (Py.lower rec) = true ->
                  Py.contains "verb" (Py.lower rec) = true).
  { apply contains_trans. reflexivity. }
  unfold Report._estimate_impact, Report._categorize_recommendation,
    Report.categories, Py.any.
  cbv zeta. cbn [List.find existsb snd fst].
  set (s := Py.lower rec) in *.
  destruct (Py.contains "quantif" s) eqn:E1; cbn [orb]; [finish_category |].
  destruct (Py.contains "achievement" s) eqn:E2; cbn [orb]; [finish_category |].
  destruct (Py.contains "bullet" s) eqn:E3; cbn [orb]; [finish_category |].
  destruct (Py.contains "verb" s) eqn:E4; cbn [orb]; [finish_category |].
  destruct (Py.contains "format" s) eqn:E5; cbn [orb]; [finish_category |].
  destruct (Py.contains "section" s) eqn:E6; cbn [orb]; [finish_category |].
  destruct (Py.contains "ats" s) eqn:E7; cbn [orb]; [finish_category |].
  destruct (Py.contains "action verb" s) eqn:E8;
    [specialize (Hverb eq_refl); discriminate Hverb |].
  cbn [orb].
  destruct (Py.contains "keyword" s) eqn:E9; cbn [orb]; [finish_category |].
  destruct (Py.contains "skill" s); cbn [orb];
    [destruct (Py.contains "professional" s); finish_category |].
  destruct (Py.contains "technical" s); cbn [orb];
    [destruct (Py.contains "professional" s); finish_category |].
  destruct (Py.contains "summary" s); cbn [orb];
    [destruct (Py.contains "professional" s); finish_category |].
  destruct (Py.contains "experience" s); cbn [orb];
    destruct (Py.contains "professional" s); finish_category.
Qed.

(** *** The executive summary *)

Lemma grade_D (score : Z) : (score <= 52)%Z ->
  Report.grade score = ("D", "Significant Improvements Required").
Proof.
  intro H. unfold Report.grade.
  destruct (Z.leb_spec 90 score); [lia |].
  destruct (Z.leb_spec 80 score); [lia |].
  destruct (Z.leb_spec 70 score); [lia |].
  destruct (Z.leb_spec 60 score); [lia |].
  reflexivity.
Qed.

Lemma summary_without_optimization (Standard : Type)
    (a : Report.AnalysisResults Standard) (w : World) :
  Report._create_executive_summary Standard a None w
  = (inr (Report.Built
            (let ats :=
               Report.get_or 0%Z
                 (fun s => Scanner.ats_score (Scanner.ats_compatibility s))
                 (Report.get_sections Standard a) in
             {| Report.overall_assessment :=
                  {| Report.oa_score := Report.get_enhanced_score Standard a;
                     Report.oa_grade :=
                       fst (Report.grade (Report.get_enhanced_score Standard a));
                     Report.oa_assessment :=
                       snd (Report.grade (Report.get_enhanced_score Standard a));
                     Report.improvement_potential :=
                       Z.max 0 (95 - Report.get_enhanced_score Standard a) |};
                Report.key_strengths :=
                  firstn 3 (Report._identify_strengths Standard a);
                Report.critical_weaknesses :=
                  firstn 3 (Report._identify_weaknesses Standard a);
                Report.priority_actions :=
                  firstn 5 (Report._get_priority_actions Standard a);
                Report.ats_readiness :=
                  {| Report.ar_score := ats;
                     Report.ar_status :=
                       if (80 <=? ats)%Z then "Ready" else "Needs Work" |};
                Report.optimization_impact := None |})), w).
Proof.
  unfold Report._create_executive_summary, try_except. cbv zeta.
  destruct (Report.grade _) as [g s]. reflexivity.
Qed.

(** X20.  The report of an enhanced scan that returned results never grades
    it above D: the enhanced score is 52 at most, so the grade is D with
    the assessment of the last branch, the improvement potential lies
    between 43 and 95, and no benchmark is met, each lacking 13 points at
    least. *)
Theorem X20_enhanced_scan_is_graded_D (Standard : Type)
    (all_standards : list (string * Standard))
    (e : list string -> list string) (read : Scanner.Path -> Exn + string)
    (cv_path : Scanner.Path) (job_description target_role : string)
    (w w' : World) (r : EnhancedScanner.EnhancedResults Standard) :
  fst (EnhancedScanner.enhanced_scan Standard all_standards e read cv_path
         job_description target_role w)
  = inr (EnhancedScanner.EnhancedScanned Standard r) ->
  exists s,
    Report._create_executive_summary Standard (Report.EnhancedScan Standard r)
      None w' = (inr (Report.Built s), w')
    /\ Report.oa_grade (Report.overall_assessment s) = "D"
    /\ Report.oa_assessment (Report.overall_assessment s)
       = "Significant Improvements Required"
    /\ (43 <= Report.improvement_potential (Report.overall_assessment s)
        <= 95)%Z
    /\ forall name c,
         In (name, c)
            (Report.benchmark_comparison
               (Report._create_performance_metrics Standard
                  (Report.EnhancedScan Standard r))) ->
         Report.meets_benchmark c = false /\ (13 <= Report.points_needed c)%Z.
Proof.
  intro H.
  pose proof (enhanced_scan_full Standard all_standards e read cv_path
                job_description target_role w) as Hf.
  cbv zeta in Hf. rewrite Hf in H. clear Hf.
  destruct (enhanced_features Standard all_standards _ target_role)
    as [ex | enh] eqn:Ef; [discriminate H |].
  pose proof (scan_sub_scores_in_range Standard all_standards e _
                job_description target_role enh Ef) as Hrange.
  pose proof (enhanced_score_le_52 Standard _ _ Hrange) as Hle.
  pose proof (enhanced_score_nonneg Standard _ _ Hrange) as Hge.
  set (score := EnhancedScanner._calculate_enhanced_score Standard _ enh) in *.
  clearbody score.
  injection H as <-.
  rewrite summary_without_optimization.
  eexists. split; [reflexivity |].
  cbv zeta.
  cbn [Report.overall_assessment Report.oa_grade Report.oa_assessment
       Report.improvement_potential Report.get_enhanced_score
       EnhancedScanner.enhanced_score].
  rewrite (grade_D _ Hle).
  split; [reflexivity |]. split; [reflexivity |]. split; [lia |].
  intros name c Hin.
  unfold Report._create_performance_metrics in Hin. cbv zeta in Hin.
  cbn [Report.benchmark_comparison Report.get_enhanced_score
       EnhancedScanner.enhanced_score] in Hin.
  unfold Report._create_benchmark_comparison, Report.benchmarks in Hin.
  cbn [map fst snd In] in Hin.
  repeat destruct Hin as [Hin | Hin]; try contradiction;
    apply (f_equal snd) in Hin; cbn [snd] in Hin; subst c;
    cbn [Report.meets_benchmark Report.points_needed];
    (split; [apply Z.leb_gt; lia | lia]).
Qed.

Lemma in_recommend_iff (c : bool) (t x : string) (l : list string) :
  In x (Scanner.recommend c t l) <-> In x l \/ (c = true /\ x = t).
Proof.
  unfold Scanner.recommend. destruct c.
  - rewrite in_app_iff. cbn [In]. intuition congruence.
  - intuition congruence.
Qed.

Lemma in_or_default (x d : string) (l : list string) :
  In x match l with [] => [d] | _ :: _ => l end -> x = d \/ In x l.
Proof. destruct l; cbn [In]; intuition congruence. Qed.

Lemma in_kept (x d : string) (l : list string) :
  In x l -> In x match l with [] => [d] | _ :: _ => l end.
Proof. destruct l; [intros [] | auto]. Qed.

Ltac abstract_conditions :=
  repeat match goal with
         | |- context [Scanner.recommend ?b _ _] =>
             lazymatch b with
             | true => fail
             | false => fail
             | _ => destruct b
             end
         end.

Lemma strengths_length (Standard : Type) (a : Report.AnalysisResults Standard) :
  1 <= List.length (firstn 3 (Report._identify_strengths Standard a)) <= 3.
Proof.
  unfold Report._identify_strengths. cbv zeta.
  abstract_conditions; cbn [Scanner.recommend app firstn List.length]; lia.
Qed.

Lemma weaknesses_length (Standard : Type) (a : Report.AnalysisResults Standard) :
  1 <= List.length (firstn 3 (Report._identify_weaknesses Standard a)) <= 3.
Proof.
  unfold Report._identify_weaknesses. cbv zeta.
  abstract_conditions; cbn [Scanner.recommend app firstn List.length]; lia.
Qed.

Lemma priority_actions_length (Standard : Type)
    (a : Report.AnalysisResults Standard) :
  List.length (Report._get_priority_actions Standard a) <= 5.
Proof.
  unfold Report._get_priority_actions. cbv zeta.
  destruct (Report.get_or [] _ _) as [| issue issues];
    abstract_conditions; cbn [Scanner.recommend app List.length]; lia.
Qed.

Lemma strength_quantified (Standard : Type)
    (a : Report.AnalysisResults Standard) :
  In "Strong quantification of achievements"
     (Report._identify_strengths Standard a) ->
  (70 <= Report.get_or 0%Q
           (fun s => Scanner.quantification_rate (Scanner.quantification s))
           (Report.get_sections Standard a))%Q.
Proof.
  unfold Report._identify_strengths. cbv zeta. intro H.
  apply in_or_default in H. destruct H as [H | H]; [discriminate H |].
  repeat (apply in_recommend_iff in H;
          destruct H as [H | [_ H]]; [| discriminate H]).
  apply in_recommend_iff in H. destruct H as [[] | [H _]].
  apply Qle_bool_iff. exact H.
Qed.

Lemma weakness_quantified (Standard : Type)
    (a : Report.AnalysisResults Standard) :
  In "Insufficient quantification of achievements"
     (Report._identify_weaknesses Standard a) ->
  (Report.get_or 0%Q
     (fun s => Scanner.quantification_rate (Scanner.quantification s))
     (Report.get_sections Standard a) < 50)%Q.
Proof.
  unfold Report._identify_weaknesses. cbv zeta. intro H.
  apply in_or_default in H. destruct H as [H | H]; [discriminate H |].
  repeat (apply in_recommend_iff in H;
          destruct H as [H | [_ H]]; [| discriminate H]).
  apply in_recommend_iff in H. destruct H as [[] | [H _]].
  apply Qlt_bool_iff. exact H.
Qed.

Lemma strength_ats (Standard : Type) (a : Report.AnalysisResults Standard) :
  In "ATS-friendly formatting" (Report._identify_strengths Standard a) ->
  (80 <= Report.get_or 0%Z
           (fun s => Scanner.ats_score (Scanner.ats_compatibility s))
           (Report.get_sections Standard a))%Z.
Proof.
  unfold Report._identify_strengths. cbv zeta. intro H.
  apply in_or_default in H. destruct H as [H | H]; [discriminate H |].
  do 2 (apply in_recommend_iff in H;
        destruct H as [H | [_ H]]; [| discriminate H]).
  apply in_recommend_iff in H. destruct H as [H | [H _]].
  - exfalso.
    repeat (apply in_recommend_iff in H;
            destruct H as [H | [_ H]]; [| discriminate H]).
    exact H.
  - apply Z.leb_le. exact H.
Qed.

Lemma weakness_ats (Standard : Type) (a : Report.AnalysisResults Standard) :
  In "ATS compatibility issues" (Report._identify_weaknesses Standard a) ->
  (Report.get_or 0%Z
     (fun s => Scanner.ats_score (Scanner.ats_compatibility s))
     (Report.get_sections Standard a) < 70)%Z.
Proof.
  unfold Report._identify_weaknesses. cbv zeta. intro H.
  apply in_or_default in H. destruct H as [H | H]; [discriminate H |].
  do 2 (apply in_recommend_iff in H;
        destruct H as [H | [_ H]]; [| discriminate H]).
  apply in_recommend_iff in H. destruct H as [H | [H _]].
  - exfalso.
    repeat (apply in_recommend_iff in H;
            destruct H as [H | [_ H]]; [| discriminate H]).
    exact H.
  - apply Z.ltb_lt. exact H.
Qed.

(** X21.  Without an optimization the executive summary is always built,
    and nothing is logged.  It names between one and three strengths and
    between one and three weaknesses; the priority actions, five at most,
    are never cut.  Strengths and weaknesses never contradict each other on
    the quantification or on the ATS compatibility, and results without an
    enhanced analysis always have the limited impact among their
    weaknesses. *)
Theorem X21_summary_lists (Standard : Type)
    (a : Report.AnalysisResults Standard) (w : World) :
  exists s,
    Report._create_executive_summary Standard a None w
    = (inr (Report.Built s), w)
    /\ 1 <= List.length (Report.key_strengths s) <= 3
    /\ 1 <= List.length (Report.critical_weaknesses s) <= 3
    /\ Report.priority_actions s = Report._get_priority_actions Standard a
    /\ ~ (In "Strong quantification of achievements"
             (Report._identify_strengths Standard a)
          /\ In "Insufficient quantification of achievements"
                (Report._identify_weaknesses Standard a))
    /\ ~ (In "ATS-friendly formatting" (Report._identify_strengths Standard a)
          /\ In "ATS compatibility issues"
                (Report._identify_weaknesses Standard a))
    /\ (Report.get_enhanced_analysis Standard a = None ->
        In "Limited demonstration of impact"
           (Report._identify_weaknesses Standard a)).
Proof.
  rewrite summary_without_optimization. eexists. split; [reflexivity |].
  cbv zeta.
  cbn [Report.key_strengths Report.critical_weaknesses Report.priority_actions].
  split; [apply strengths_length |].
  split; [apply weaknesses_length |].
  split; [apply firstn_all_le, priority_actions_length |].
  split; [| split].
  - intros [Hs Hw].
    apply strength_quantified in Hs. apply weakness_quantified in Hw. lra.
  - intros [Hs Hw]. apply strength_ats in Hs. apply weakness_ats in Hw. lia.
  - intro Hn. unfold Report._identify_weaknesses. cbv zeta. rewrite Hn.
    apply in_kept, recommend_keeps.
    cbn [Report.get_or]. change (0 <? 40)%Z with true. apply recommend_adds.
Qed.

(** X22.  With the results of an optimization the executive summary fails
    in one case only: the optimization succeeded with a reply of the LLM
    whose improvements have no length (null, a number or a boolean).  The
    summary is then the error alone, TypeError, logged once, whatever the
    analysis held.  In every other case it is built, with the impact of the
    optimization exactly when the optimization reports success. *)
Theorem X22_summary_fails_on_unsized_improvements (Standard : Type)
    (a : Report.AnalysisResults Standard)
    (o : option CVOptimizer.OptimizeResult) (w : World) :
  (improvements_unsized o = true ->
   Report._create_executive_summary Standard a o w
   = (inr (Report.NotBuilt TypeError), logged w))
  /\ (improvements_unsized o = false ->
      exists s,
        Report._create_executive_summary Standard a o w
        = (inr (Report.Built s), w)
        /\ (Report.optimization_impact s <> None
            <-> exists r, o = Some r /\ CVOptimizer.success r = true)).
Proof.
  unfold Report._create_executive_summary, try_except. cbv zeta.
  destruct (Report.grade _) as [g s].
  destruct o as [[ts orig opt [l | v] val lvl jd | ex ts] |];
    cbn [improvements_unsized Report.len_improvements].
  - split; intro H; [discriminate H |].
    eexists; split; [reflexivity |].
    cbn [Report.optimization_impact].
    split; [intros _; eexists; split; reflexivity | intros _; discriminate].
  - destruct v; cbn [unsized Report.json_len]; split; intro H;
      try discriminate H; try reflexivity;
      (eexists; split; [reflexivity |]);
      cbn [Report.optimization_impact];
      (split; [intros _; eexists; split; reflexivity | intros _; discriminate]).
  - split; intro H; [discriminate H |].
    eexists; split; [reflexivity |].
    cbn [Report.optimization_impact].
    split; [intro C; contradiction C; reflexivity |].
    intros [r [E S]]. injection E as <-. discriminate S.
  - split; intro H; [discriminate H |].
    eexists; split; [reflexivity |].
    cbn [Report.optimization_impact].
    split; [intro C; contradiction C; reflexivity |].
    intros [r [E S]]. discriminate E.
Qed.

(** *** The report of a failed scan *)

(** X23.  The report does not tell a failed scan from a document: the
    results that hold the error alone are reported as a document scoring 0,
    graded D, with a strength, three weaknesses and four priority actions,
    a readability of 30 and a professional score of 40, the worst ATS
    status and no recommendation; the error is nowhere mentioned and
    nothing is logged. *)
Theorem X23_failed_scan_is_reported_as_score_0 (Standard : Type) (e : Exn)
    (w : World) :
  let a := Report.FailedScan Standard e in
  let m := Report._create_performance_metrics Standard a in
  Report._create_executive_summary Standard a None w
  = (inr (Report.Built
            {| Report.overall_assessment :=
                 {| Report.oa_score := 0;
                    Report.oa_grade := "D";
                    Report.oa_assessment := "Significant Improvements Required";
                    Report.improvement_potential := 95 |};
               Report.key_strengths := ["Basic structure present"];
               Report.critical_weaknesses :=
                 ["Insufficient quantification of achievements";
                  "Limited use of strong action verbs";
                  "ATS compatibility issues"];
               Report.priority_actions :=
                 ["Add specific numbers and percentages to 5+ bullet points";
                  "Add a 3-4 line professional summary at the top";
                  "Include more relevant technical skills and keywords";
                  "Replace weak verbs with powerful action verbs (architected, orchestrated, etc.)"];
               Report.ats_readiness :=
                 {| Report.ar_score := 0; Report.ar_status := "Needs Work" |};
               Report.optimization_impact := None |}), w)
  /\ (Report.readability_score m, Report.keyword_density m,
      Report.pm_impact_score m, Report.professional_score m,
      Report.ats_optimization_score m) = (30, 0, 0, 40, 0)%Z
  /\ Report.ac_status (Report._create_ats_compliance_report Standard a)
     = "Poor ATS Compatibility - Major Issues"
  /\ all_recommendations a = [].
Proof.
  cbv zeta. split; [reflexivity |].
  split; [vm_compute; reflexivity |].
  split; reflexivity.
Qed.

(** *** The performance metrics *)

Lemma min_nonneg (x y : Q) : (0 <= x)%Q -> (0 <= y)%Q -> (0 <= Num.min x y)%Q.
Proof. intros Hx Hy. unfold Num.min. destruct (Num.Qlt_bool y x); assumption. Qed.

Lemma min_le_r (x y : Q) : (Num.min x y <= y)%Q.
Proof.
  unfold Num.min. destruct (Num.Qlt_bool y x) eqn:E; [apply Qle_refl |].
  apply Qnot_lt_le. intro H. apply Qlt_bool_iff in H. congruence.
Qed.

Lemma py_int_ge (x : Q) (n : Z) : (0 <= n)%Z -> (inject_Z n <= x)%Q ->
  (n <= Num.py_int x)%Z.
Proof.
  intros Hn Hx.
  assert (H0 : (0 <= x)%Q).
  { eapply Qle_trans; [| exact Hx]. change 0%Q with (inject_Z 0).
    rewrite <- Zle_Qle. exact Hn. }
  destruct (py_int_bounds x H0) as [_ Hup].
  assert (H : (inject_Z n < inject_Z (Num.py_int x + 1))%Q)
    by (eapply Qle_lt_trans; eassumption).
  rewrite <- Zlt_Qlt in H. lia.
Qed.

Lemma ats_at_least_45 (cv : string) :
  (45 <= Scanner.ats_score (Scanner._analyze_ats_compatibility cv) <= 100)%Z.
Proof.
  unfold Scanner._analyze_ats_compatibility. cbv zeta.
  cbn [Scanner.ats_score].
  destruct (Py.contains (Py.chr Py.tab) cv),
           (50 <? List.length (Re.findall Scanner.special_re cv)),
           (Re.matches Scanner.email_re cv),
           (Re.matches Scanner.phone_re cv);
    cbn; lia.
Qed.

Lemma job_match_range (e : list string -> list string) (cv jd : string) :
  (0 <= Scanner.jm_score (Scanner.job_match (Scanner._analyze_keywords e cv jd))
   <= 100)%Q.
Proof.
  unfold Scanner._analyze_keywords. cbv zeta. cbn [Scanner.job_match].
  destruct (String.eqb jd ""); cbn [Scanner.jm_score].
  - split; [apply Qle_refl | discriminate].
  - apply percent_range.
    + eapply Nat.le_trans; [apply length_filter_le | apply Nat.le_max_l].
    + lia.
Qed.

Lemma quantification_score_range (cv : string) :
  (0 <= Scanner.q_score (Scanner._analyze_quantification cv) <= 100)%Q.
Proof.
  unfold Scanner._analyze_quantification. cbv zeta. cbn [Scanner.q_score].
  apply percent_range.
  - rewrite length_map.
    eapply Nat.le_trans; [apply length_filter_le | apply Nat.le_max_l].
  - lia.
Qed.

Lemma section_score_range (cv : string) :
  (0 <= Scanner.section_score (Scanner._analyze_formatting cv) <= 100)%Q.
Proof.
  unfold Scanner._analyze_formatting. cbv zeta. cbn [Scanner.section_score].
  apply percent_range; [apply length_filter_le | cbn; lia].
Qed.

Lemma bullet_score_range (cv : string) :
  (0 <= Scanner.bullet_score (Scanner._analyze_formatting cv) <= 100)%Z.
Proof.
  unfold Scanner._analyze_formatting. cbv zeta. cbn [Scanner.bullet_score].
  apply capped_range; lia.
Qed.

Lemma avg_words_nonneg (cv : string) :
  (0 <= Scanner.avg_words_per_sentence (Scanner._analyze_content_quality cv))%Q.
Proof.
  unfold Scanner._analyze_content_quality. cbv zeta.
  cbn [Scanner.avg_words_per_sentence]. apply div_nat_nonneg.
Qed.

Lemma presentation_at_least_25 (cv : string) :
  (25 <= EnhancedScanner.presentation_score
           (EnhancedScanner._analyze_presentation cv))%Z.
Proof.
  unfold EnhancedScanner._analyze_presentation. cbv zeta.
  cbn [EnhancedScanner.presentation_score].
  set (d := EnhancedScanner.distinct (Re.findall _ _)).
  set (b := EnhancedScanner.distinct (map _ _)).
  set (n := Py.count _ _).
  assert (Hn : n <= 5) by (unfold n, Py.count; apply length_filter_le).
  unfold Scanner.penalise.
  destruct (2 <? d), (1 <? b);
    do 6 (destruct n as [| n]; [cbn; lia |]);
    exfalso; lia.
Qed.

(** The presentation among the features of an enhanced scan. *)
Lemma features_presentation (Standard : Type)
    (all_standards : list (string * Standard)) (cv role : string)
    (enhanced : EnhancedScanner.EnhancedAnalysis Standard) :
  enhanced_features Standard all_standards cv role = inr enhanced ->
  EnhancedScanner.professional_presentation Standard enhanced
  = EnhancedScanner._analyze_presentation cv.
Proof.
  unfold enhanced_features, EnhancedScanner.analyze, bind.
  destruct (EnhancedScanner._analyze_industry_standards Standard all_standards cv _)
    as [[ex | c] w'] eqn:Ec; [discriminate |].
  cbn. intro H. injection H as <-. reflexivity.
Qed.

Lemma impact_bounds (Standard : Type) (q : Q) (i : Z) :
  (0 <= q <= 100)%Q -> (0 <= i <= 100)%Z ->
  (0 <= Num.py_int (q [*] Num.lit 0.4 [+] 0) <= 40)%Z
  /\ (0 <= Num.py_int (q [*] Num.lit 0.4 [+] Num.of_Z i [*] Num.lit 0.6)
      <= 100)%Z.
Proof.
  intros Hq Hi. split; split.
  - apply py_int_nonneg. bound_below; [apply Hq | apply Qle_refl].
  - apply py_int_le; [lia |].
    eapply Qle_trans.
    + apply fadd_mono; [apply fmul_mono; [weights | apply Hq] | apply Qle_refl].
    + vm_compute. discriminate.
  - apply py_int_nonneg. bound_below; [apply Hq | apply of_Z_nonneg; lia].
  - apply py_int_le; [lia |].
    eapply Qle_trans.
    + bound_above; first [apply Hq | apply Hi].
    + vm_compute. discriminate.
Qed.

Lemma professional_bounds (a p : Z) :
  (45 <= a <= 100)%Z -> (25 <= p <= 100)%Z ->
  (62 <= Num.py_int (Num.of_Z a [*] Num.lit 0.5 [+] 40) <= 90)%Z
  /\ (35 <= Num.py_int (Num.of_Z a [*] Num.lit 0.5 [+] Num.of_Z p [*] Num.lit 0.5)
      <= 100)%Z.
Proof.
  intros Ha Hp. split; split.
  - apply py_int_ge; [lia |].
    eapply Qle_trans; [| apply fadd_mono;
                         [apply fmul_mono; [weights | apply of_Z_mono, Ha]
                         | apply Qle_refl]].
    vm_compute. discriminate.
  - apply py_int_le; [lia |].
    eapply Qle_trans.
    + apply fadd_mono; [apply fmul_mono; [weights | apply of_Z_mono, Ha]
                       | apply Qle_refl].
    + vm_compute. discriminate.
  - apply py_int_ge; [lia |].
    eapply Qle_trans; [| apply fadd_mono;
                         [apply fmul_mono; [weights | apply of_Z_mono, Ha]
                         | apply fmul_mono; [weights | apply of_Z_mono, Hp]]].
    vm_compute. discriminate.
  - apply py_int_le; [lia |].
    eapply Qle_trans.
    + apply fadd_mono; [apply fmul_mono; [weights | apply of_Z_mono, Ha]
                       | apply fmul_mono; [weights | apply of_Z_mono, Hp]].
    + vm_compute. discriminate.
Qed.

(** X24.  The four metrics of the report lie between 0 and 100 for every
    scan.  Without the enhanced analysis the impact score is 40 at most and the professional
    score lies between 62 and 90; with it the professional score is 35 at
    least. *)
Theorem X24_metrics_of_a_scan (Standard : Type)
    (all_standards : list (string * Standard))
    (e : list string -> list string) (cv_text job_description : string) :
  let sections := Some (Scanner.analyze e cv_text job_description) in
  (0 <= Report._calculate_readability_score sections <= 100)%Z
  /\ (0 <= Report._calculate_keyword_density sections <= 100)%Z
  /\ (0 <= Report._calculate_impact_score Standard sections None <= 40)%Z
  /\ (62 <= Report._calculate_professional_score Standard sections None
      <= 90)%Z
  /\ (forall target_role enhanced,
        enhanced_features Standard all_standards cv_text target_role
        = inr enhanced ->
        (0 <= Report._calculate_impact_score Standard sections (Some enhanced)
         <= 100)%Z
        /\ (35 <= Report._calculate_professional_score Standard sections
                    (Some enhanced) <= 100)%Z).
Proof.
  cbv zeta.
  pose proof (ats_at_least_45 cv_text) as Hats.
  pose proof (quantification_score_range cv_text) as Hq.
  pose proof (job_match_range e cv_text job_description) as Hjm.
  pose proof (section_score_range cv_text) as Hss.
  pose proof (bullet_score_range cv_text) as Hbs.
  pose proof (avg_words_nonneg cv_text) as Havg.
  unfold Report._calculate_readability_score, Report._calculate_keyword_density,
    Report._calculate_impact_score, Report._calculate_professional_score.
  cbv zeta.
  cbn [Report.get_or Scanner.analyze Scanner.formatting Scanner.content_quality
       Scanner.keywords Scanner.quantification Scanner.ats_compatibility].
  set (ats := Scanner.ats_score _) in *.
  set (q := Scanner.q_score _) in *.
  set (jm := Scanner.jm_score _) in *.
  set (ss := Scanner.section_score _) in *.
  set (bs := Scanner.bullet_score _) in *.
  set (avg := Scanner.avg_words_per_sentence _) in *.
  clearbody ats q jm ss bs avg.
  split; [| split; [| split; [| split]]].
  - split; [| apply Z.le_min_r].
    apply Z.min_glb; [| lia]. apply py_int_nonneg.
    apply fadd_nonneg; [apply fadd_nonneg |].
    + apply of_Z_nonneg. lia.
    + apply min_nonneg; [| discriminate].
      apply fmul_nonneg; [exact Havg | apply of_Z_nonneg; lia].
    + apply min_nonneg; [| discriminate].
      apply fmul_nonneg; [apply Hss | weights].
  - split; [| apply Z.le_min_r].
    apply Z.min_glb; [| lia]. apply py_int_nonneg.
    apply fadd_nonneg; [apply of_Z_nonneg; lia |].
    apply min_nonneg; [| discriminate].
    apply fmul_nonneg; [apply Hjm | weights].
  - destruct (impact_bounds Standard q 0 Hq ltac:(lia)) as [[H1 H2] _].
    split; [apply Z.min_glb; lia |].
    eapply Z.le_trans; [apply Z.le_min_l | exact H2].
  - destruct (professional_bounds ats 25 Hats ltac:(lia)) as [[H1 H2] _].
    split; [apply Z.min_glb; lia |].
    eapply Z.le_trans; [apply Z.le_min_l | exact H2].
  - intros target_role enhanced Ef.
    pose proof (scan_sub_scores_in_range Standard all_standards e cv_text
                  job_description target_role enhanced Ef)
      as (_ & _ & _ & _ & _ & _ & _ & Himp & _ & Hpres).
    pose proof (features_presentation Standard all_standards cv_text
                  target_role enhanced Ef) as Ep.
    assert (Hp25 : (25 <= EnhancedScanner.presentation_score
                            (EnhancedScanner.professional_presentation Standard
                               enhanced) <= 100)%Z).
    { rewrite Ep. split; [apply presentation_at_least_25 | apply presentation_range]. }
    clear Ep.
    set (i := EnhancedScanner.impact_score _) in *.
    set (p := EnhancedScanner.presentation_score _) in *.
    clearbody i p.
    destruct (impact_bounds Standard q i Hq Himp) as [_ [H1 H2]].
    destruct (professional_bounds ats p Hats Hp25) as [_ [H3 H4]].
    split; (split; [apply Z.min_glb; lia |]);
      (eapply Z.le_trans; [apply Z.le_min_l | assumption]).
Qed.

(** *** The compliance report *)

(** X25.  The status of the compliance report follows the issues of the
    compatibility check: a scanned document is reported as poor exactly
    when all four issues are listed, and as excellent exactly when an email
    address was found and one issue at most is listed. *)
Theorem X25_compliance_status_follows_issues (Standard : Type)
    (e : list string -> list string) (cv_text job_description : string)
    (timestamp cv_path : string) (overall_score : Z)
    (recommendations : list string) :
  let a := Report.BaseScan Standard
             {| Scanner.timestamp := timestamp;
                Scanner.cv_path := cv_path;
                Scanner.overall_score := overall_score;
                Scanner.sections := Scanner.analyze e cv_text job_description;
                Scanner.recommendations := recommendations |} in
  let c := Report._create_ats_compliance_report Standard a in
  Report.compatibility_issues c
  = Scanner.issues (Scanner._analyze_ats_compatibility cv_text)
  /\ (Report.ac_status c = "Poor ATS Compatibility - Major Issues"
      <-> List.length (Report.compatibility_issues c) = 4)
  /\ (Report.ac_status c = "Excellent ATS Compatibility"
      <-> List.length (Report.compatibility_issues c) <= 1
          /\ Report.contact_info_check c
             = Some (true, Scanner.phone_found
                             (Scanner._analyze_ats_compatibility cv_text))).
Proof.
  cbv zeta. unfold Report._create_ats_compliance_report. cbv zeta.
  cbn [Report.get_sections Scanner.sections option_map Report.get_or
       Scanner.analyze Scanner.ats_compatibility
       Report.compatibility_issues Report.ac_status Report.contact_info_check].
  unfold Scanner._analyze_ats_compatibility. cbv zeta.
  cbn [Scanner.ats_score Scanner.issues Scanner.email_found Scanner.phone_found].
  destruct (Py.contains (Py.chr Py.tab) cv_text),
           (50 <? List.length (Re.findall Scanner.special_re cv_text)),
           (Re.matches Scanner.email_re cv_text),
           (Re.matches Scanner.phone_re cv_text);
    cbn; (split; [reflexivity |]); split; split;
    try (intro H; discriminate H); try reflexivity;
    try (intros [H1 H2]; first [lia | discriminate H2]);
    try (intro H; split; [lia | reflexivity]).
Qed.

(** *** The comparison of an optimization *)

Lemma nodup_all_same (s : string) (l : list string) :
  (forall x, In x l -> x = s) -> l <> [] -> nodup string_dec l = [s].
Proof.
  induction l as [| x l IH]; intros H Hne; [congruence |].
  cbn [nodup]. destruct (in_dec string_dec x l) as [Hin | Hnin].
  - apply IH; [intros y Hy; apply H; right; exact Hy |].
    intro E. rewrite E in Hin. exact Hin.
  - destruct l as [| y l].
    + cbn [nodup]. rewrite (H x (or_introl eq_refl)). reflexivity.
    + exfalso. apply Hnin. left.
      rewrite (H x (or_introl eq_refl)), (H y (or_intror (or_introl eq_refl))).
      reflexivity.
Qed.

Lemma sum_all_same (k : Z) (l : list Z) (acc : Z) :
  (forall x, In x l -> x = k) ->
  fold_left Z.add l acc = (acc + k * Z.of_nat (List.length l))%Z.
Proof.
  revert acc. induction l as [| x l IH]; intros acc H.
  - cbn [fold_left List.length]. lia.
  - cbn [fold_left]. rewrite IH by (intros y Hy; apply H; right; exact Hy).
    rewrite (H x (or_introl eq_refl)). cbn [List.length]. lia.
Qed.

Lemma fallback_improvements (cv_text : string) (imp : CVOptimizer.Improvement) :
  In imp (CVOptimizer.improvements_of (CVOptimizer._fallback_optimization_on cv_text)) ->
  CVOptimizer.section imp = "experience" /\ CVOptimizer.impact_score imp = 6%Z.
Proof.
  rewrite fallback_result. cbv zeta. cbn [CVOptimizer.improvements_of].
  intro Hin. apply in_flat_map in Hin. destruct Hin as [line [_ Hin]].
  apply in_map_iff in Hin. destruct Hin as [ws [<- _]]. split; reflexivity.
Qed.

(** X26.  In the comparison of a rule-based fallback with the analysis the
    optimized score is 0, whatever the optimization did: the validation
    keeps no overall score.  All improvements of the fallback belong to
    the section experience and have the impact 6, so one section is
    modified and the average impact is exactly 6.0 as soon as a weak phrase
    was replaced, and both are 0 otherwise; ten changes at most are
    detailed. *)
Theorem X26_comparison_of_a_fallback (Standard : Type)
    (a : Report.AnalysisResults Standard) (cv_text : string)
    (validation : option CVOptimizer.Validation) :
  let improvements :=
    CVOptimizer.improvements_of (CVOptimizer._fallback_optimization_on cv_text) in
  let c := Report._create_comparison_report Standard a validation improvements in
  let s := Report.changes_summary c in
  Report.optimized_score (Report.score_comparison c) = 0%Z
  /\ Report.total_improvements s = List.length improvements
  /\ (improvements = [] ->
      Report.sections_modified s = 0 /\ Report.average_impact_score s = 0%Q)
  /\ (improvements <> [] ->
      Report.sections_modified s = 1 /\ Report.average_impact_score s = 6%Q)
  /\ List.length (Report.detailed_changes c)
     = Nat.min 10 (List.length improvements).
Proof.
  cbv zeta.
  pose proof (fallback_improvements cv_text) as Hall.
  set (imps := CVOptimizer.improvements_of _) in *. clearbody imps.
  unfold Report._create_comparison_report. cbv zeta.
  cbn [Report.score_comparison Report.optimized_score Report.changes_summary
       Report.total_improvements Report.sections_modified
       Report.average_impact_score Report.detailed_changes].
  split; [destruct validation; reflexivity |].
  split; [reflexivity |].
  split; [| split].
  - intros ->. split; reflexivity.
  - intro Hne. split.
    + rewrite (nodup_all_same "experience"); [reflexivity | |].
      * intros x Hx. apply in_map_iff in Hx. destruct Hx as [imp [<- Hin]].
        apply Hall, Hin.
      * destruct imps; [congruence | discriminate].
    + rewrite (sum_all_same 6).
      * rewrite length_map.
        assert (Hn : 0 < List.length imps)
          by (destruct imps; [congruence | cbn; lia]).
        rewrite Nat.max_l by lia.
        unfold Num.div_Z.
        change 6%Q with (Num.fl 6).
        apply fl_eq.
        rewrite Z.add_0_l, inject_Z_mult.
        field.
        change 0%Q with (inject_Z 0). rewrite inject_Z_injective. lia.
      * intros x Hx. apply in_map_iff in Hx. destruct Hx as [imp [<- Hin]].
        apply Hall, Hin.
  - apply length_firstn.
Qed.

(** ** Examples *)

Lemma no_bullets_rate_zero :
  Scanner.total_bullets (Scanner._analyze_quantification no_bullets) = 0
  /\ Scanner.quantification_rate (Scanner._analyze_quantification no_bullets)
     = 0%Q.
Proof.
  split; vm_compute; reflexivity.
Qed.

Lemma sample_cv_rate :
  Scanner.total_bullets (Scanner._analyze_quantification sample_cv) = 3
  /\ Scanner.quantified_bullets (Scanner._analyze_quantification sample_cv) = 2
  /\ Scanner.quantification_rate (Scanner._analyze_quantification sample_cv)
     = Num.lit 66.66666666666666.
Proof.
  repeat split; vm_compute; reflexivity.
Qed.

(** The rate is a float.  Of a hundred bullets, twenty-nine with a numeral:
    29 / 100 * 100 is 28.999999999999996, and the quantification standard,
    which truncates, scores 28. *)
Lemma rate_is_a_float :
  List.length (compliance_bullets twenty_nine_of_hundred) = 100
  /\ compliance_rate twenty_nine_of_hundred = Num.lit 28.999999999999996
  /\ (compliance_rate twenty_nine_of_hundred < 29)%Q
  /\ Scanner.quantification_rate
       (Scanner._analyze_quantification twenty_nine_of_hundred)
     = Num.lit 28.999999999999996
  /\ fst (EnhancedScanner._check_quantification_compliance unit
            twenty_nine_of_hundred tt) = 28%Z.
Proof.
  repeat split; vm_compute; reflexivity.
Qed.

(** The scores of the action-verb standard at 0, 1, ..., 6 tier-1 verbs. *)
Lemma tier1_docs_scores :
  map tier1_count_of tier1_docs = [0; 1; 2; 3; 4; 5; 6]
  /\ map (fun cv => fst (EnhancedScanner._check_action_verb_compliance unit cv tt))
         tier1_docs
     = [50; 50; 50; 75; 75; 90; 90]%Z.
Proof.
  split; vm_compute; reflexivity.
Qed.

Lemma role_alignment_example :
  EnhancedScanner._analyze_role_alignment sample_cv "DevOps lead"
  = EnhancedScanner.Aligned "DevOps lead"
      ["docker"; "kubernetes"; "jenkins"; "terraform"; "ansible"; "aws"; "ci/cd"]
      ["docker"; "kubernetes"; "aws"]
      (Num.lit 42.857142857142854)
      "Needs better alignment with target role requirements".
Proof.
  vm_compute. reflexivity.
Qed.

(** The bound of the enhanced score is reached by sub-scores of 100. *)
Lemma C10_witness :
  sub_scores_in_range unit full_marks_base full_marks_enhanced
  /\ EnhancedScanner._calculate_enhanced_score unit full_marks_base
       full_marks_enhanced = 52%Z
  /\ (EnhancedScanner._calculate_enhanced_score unit full_marks_base
        full_marks_enhanced <= 52)%Z.
Proof.
  assert (H : sub_scores_in_range unit full_marks_base full_marks_enhanced).
  { unfold sub_scores_in_range. cbn.
    repeat match goal with |- _ /\ _ => split end;
      solve [lia | unfold Qle; cbn; lia]. }
  split; [exact H |].
  split; [vm_compute; reflexivity |].
  exact (proj1 (C10_enhanced_score_at_most_52 unit full_marks_base
                  full_marks_enhanced H)).
Defined.

(** Two enumerations that differ, and the scores of two runs with them. *)
Lemma enumerations_differ :
  Scanner._extract_jd_keywords Scanner.first_seen sample_job
  <> Scanner._extract_jd_keywords (nodup string_dec) sample_job.
Proof.
  vm_compute. intro H. discriminate H.
Qed.

Lemma C3_witness :
  Scanner.valid_enumeration Scanner.first_seen
  /\ Scanner.valid_enumeration (nodup string_dec)
  /\ scores_of
       (fst (EnhancedScanner.enhanced_scan unit EnhancedScanner.spec_standards
               Scanner.first_seen sample_read sample_path sample_job "DevOps lead"
               w0))
     = scores_of
         (fst (EnhancedScanner.enhanced_scan unit EnhancedScanner.spec_standards
                 (nodup string_dec) sample_read sample_path sample_job
                 "DevOps lead" (mkWorld 3 7 "2025-06-30T12:00:00"))).
Proof.
  split; [exact first_seen_valid |].
  split; [exact nodup_valid |].
  exact (proj1 (proj2 (proj2
    (C3_scores_are_deterministic unit EnhancedScanner.spec_standards
       Scanner.first_seen (nodup string_dec) sample_read sample_path sample_job
       "DevOps lead" w0 (mkWorld 3 7 "2025-06-30T12:00:00")
       first_seen_valid nodup_valid)))).
Defined.

Lemma sample_scan_scores :
  scores_of
    (fst (EnhancedScanner.enhanced_scan unit EnhancedScanner.spec_standards
            Scanner.first_seen sample_read sample_path sample_job "DevOps lead" w0))
  = Some (57%Z, 25%Z).
Proof.
  vm_compute. reflexivity.
Qed.

(** X1 at the sample scan. *)
Lemma X1_witness :
  scores_of
    (fst (EnhancedScanner.enhanced_scan unit EnhancedScanner.spec_standards
            Scanner.first_seen sample_read sample_path sample_job "DevOps lead" w0))
  = Some (57%Z, 25%Z)
  /\ (0 <= 57 <= 100)%Z /\ (0 <= 25 <= 52)%Z.
Proof.
  assert (H : scores_of
                (fst (EnhancedScanner.enhanced_scan unit
                        EnhancedScanner.spec_standards Scanner.first_seen
                        sample_read sample_path sample_job "DevOps lead" w0))
              = Some (57%Z, 25%Z)) by (vm_compute; reflexivity).
  split; [exact H |].
  exact (X1_scan_scores_in_range unit EnhancedScanner.spec_standards
           Scanner.first_seen sample_read sample_path sample_job "DevOps lead"
           w0 57%Z 25%Z H).
Defined.

(** X20 at the sample scan. *)
Lemma X20_witness :
  match fst (EnhancedScanner.enhanced_scan unit EnhancedScanner.spec_standards
               Scanner.first_seen sample_read sample_path sample_job
               "DevOps lead" w0) with
  | inr (EnhancedScanner.EnhancedScanned _ r) =>
      exists s,
        Report._create_executive_summary unit (Report.EnhancedScan unit r)
          None w0 = (inr (Report.Built s), w0)
        /\ Report.oa_grade (Report.overall_assessment s) = "D"
  | _ => False
  end.
Proof.
  pose proof sample_scan_scores as Hs.
  pose proof (X20_enhanced_scan_is_graded_D unit EnhancedScanner.spec_standards
                Scanner.first_seen sample_read sample_path sample_job
                "DevOps lead" w0 w0) as H.
  destruct (fst (EnhancedScanner.enhanced_scan unit EnhancedScanner.spec_standards
                   Scanner.first_seen sample_read sample_path sample_job
                   "DevOps lead" w0)) as [ex | [r | ex]].
  - discriminate Hs.
  - destruct (H r eq_refl) as [s [E [G _]]]. exists s. split; assumption.
  - discriminate Hs.
Defined.

(** X6 at the sample document. *)
Lemma X6_witness :
  is_ascii sample_cv = true
  /\ Scanner.quantified_bullets (Scanner._analyze_quantification sample_cv)
     = Py.count has_digit (Re.findall Scanner.bullet_line_re sample_cv).
Proof.
  assert (H : is_ascii sample_cv = true) by (vm_compute; reflexivity).
  split; [exact H |].
  exact (proj1 (proj2 (proj2 (X6_quantified_bullets_hold_a_digit sample_cv H)))).
Defined.
